(** * CoopBase: registration, approval and login flows over a pooled store

    A shallow embedding of [backend/controllers/authController.js] together
    with the persistence gateway and the schema of [backend/config/db.js].

    The controller talks to the database only through
    [query = (sql, params) => pool.execute(sql, params)].  Every call
    borrows some connection of the pool, runs one statement on it and gives
    the connection back; transaction state (START TRANSACTION / COMMIT /
    ROLLBACK) belongs to the connection the statement happened to run on.
    The model therefore keeps the committed tables and the open transaction
    of every pooled connection, and lets the environment decide for each
    statement which connection serves it and whether the server fails it.

    How the server is modelled:
    - a connection without an open transaction autocommits each write; a
      connection with one stages its writes, which only that connection
      reads, until COMMIT applies them or ROLLBACK drops them;
    - the primary keys, UNIQUE columns and foreign keys of the DDL are
      checked when a write runs, against what its connection reads; a
      refused or failed statement changes nothing and rejects the promise;
    - anything else that can fail a statement (a lost connection, a lock
      wait on another connection's staged rows, a value too long for its
      column) is the environment's [fault];
    - strings compare exactly, and rows carry no timestamps. *)

From stdpp Require Import base option list gmap strings.
From Stdlib Require Import Ascii String List Lia.

Open Scope string_scope.
Open Scope list_scope.

(** ** Rows of the schema created by [initializeDatabase] *)

Inductive SocietyStatus := status_pending | status_approved | status_rejected.
Inductive Role := role_developer | role_society_admin | role_member.
Inductive UserStatus := user_active | user_inactive | user_suspended.
Inductive DocumentType := doc_registration_certificate | doc_bylaws | doc_additional.

Inductive JsonValue := JString (s : string) | JNumber (n : nat) | JNull.
Definition Json := list (string * JsonValue).

Record Society := {
  s_id : string;
  s_name : string;
  s_registration_number : string;
  s_society_type : string;
  s_establishment_date : string;
  s_address : string;
  s_status : SocietyStatus
}.

Record User := {
  u_id : string;
  u_email : string;
  u_password : string;
  u_name : string;
  u_phone : option string;
  u_role : Role;
  u_society_id : option string;
  u_status : UserStatus
}.

Record SocietyDocument := {
  d_id : string;
  d_society_id : string;
  d_document_type : DocumentType;
  d_file_name : string;
  d_file_path : string;
  d_file_size : nat;
  d_mime_type : string
}.

Record AuditLog := {
  a_id : string;
  a_user_id : option string;
  a_society_id : option string;
  a_action : string;
  a_table_name : string;
  a_record_id : string;
  a_old_values : option Json;
  a_new_values : option Json;
  a_ip_address : string;
  a_user_agent : string
}.

Record Tables := {
  societies : list Society;
  users : list User;
  society_documents : list SocietyDocument;
  audit_logs : list AuditLog
}.

Definition status_eqb (a b : SocietyStatus) : bool :=
  match a, b with
  | status_pending, status_pending
  | status_approved, status_approved
  | status_rejected, status_rejected => true
  | _, _ => false
  end.

Definition role_eqb (a b : Role) : bool :=
  match a, b with
  | role_developer, role_developer
  | role_society_admin, role_society_admin
  | role_member, role_member => true
  | _, _ => false
  end.

Definition user_status_eqb (a b : UserStatus) : bool :=
  match a, b with
  | user_active, user_active
  | user_inactive, user_inactive
  | user_suspended, user_suspended => true
  | _, _ => false
  end.

Definition role_name (r : Role) : string :=
  match r with
  | role_developer => "developer"
  | role_society_admin => "society_admin"
  | role_member => "member"
  end.

Definition status_name (s : SocietyStatus) : string :=
  match s with
  | status_pending => "pending"
  | status_approved => "approved"
  | status_rejected => "rejected"
  end.

(** ** Writes and their effect on the tables *)

Inductive Write :=
| InsertSociety (r : Society)
| InsertUser (r : User)
| InsertDocument (r : SocietyDocument)
| InsertAuditLog (r : AuditLog)
| UpdateSocietyStatus (st : SocietyStatus) (id : string).

Definition set_status (st : SocietyStatus) (r : Society) : Society :=
  {| s_id := s_id r; s_name := s_name r;
     s_registration_number := s_registration_number r;
     s_society_type := s_society_type r;
     s_establishment_date := s_establishment_date r;
     s_address := s_address r; s_status := st |}.

(** [UPDATE societies SET status = ? WHERE id = ?] *)
Definition update_status (st : SocietyStatus) (id : string) (l : list Society)
  : list Society :=
  map (fun r => if String.eqb (s_id r) id then set_status st r else r) l.

Definition apply_write (op : Write) (T : Tables) : Tables :=
  match op with
  | InsertSociety r =>
      {| societies := societies T ++ [r]; users := users T;
         society_documents := society_documents T; audit_logs := audit_logs T |}
  | InsertUser r =>
      {| societies := societies T; users := users T ++ [r];
         society_documents := society_documents T; audit_logs := audit_logs T |}
  | InsertDocument r =>
      {| societies := societies T; users := users T;
         society_documents := society_documents T ++ [r];
         audit_logs := audit_logs T |}
  | InsertAuditLog r =>
      {| societies := societies T; users := users T;
         society_documents := society_documents T;
         audit_logs := audit_logs T ++ [r] |}
  | UpdateSocietyStatus st id =>
      {| societies := update_status st id (societies T); users := users T;
         society_documents := society_documents T; audit_logs := audit_logs T |}
  end.

Definition apply_writes (ops : list Write) (T : Tables) : Tables :=
  fold_left (fun acc op => apply_write op acc) ops T.

(** ** Constraints of the DDL: primary keys, UNIQUE columns, foreign keys *)

Definition has_string (x : string) (l : list string) : bool :=
  existsb (String.eqb x) l.

Definition references (x : option string) (l : list string) : bool :=
  match x with
  | None => true
  | Some k => has_string k l
  end.

Definition admissible (op : Write) (T : Tables) : bool :=
  match op with
  | InsertSociety r =>
      negb (has_string (s_id r) (map s_id (societies T)))
      && negb (has_string (s_registration_number r)
                 (map s_registration_number (societies T)))
  | InsertUser r =>
      negb (has_string (u_id r) (map u_id (users T)))
      && negb (has_string (u_email r) (map u_email (users T)))
      && references (u_society_id r) (map s_id (societies T))
  | InsertDocument r =>
      negb (has_string (d_id r) (map d_id (society_documents T)))
      && has_string (d_society_id r) (map s_id (societies T))
  | InsertAuditLog r =>
      negb (has_string (a_id r) (map a_id (audit_logs T)))
      && references (a_user_id r) (map u_id (users T))
      && references (a_society_id r) (map s_id (societies T))
  | UpdateSocietyStatus _ _ => true
  end.

(** ** The pool, the environment and the world *)

(** [connectionLimit: 10] of [dbConfig]. *)
Definition connectionLimit : nat := 10.

(** The statements the controller sends, by their SQL text. *)
Inductive Sql :=
| SELECT_developer_by_email
| SELECT_society_admin_by_email
| SELECT_society_by_registration_number
| SELECT_user_by_email
| SELECT_pending_societies
| START_TRANSACTION
| COMMIT
| ROLLBACK
| INSERT_INTO_societies
| INSERT_INTO_users
| INSERT_INTO_society_documents
| INSERT_INTO_audit_logs
| UPDATE_societies_status.

Definition is_audit_insert (q : Sql) : bool :=
  match q with INSERT_INTO_audit_logs => true | _ => false end.

(** Payload of a token: what [jwt.sign] is given and [jwt.verify] returns. *)
Record Claims := {
  c_userId : string;
  c_email : string;
  c_role : string;
  c_societyId : option string
}.

(** Everything the controller does not decide itself.  [pool_pick t] is the
    connection the pool hands to the [t]-th statement, [fault t q] tells
    whether the server fails that statement for a reason outside the model
    (lost connection, lock wait timeout, data too long for a column...);
    the remaining fields are the library calls. *)
Record Env := {
  pool_pick : nat -> nat;
  fault : nat -> Sql -> bool;
  uuid : nat -> string;
  bcrypt_hash : string -> string;
  bcrypt_compare : string -> string -> bool;
  jwt_sign : Claims -> string;
  jwt_verify : string -> option Claims
}.

(** [committed]: the tables as every connection outside a transaction sees
    them.  [txns]: for each connection with an open transaction, the writes
    it has staged.  [clock]: statements sent so far.  [uuids]: calls to
    [uuidv4] so far.  [journal]: every write the server accepted, in order. *)
Record World := {
  committed : Tables;
  txns : gmap nat (list Write);
  clock : nat;
  uuids : nat;
  journal : list Write
}.

Definition staged (w : World) (c : nat) : list Write :=
  default [] (txns w !! c).

(** What a statement running on connection [c] reads. *)
Definition view (w : World) (c : nat) : Tables :=
  apply_writes (staged w c) (committed w).

Definition tick (w : World) : World :=
  {| committed := committed w; txns := txns w; clock := S (clock w);
     uuids := uuids w; journal := journal w |}.

Definition next_uuid (w : World) : World :=
  {| committed := committed w; txns := txns w; clock := clock w;
     uuids := S (uuids w); journal := journal w |}.

(** A write goes to the connection's open transaction when it has one and
    straight to the committed tables (autocommit) when it has none. *)
Definition perform (op : Write) (c : nat) (w : World) : World :=
  match txns w !! c with
  | Some ops =>
      {| committed := committed w; txns := <[c := ops ++ [op]]> (txns w);
         clock := clock w; uuids := uuids w; journal := journal w ++ [op] |}
  | None =>
      {| committed := apply_write op (committed w); txns := txns w;
         clock := clock w; uuids := uuids w; journal := journal w ++ [op] |}
  end.

(** START TRANSACTION commits whatever the connection had open and opens a
    fresh transaction on it. *)
Definition begin_on (c : nat) (w : World) : World :=
  {| committed := view w c; txns := <[c := []]> (txns w);
     clock := clock w; uuids := uuids w; journal := journal w |}.

Definition commit_on (c : nat) (w : World) : World :=
  {| committed := view w c; txns := delete c (txns w);
     clock := clock w; uuids := uuids w; journal := journal w |}.

Definition rollback_on (c : nat) (w : World) : World :=
  {| committed := committed w; txns := delete c (txns w);
     clock := clock w; uuids := uuids w; journal := journal w |}.

(** ** Promises: state, and rejection as an exception *)

Inductive Error :=
| QueryError (q : Sql)
| TypeError
| JsonWebTokenError.

Inductive Outcome (A : Type) :=
| Ok (a : A)
| Throw (e : Error).
Arguments Ok {A} a.
Arguments Throw {A} e.

Definition M (A : Type) : Type := World -> Outcome A * World.

Definition ret {A} (a : A) : M A := fun w => (Ok a, w).

Definition throw {A} (e : Error) : M A := fun w => (Throw e, w).

Definition bind {A B} (m : M A) (k : A -> M B) : M B :=
  fun w =>
    match m w with
    | (Ok a, w') => k a w'
    | (Throw e, w') => (Throw e, w')
    end.

Definition try_catch {A} (m : M A) (handler : Error -> M A) : M A :=
  fun w =>
    match m w with
    | (Ok a, w') => (Ok a, w')
    | (Throw e, w') => handler e w'
    end.

Notation "'let!' x ':=' m 'in' k" := (bind m (fun x => k))
  (at level 10, x pattern, m at level 100, k at level 200).

(** ** Values as JavaScript sees them *)

(** [!x] is false exactly for a non-empty string; a field that was not sent
    is [undefined]. *)
Definition truthy (x : option string) : bool :=
  match x with
  | Some s => negb (String.eqb s "")
  | None => false
  end.

Definition str (x : option string) : string := default "" x.

(** An object or an array is truthy whatever it holds. *)
Definition present {A} (x : option A) : bool :=
  match x with
  | Some _ => true
  | None => false
  end.

(** [s.split(' ')] *)
Fixpoint split_space (s : string) : list string :=
  match s with
  | EmptyString => [""]
  | String c rest =>
      if Ascii.eqb c " "%char then "" :: split_space rest
      else match split_space rest with
           | h :: t => String c h :: t
           | [] => [String c ""]
           end
  end.

(** [req.headers.authorization?.split(' ')[1]] *)
Definition bearer_token (authorization : option string) : option string :=
  match authorization with
  | Some h => nth_error (split_space h) 1
  | None => None
  end.

(** ** Requests and responses *)

Record File := {
  fieldname : string;
  originalname : string;
  path : string;
  size : nat;
  mimetype : string
}.

(** [req.files] after [upload.fields]: a key is present when at least one
    file arrived under it. *)
Record Files := {
  registrationCertificate : option (list File);
  bylaws : option (list File);
  additionalDocs : option (list File)
}.

Record LoginRequest := {
  login_email : option string;
  login_password : option string;
  login_ip : string;
  login_user_agent : string
}.

Record RegisterRequest := {
  societyName : option string;
  registrationNumber : option string;
  societyType : option string;
  establishmentDate : option string;
  societyAddress : option string;
  adminName : option string;
  adminEmail : option string;
  adminPhone : option string;
  password : option string;
  files : option Files;
  register_ip : string;
  register_user_agent : string
}.

Record PendingRequest := {
  pending_authorization : option string
}.

Record ApprovalRequest := {
  societyId : string;
  approval_status : option string;
  approval_reason : option string;
  approval_authorization : option string;
  approval_ip : string;
  approval_user_agent : string
}.

Record UserSummary := {
  us_id : string;
  us_email : string;
  us_name : string;
  us_role : string;
  us_societyName : option string
}.

Record PendingSociety := {
  p_society : Society;
  p_admin_name : option string;
  p_admin_email : option string;
  p_admin_phone : option string;
  p_document_count : nat
}.

Record DocumentEntry := {
  e_type : string;
  e_fileName : string
}.

Inductive Payload :=
| ErrorBody (error message : string)
| LoginBody (message token : string) (society : option string)
    (user : UserSummary)
| RegisterBody (message society status : string)
    (documents : list DocumentEntry)
| PendingBody (message : string) (rows : list PendingSociety)
| ApprovalBody (message society status : string).

Record Response := {
  status : nat;
  json : Payload
}.

Definition Handler : Type := World -> Response * World.

(** The outer [try { ... } catch (error) { res.status(500).json(...) }]. *)
Definition handle (m : M Response) (on_error : Response) : Handler :=
  fun w =>
    match m w with
    | (Ok r, w') => (r, w')
    | (Throw _, w') => (on_error, w')
    end.

(** ** What the SELECT statements return *)

Definition opt_string_eqb (a : option string) (b : string) : bool :=
  match a with
  | Some x => String.eqb x b
  | None => false
  end.

(** [SELECT * FROM users WHERE email = ? AND role = "developer"
     AND status = "active"] *)
Definition developers_by_email (email : string) (T : Tables) : list User :=
  List.filter
    (fun u => String.eqb (u_email u) email
              && role_eqb (u_role u) role_developer
              && user_status_eqb (u_status u) user_active)
    (users T).

(** [SELECT u.*, s.id as society_id, s.name as society_name,
     s.status as society_status FROM users u JOIN societies s
     ON u.society_id = s.id WHERE u.email = ? AND u.role = "society_admin"
     AND u.status = "active"] *)
Definition society_admins_by_email (email : string) (T : Tables)
  : list (User * Society) :=
  flat_map
    (fun u =>
       map (pair u)
         (List.filter (fun s => opt_string_eqb (u_society_id u) (s_id s))
            (societies T)))
    (List.filter
       (fun u => String.eqb (u_email u) email
                 && role_eqb (u_role u) role_society_admin
                 && user_status_eqb (u_status u) user_active)
       (users T)).

(** [SELECT id FROM societies WHERE registration_number = ?] *)
Definition societies_by_registration_number (number : string) (T : Tables)
  : list string :=
  map s_id
    (List.filter (fun s => String.eqb (s_registration_number s) number)
       (societies T)).

(** [SELECT id FROM users WHERE email = ?] *)
Definition users_by_email (email : string) (T : Tables) : list string :=
  map u_id (List.filter (fun u => String.eqb (u_email u) email) (users T)).

(** The pending list: societies LEFT JOIN their admins LEFT JOIN their
    documents, grouped by society, newest first.  Rows carry no timestamp
    here, so insertion order stands for [created_at]. *)
Definition pending_societies (T : Tables) : list PendingSociety :=
  map
    (fun s =>
       let admins :=
         List.filter
           (fun u => opt_string_eqb (u_society_id u) (s_id s)
                     && role_eqb (u_role u) role_society_admin)
           (users T) in
       let docs :=
         List.filter (fun d => String.eqb (d_society_id d) (s_id s))
           (society_documents T) in
       {| p_society := s;
          p_admin_name := option_map u_name (head admins);
          p_admin_email := option_map u_email (head admins);
          p_admin_phone := head admins ≫= u_phone;
          p_document_count := Nat.max 1 (length admins) * length docs |})
    (rev (List.filter (fun s => status_eqb (s_status s) status_pending)
            (societies T))).

(** ** The persistence gateway *)

Section Controller.

Context (E : Env).

(** The connection that serves the [t]-th statement. *)
Definition conn_at (t : nat) : nat := pool_pick E t mod connectionLimit.

(** The tables the next statement will read. *)
Definition visible (w : World) : Tables := view w (conn_at (clock w)).

(** [query(sql, params)], that is [pool.execute]: one statement on whichever
    connection the pool hands out.  A failed statement changes nothing. *)
Definition query {A} (sql : Sql) (run : nat -> World -> option (A * World))
  : M A :=
  fun w =>
    if fault E (clock w) sql then (Throw (QueryError sql), tick w)
    else match run (conn_at (clock w)) (tick w) with
         | Some (a, w') => (Ok a, w')
         | None => (Throw (QueryError sql), tick w)
         end.

Definition rows_of {A} (f : Tables -> A) : nat -> World -> option (A * World) :=
  fun c w => Some (f (view w c), w).

Definition row_write (op : Write) : nat -> World -> option (unit * World) :=
  fun c w =>
    if admissible op (view w c) then Some (tt, perform op c w) else None.

Definition control (f : nat -> World -> World)
  : nat -> World -> option (unit * World) :=
  fun c w => Some (tt, f c w).

Definition uuidv4 : M string :=
  fun w => (Ok (uuid E (uuids w)), next_uuid w).

(** ** logAuditTrail *)

(** The row of [INSERT INTO audit_logs (id, user_id, society_id, action,
    table_name, record_id, old_values, new_values, ip_address, user_agent)]. *)
Definition audit_log_row (id : string) (userId societyId : option string)
    (action tableName recordId : string) (oldValues newValues : option Json)
    (ipAddress userAgent : string) : AuditLog :=
  {| a_id := id; a_user_id := userId; a_society_id := societyId;
     a_action := action; a_table_name := tableName; a_record_id := recordId;
     a_old_values := oldValues; a_new_values := newValues;
     a_ip_address := ipAddress; a_user_agent := userAgent |}.

Definition logAuditTrail (userId societyId : option string)
    (action tableName recordId : string) (oldValues newValues : option Json)
    (ipAddress userAgent : string) : M unit :=
  try_catch
    (let! id := uuidv4 in
     query INSERT_INTO_audit_logs
       (row_write
          (InsertAuditLog
             (audit_log_row id userId societyId action tableName recordId
                oldValues newValues ipAddress userAgent))))
    (fun _ => ret tt).

(** ** developerLogin *)

Definition respond (code : nat) (body : Payload) : Response :=
  {| status := code; json := body |}.

Definition developerLogin (req : LoginRequest) : Handler :=
  handle
    (if negb (truthy (login_email req)) || negb (truthy (login_password req))
     then ret (respond 400 (ErrorBody "Missing required fields"
                              "Email and password are required"))
     else
       let email := str (login_email req) in
       let password := str (login_password req) in
       let! users :=
         query SELECT_developer_by_email (rows_of (developers_by_email email)) in
       match users with
       | [] => ret (respond 401 (ErrorBody "Authentication failed"
                                   "Invalid email or password"))
       | user :: _ =>
           if negb (bcrypt_compare E password (u_password user))
           then ret (respond 401 (ErrorBody "Authentication failed"
                                    "Invalid email or password"))
           else
             let token :=
               jwt_sign E {| c_userId := u_id user; c_email := u_email user;
                             c_role := role_name (u_role user);
                             c_societyId := None |} in
             let! _ :=
               logAuditTrail (Some (u_id user)) None "LOGIN" "users"
                 (u_id user) None
                 (Some [("email", JString (u_email user));
                        ("role", JString (role_name (u_role user)))])
                 (login_ip req) (login_user_agent req) in
             ret (respond 200
                    (LoginBody "Login successful" token None
                       {| us_id := u_id user; us_email := u_email user;
                          us_name := u_name user;
                          us_role := role_name (u_role user);
                          us_societyName := None |}))
       end)
    (respond 500 (ErrorBody "Internal server error"
                    "An error occurred during login")).

(** ** societyLogin *)

Definition societyLogin (req : LoginRequest) : Handler :=
  handle
    (if negb (truthy (login_email req)) || negb (truthy (login_password req))
     then ret (respond 400 (ErrorBody "Missing required fields"
                              "Email and password are required"))
     else
       let email := str (login_email req) in
       let password := str (login_password req) in
       let! users :=
         query SELECT_society_admin_by_email
           (rows_of (society_admins_by_email email)) in
       match users with
       | [] => ret (respond 401 (ErrorBody "Authentication failed"
                                   "Invalid email or password"))
       | (user, society) :: _ =>
           if negb (status_eqb (s_status society) status_approved)
           then ret (respond 403
                       (ErrorBody "Society not approved"
                          "Your society registration is still pending approval"))
           else if negb (bcrypt_compare E password (u_password user))
           then ret (respond 401 (ErrorBody "Authentication failed"
                                    "Invalid email or password"))
           else
             let token :=
               jwt_sign E {| c_userId := u_id user; c_email := u_email user;
                             c_role := role_name (u_role user);
                             c_societyId := Some (s_id society) |} in
             let! _ :=
               logAuditTrail (Some (u_id user)) (Some (s_id society)) "LOGIN"
                 "users" (u_id user) None
                 (Some [("email", JString (u_email user));
                        ("role", JString (role_name (u_role user)));
                        ("society_id", JString (s_id society))])
                 (login_ip req) (login_user_agent req) in
             ret (respond 200
                    (LoginBody "Login successful" token (Some (s_id society))
                       {| us_id := u_id user; us_email := u_email user;
                          us_name := u_name user;
                          us_role := role_name (u_role user);
                          us_societyName := Some (s_name society) |}))
       end)
    (respond 500 (ErrorBody "Internal server error"
                    "An error occurred during login")).

(** ** societyRegister *)

Definition document_type_name (k : DocumentType) : string :=
  match k with
  | doc_registration_certificate => "registration_certificate"
  | doc_bylaws => "bylaws"
  | doc_additional => "additional"
  end.

Definition document_row (id society : string) (k : DocumentType) (f : File)
  : SocietyDocument :=
  {| d_id := id; d_society_id := society; d_document_type := k;
     d_file_name := originalname f; d_file_path := path f;
     d_file_size := size f; d_mime_type := mimetype f |}.

Definition document_entry (k : DocumentType) (f : File) : DocumentEntry :=
  {| e_type := document_type_name k; e_fileName := originalname f |}.

(** One [INSERT INTO society_documents] and the manifest entry pushed after
    it.  [file] is [None] when the array read with [[0]] was empty:
    [file.originalname] then throws while the parameters are built. *)
Definition save_document (society : string) (k : DocumentType)
    (file : option File) : M DocumentEntry :=
  let! documentId := uuidv4 in
  match file with
  | None => throw TypeError
  | Some f =>
      let! _ :=
        query INSERT_INTO_society_documents
          (row_write (InsertDocument (document_row documentId society k f))) in
      ret (document_entry k f)
  end.

(** [for (const file of req.files.additionalDocs)] *)
Fixpoint save_additional (society : string) (fs : list File)
    (documents : list DocumentEntry) : M (list DocumentEntry) :=
  match fs with
  | [] => ret documents
  | f :: rest =>
      let! d := save_document society doc_additional (Some f) in
      save_additional society rest (documents ++ [d])
  end.

Definition society_row (id : string) (req : RegisterRequest) : Society :=
  {| s_id := id; s_name := str (societyName req);
     s_registration_number := str (registrationNumber req);
     s_society_type := str (societyType req);
     s_establishment_date := str (establishmentDate req);
     s_address := str (societyAddress req); s_status := status_pending |}.

Definition admin_row (id society : string) (req : RegisterRequest) : User :=
  {| u_id := id; u_email := str (adminEmail req);
     u_password := bcrypt_hash E (str (password req));
     u_name := str (adminName req); u_phone := Some (str (adminPhone req));
     u_role := role_society_admin; u_society_id := Some society;
     u_status := user_active |}.

(** The body of the inner [try]: the inserts, COMMIT, the audit entry and
    the 201 response. *)
Definition register_unit (req : RegisterRequest) (fs : option Files)
  : M Response :=
  let! society := uuidv4 in
  let! _ :=
    query INSERT_INTO_societies
      (row_write (InsertSociety (society_row society req))) in
  let! userId := uuidv4 in
  let! _ :=
    query INSERT_INTO_users
      (row_write (InsertUser (admin_row userId society req))) in
  let! documents :=
    match fs ≫= registrationCertificate with
    | Some l =>
        let! d := save_document society doc_registration_certificate (head l) in
        ret [d]
    | None => ret []
    end in
  let! documents :=
    match fs ≫= bylaws with
    | Some l =>
        let! d := save_document society doc_bylaws (head l) in
        ret (documents ++ [d])
    | None => ret documents
    end in
  let! documents :=
    match fs ≫= additionalDocs with
    | Some l => save_additional society l documents
    | None => ret documents
    end in
  let! _ := query COMMIT (control commit_on) in
  let! _ :=
    logAuditTrail (Some userId) (Some society) "SOCIETY_REGISTRATION"
      "societies" society None
      (Some [("society_name", JString (str (societyName req)));
             ("registration_number", JString (str (registrationNumber req)));
             ("admin_email", JString (str (adminEmail req)));
             ("documents_count", JNumber (length documents))])
      (register_ip req) (register_user_agent req) in
  ret (respond 201
         (RegisterBody "Society registration submitted successfully" society
            "pending" documents)).

Definition fields_missing (req : RegisterRequest) : bool :=
  negb (truthy (societyName req)) || negb (truthy (registrationNumber req))
  || negb (truthy (societyType req)) || negb (truthy (establishmentDate req))
  || negb (truthy (societyAddress req)) || negb (truthy (adminName req))
  || negb (truthy (adminEmail req)) || negb (truthy (adminPhone req))
  || negb (truthy (password req)).

(** [!req.files || !req.files.registrationCertificate || !req.files.bylaws]:
    an array is truthy even when empty. *)
Definition files_missing (fs : option Files) : bool :=
  match fs with
  | None => true
  | Some f =>
      negb (present (registrationCertificate f)) || negb (present (bylaws f))
  end.

Definition societyRegister (req : RegisterRequest) : Handler :=
  handle
    (if fields_missing req
     then ret (respond 400 (ErrorBody "Missing required fields"
                              "All required fields must be provided"))
     else
       let! existingSocieties :=
         query SELECT_society_by_registration_number
           (rows_of (societies_by_registration_number
                       (str (registrationNumber req)))) in
       if Nat.ltb 0 (length existingSocieties)
       then ret (respond 409
                   (ErrorBody "Registration number already exists"
                      "A society with this registration number is already registered"))
       else
         let! existingUsers :=
           query SELECT_user_by_email
             (rows_of (users_by_email (str (adminEmail req)))) in
         if Nat.ltb 0 (length existingUsers)
         then ret (respond 409
                     (ErrorBody "Email already exists"
                        "A user with this email is already registered"))
         else
           if files_missing (files req)
           then ret (respond 400
                       (ErrorBody "Missing required documents"
                          "Registration certificate and bylaws are required"))
           else
             let! _ := query START_TRANSACTION (control begin_on) in
             try_catch (register_unit req (files req))
               (fun error =>
                  let! _ := query ROLLBACK (control rollback_on) in
                  throw error))
    (respond 500 (ErrorBody "Internal server error"
                    "An error occurred during registration")).

(** ** getPendingSocieties *)

Definition getPendingSocieties (req : PendingRequest) : Handler :=
  handle
    (let token := bearer_token (pending_authorization req) in
     if negb (truthy token)
     then ret (respond 401 (ErrorBody "Unauthorized" "Access token required"))
     else
       match jwt_verify E (str token) with
       | None => throw JsonWebTokenError
       | Some decoded =>
           if negb (String.eqb (c_role decoded) "developer")
           then ret (respond 403 (ErrorBody "Forbidden" "Access denied"))
           else
             let! societies :=
               query SELECT_pending_societies (rows_of pending_societies) in
             ret (respond 200
                    (PendingBody "Pending societies retrieved successfully"
                       societies))
       end)
    (respond 500
       (ErrorBody "Internal server error"
          "An error occurred while retrieving pending societies")).

(** ** updateSocietyApproval *)

(** [['approved', 'rejected'].includes(status)], with the value the UPDATE
    then writes. *)
Definition decision (s : option string) : option SocietyStatus :=
  match s with
  | Some x =>
      if String.eqb x "approved" then Some status_approved
      else if String.eqb x "rejected" then Some status_rejected
      else None
  | None => None
  end.

(** [reason || null] *)
Definition reason_or_null (reason : option string) : JsonValue :=
  if truthy reason then JString (str reason) else JNull.

(** The 400 message is the source's without the quotation marks it puts
    around the two words. *)
Definition updateSocietyApproval (req : ApprovalRequest) : Handler :=
  handle
    (match decision (approval_status req) with
     | None =>
         ret (respond 400
                (ErrorBody "Invalid status"
                   "Status must be either approved or rejected"))
     | Some st =>
         let token := bearer_token (approval_authorization req) in
         if negb (truthy token)
         then ret (respond 401
                     (ErrorBody "Unauthorized" "Access token required"))
         else
           match jwt_verify E (str token) with
           | None => throw JsonWebTokenError
           | Some decoded =>
               if negb (String.eqb (c_role decoded) "developer")
               then ret (respond 403 (ErrorBody "Forbidden" "Access denied"))
               else
                 let! _ :=
                   query UPDATE_societies_status
                     (row_write (UpdateSocietyStatus st (societyId req))) in
                 let! _ :=
                   logAuditTrail (Some (c_userId decoded))
                     (Some (societyId req)) "SOCIETY_APPROVAL_UPDATE"
                     "societies" (societyId req) None
                     (Some [("status", JString (status_name st));
                            ("reason",
                             reason_or_null (approval_reason req))])
                     (approval_ip req) (approval_user_agent req) in
                 ret (respond 200
                        (ApprovalBody
                           ("Society " ++ status_name st ++ " successfully")%string
                           (societyId req) (status_name st)))
           end
     end)
    (respond 500
       (ErrorBody "Internal server error"
          "An error occurred while updating society approval")).

(** ** Society.updateStatus *)

(** The model class sends the same UPDATE.  [query] resolves to the array
    [[result, fields]], which has no [affectedRows]: [result.affectedRows > 0]
    compares [undefined] with 0 and is false. *)
Definition Society_updateStatus (id : string) (st : SocietyStatus) : M bool :=
  let! _ :=
    query UPDATE_societies_status (row_write (UpdateSocietyStatus st id)) in
  ret false.

End Controller.

(** * Vocabulary of the properties *)

(** ** Responses named by the specification *)

Definition unauthorized : Response :=
  respond 401 (ErrorBody "Unauthorized" "Access token required").

Definition forbidden : Response :=
  respond 403 (ErrorBody "Forbidden" "Access denied").

Definition invalid_status : Response :=
  respond 400 (ErrorBody "Invalid status"
                 "Status must be either approved or rejected").

Definition bad_credentials : Response :=
  respond 401 (ErrorBody "Authentication failed" "Invalid email or password").

Definition not_approved : Response :=
  respond 403 (ErrorBody "Society not approved"
                 "Your society registration is still pending approval").

Definition missing_fields : Response :=
  respond 400 (ErrorBody "Missing required fields"
                 "All required fields must be provided").

Definition missing_documents : Response :=
  respond 400 (ErrorBody "Missing required documents"
                 "Registration certificate and bylaws are required").

Definition number_taken : Response :=
  respond 409 (ErrorBody "Registration number already exists"
                 "A society with this registration number is already registered").

Definition email_taken : Response :=
  respond 409 (ErrorBody "Email already exists"
                 "A user with this email is already registered").

Definition approval_done (st : SocietyStatus) (id : string) : Response :=
  respond 200
    (ApprovalBody ("Society " ++ status_name st ++ " successfully")%string
       id (status_name st)).

Definition approval_failed : Response :=
  respond 500 (ErrorBody "Internal server error"
                 "An error occurred while updating society approval").

(** The audit entry an approval update asks for. *)
Definition approval_entry (id : string) (decoded : Claims)
    (st : SocietyStatus) (req : ApprovalRequest) : AuditLog :=
  audit_log_row id (Some (c_userId decoded)) (Some (societyId req))
    "SOCIETY_APPROVAL_UPDATE" "societies" (societyId req) None
    (Some [("status", JString (status_name st));
           ("reason", reason_or_null (approval_reason req))])
    (approval_ip req) (approval_user_agent req).

Definition registration_failed : Response :=
  respond 500 (ErrorBody "Internal server error"
                 "An error occurred during registration").

(** ** Callers *)

(** The request carries no token: no Authorization header, or nothing (or
    the empty string) after its first space. *)
Definition no_token (authorization : option string) : Prop :=
  truthy (bearer_token authorization) = false.

(** The request carries a token that verifies and decodes to [decoded]. *)
Definition token_decodes (E : Env) (authorization : option string)
    (decoded : Claims) : Prop :=
  truthy (bearer_token authorization) = true
  /\ jwt_verify E (str (bearer_token authorization)) = Some decoded.

(** Both credentials were sent and are not empty. *)
Definition supplied (req : LoginRequest) : Prop :=
  truthy (login_email req) = true /\ truthy (login_password req) = true.

(** ** The store *)

(** The three tables of the business flows. *)
Definition business (T : Tables)
  : list Society * list User * list SocietyDocument :=
  (societies T, users T, society_documents T).

(** UNIQUE (email) and PRIMARY KEY (id) of societies, as properties of the
    rows a statement reads. *)
Definition unique_emails (T : Tables) : Prop :=
  forall u1 u2, In u1 (users T) -> In u2 (users T) ->
    u_email u1 = u_email u2 -> u1 = u2.

Definition unique_society_ids (T : Tables) : Prop :=
  forall s1 s2, In s1 (societies T) -> In s2 (societies T) ->
    s_id s1 = s_id s2 -> s1 = s2.

Definition rows_with_id (id : string) (l : list Society) : list Society :=
  List.filter (fun s => String.eqb (s_id s) id) l.

(** No connection of the pool has a transaction open. *)
Definition quiescent (w : World) : Prop := txns w = ∅.

(** The world [logAuditTrail] leaves behind. *)
Definition audited (E : Env) (userId societyId : option string)
    (action tableName recordId : string) (oldValues newValues : option Json)
    (ipAddress userAgent : string) (w : World) : World :=
  snd (logAuditTrail E userId societyId action tableName recordId oldValues
         newValues ipAddress userAgent w).

(** The server fails none of the [n] statements sent from the [t]-th on. *)
Definition answered (E : Env) (t n : nat) : Prop :=
  forall k q, k < n -> fault E (t + k) q = false.

(** From the [t0]-th statement on the pool hands out connection [c] and no
    other. *)
Definition pinned (E : Env) (c t0 : nat) : Prop :=
  forall t, t0 <= t -> conn_at E t = c.

(** Where a registration unit stands: [w0] is the world START TRANSACTION
    left, [ops] the writes the server has accepted since, [w] the world
    now.  When the pool keeps handing out the connection the transaction was
    opened on, those writes are staged on it and nothing is committed.
    When that transaction was the only one open, each write is either
    applied to the committed tables ([direct]) or staged on the connection
    that opened it ([held]). *)
Record progress (E : Env) (w0 : World) (ops : list Write) (w : World)
  : Prop := {
  pr_journal : journal w = journal w0 ++ ops;
  pr_clock : clock w0 <= clock w;
  pr_staged :
    forall c, pinned E c (clock w0) -> txns w0 !! c = Some [] ->
    committed w = committed w0 /\ txns w = <[c := ops]> (txns w0);
  pr_stored :
    forall a, txns w0 = {[a := []]} ->
    exists direct held,
      committed w = apply_writes direct (committed w0)
      /\ txns w = {[a := held]}
      /\ Permutation (direct ++ held) ops
}.

(** The rows a list of writes inserts, table by table. *)
Definition inserted_societies (ops : list Write) : list Society :=
  flat_map (fun op => match op with InsertSociety r => [r] | _ => [] end) ops.

Definition inserted_users (ops : list Write) : list User :=
  flat_map (fun op => match op with InsertUser r => [r] | _ => [] end) ops.

Definition inserted_documents (ops : list Write) : list SocietyDocument :=
  flat_map (fun op => match op with InsertDocument r => [r] | _ => [] end) ops.

Definition is_update (op : Write) : bool :=
  match op with UpdateSocietyStatus _ _ => true | _ => false end.

(** Two runs that agree on the response and on everything any connection
    can read from, or will commit to, the three business tables. *)
Definition same_outcome (r1 r2 : Response * World) : Prop :=
  fst r1 = fst r2
  /\ business (committed (snd r1)) = business (committed (snd r2))
  /\ forall c, business (view (snd r1) c) = business (view (snd r2) c).

(** The environment [E] with the fate of every audit insert replaced by
    [g]; everything else is as in [E]. *)
Definition with_audit_fault (g : nat -> bool) (E : Env) : Env :=
  {| pool_pick := pool_pick E;
     fault := fun t q => if is_audit_insert q then g t else fault E t q;
     uuid := uuid E;
     bcrypt_hash := bcrypt_hash E;
     bcrypt_compare := bcrypt_compare E;
     jwt_sign := jwt_sign E;
     jwt_verify := jwt_verify E |}.

(** ** Uploaded files *)

(** What [upload.fields] with [maxCount] 1, 1 and 3 hands to the handler
    when both required files arrived. *)
Definition as_uploaded (fs : option Files) (certificate bylaw : File)
    (extra : list File) : Prop :=
  exists f,
    fs = Some f
    /\ registrationCertificate f = Some [certificate]
    /\ bylaws f = Some [bylaw]
    /\ default [] (additionalDocs f) = extra.

(** The accepted files with the kind each is recorded under. *)
Definition accepted (certificate bylaw : File) (extra : list File)
  : list (DocumentType * File) :=
  (doc_registration_certificate, certificate)
    :: (doc_bylaws, bylaw) :: map (pair doc_additional) extra.

(** What a document row says about the file it records. *)
Definition recorded (d : SocietyDocument)
  : string * DocumentType * (string * string * nat * string) :=
  (d_society_id d, d_document_type d,
   (d_file_name d, d_file_path d, d_file_size d, d_mime_type d)).

Definition expected (society : string) (kf : DocumentType * File)
  : string * DocumentType * (string * string * nat * string) :=
  (society, fst kf,
   (originalname (snd kf), path (snd kf), size (snd kf), mimetype (snd kf))).

(** The files the unit sends an insert for: the first of the certificate
    array, the first of the bylaws array, every additional document. *)
Definition first_file (k : DocumentType) (part : option (list File))
  : list (DocumentType * File) :=
  match part with
  | Some l =>
      match head l with
      | Some f => [(k, f)]
      | None => []
      end
  | None => []
  end.

Definition recorded_files (fs : option Files) : list (DocumentType * File) :=
  first_file doc_registration_certificate (fs ≫= registrationCertificate)
  ++ first_file doc_bylaws (fs ≫= bylaws)
  ++ map (pair doc_additional) (default [] (fs ≫= additionalDocs)).

Definition manifest (l : list (DocumentType * File)) : list DocumentEntry :=
  map (fun kf => document_entry (fst kf) (snd kf)) l.

Definition registration_done (society : string)
    (l : list (DocumentType * File)) : Response :=
  respond 201
    (RegisterBody "Society registration submitted successfully" society
       "pending" (manifest l)).

(** The world a registration that commits leaves: COMMIT on whichever
    connection serves it, then the audit recorder. *)
Definition committed_and_audited (E : Env) (req : RegisterRequest)
    (society user : string) (count : nat) (w : World) : World :=
  audited E (Some user) (Some society) "SOCIETY_REGISTRATION" "societies"
    society None
    (Some [("society_name", JString (str (societyName req)));
           ("registration_number", JString (str (registrationNumber req)));
           ("admin_email", JString (str (adminEmail req)));
           ("documents_count", JNumber count)])
    (register_ip req) (register_user_agent req)
    (commit_on (conn_at E (clock w)) (tick w)).

(** The world START TRANSACTION leaves when it is answered: it is the third
    statement of a registration, after the two lookups. *)
Definition begun (E : Env) (w : World) : World :=
  begin_on (conn_at E (S (S (clock w)))) (tick (tick (tick w))).

(** ** Scenarios *)

Definition letter (n : nat) : string :=
  String (Ascii.ascii_of_nat (65 + n)) "".

Definition dev_claims : Claims :=
  {| c_userId := "dev"; c_email := "admin@coopbase.com";
     c_role := "developer"; c_societyId := None |}.

(** One connection, no failures. *)
Definition calm : Env :=
  {| pool_pick := fun _ => 0;
     fault := fun _ _ => false;
     uuid := letter;
     bcrypt_hash := fun p => ("h:" ++ p)%string;
     bcrypt_compare := fun p h => String.eqb ("h:" ++ p)%string h;
     jwt_sign := fun c => ("t:" ++ c_role c)%string;
     jwt_verify := fun t =>
       if String.eqb t "t:developer"
       then Some dev_claims
       else if String.eqb t "t:society_admin"
       then Some {| c_userId := "adm"; c_email := "a@alpha.coop";
                    c_role := "society_admin"; c_societyId := Some "alpha" |}
       else None |}.

(** The fourth statement (INSERT INTO societies) is served by a second
    connection and the fifth (INSERT INTO users) fails. *)
Definition unpinned : Env :=
  {| pool_pick := fun t => if Nat.eqb t 3 then 1 else 0;
     fault := fun t _ => Nat.eqb t 4;
     uuid := uuid calm;
     bcrypt_hash := bcrypt_hash calm;
     bcrypt_compare := bcrypt_compare calm;
     jwt_sign := jwt_sign calm;
     jwt_verify := jwt_verify calm |}.

(** Every statement is served by connection 0 except the eighth (COMMIT),
    which is served by connection 1; nothing fails. *)
Definition stray_commit : Env :=
  {| pool_pick := fun t => if Nat.eqb t 7 then 1 else 0;
     fault := fun _ _ => false;
     uuid := uuid calm;
     bcrypt_hash := bcrypt_hash calm;
     bcrypt_compare := bcrypt_compare calm;
     jwt_sign := jwt_sign calm;
     jwt_verify := jwt_verify calm |}.

Definition dev : User :=
  {| u_id := "dev"; u_email := "admin@coopbase.com";
     u_password := "h:admin123"; u_name := "System Administrator";
     u_phone := Some "+1234567890"; u_role := role_developer;
     u_society_id := None; u_status := user_active |}.

Definition alpha : Society :=
  {| s_id := "alpha"; s_name := "Alpha Co-op";
     s_registration_number := "RC-001"; s_society_type := "credit";
     s_establishment_date := "2020-01-01"; s_address := "1 Main St";
     s_status := status_pending |}.

Definition alpha_admin : User :=
  {| u_id := "adm"; u_email := "a@alpha.coop"; u_password := "h:secret";
     u_name := "Ada"; u_phone := Some "555"; u_role := role_society_admin;
     u_society_id := Some "alpha"; u_status := user_active |}.

Definition world_of (T : Tables) : World :=
  {| committed := T; txns := ∅; clock := 0; uuids := 0; journal := [] |}.

(** After [setup.js]: the default developer and nothing else. *)
Definition fresh : World :=
  world_of {| societies := []; users := [dev]; society_documents := [];
              audit_logs := [] |}.

Definition approved_alpha : Society := set_status status_approved alpha.

(** Alpha Co-op registered and approved. *)
Definition with_approved_alpha : World :=
  world_of {| societies := [approved_alpha]; users := [dev; alpha_admin];
              society_documents := []; audit_logs := [] |}.

(** Alpha Co-op registered and still pending. *)
Definition with_alpha : World :=
  world_of {| societies := [alpha]; users := [dev; alpha_admin];
              society_documents := []; audit_logs := [] |}.

Definition certificate_png : File :=
  {| fieldname := "registrationCertificate"; originalname := "cert.png";
     path := "uploads/societies/cert.png"; size := 2048;
     mimetype := "image/png" |}.

Definition bylaws_pdf : File :=
  {| fieldname := "bylaws"; originalname := "bylaws.pdf";
     path := "uploads/societies/bylaws.pdf"; size := 4096;
     mimetype := "application/pdf" |}.

Definition register_alpha (name : option string) (fs : option Files)
  : RegisterRequest :=
  {| societyName := name; registrationNumber := Some "RC-001";
     societyType := Some "credit"; establishmentDate := Some "2020-01-01";
     societyAddress := Some "1 Main St"; adminName := Some "Ada";
     adminEmail := Some "a@alpha.coop"; adminPhone := Some "555";
     password := Some "secret"; files := fs;
     register_ip := "10.0.0.1"; register_user_agent := "curl" |}.

Definition both_files : option Files :=
  Some {| registrationCertificate := Some [certificate_png];
          bylaws := Some [bylaws_pdf]; additionalDocs := None |}.

Definition minutes_png : File :=
  {| fieldname := "additionalDocs"; originalname := "minutes.png";
     path := "uploads/societies/minutes.png"; size := 1024;
     mimetype := "image/png" |}.

Definition three_files : option Files :=
  Some {| registrationCertificate := Some [certificate_png];
          bylaws := Some [bylaws_pdf]; additionalDocs := Some [minutes_png] |}.

Definition login_as (email password : option string) : LoginRequest :=
  {| login_email := email; login_password := password;
     login_ip := "10.0.0.1"; login_user_agent := "curl" |}.

Definition approve_alpha : ApprovalRequest :=
  {| societyId := "alpha"; approval_status := Some "approved";
     approval_reason := Some "documents verified";
     approval_authorization := Some "Bearer t:developer";
     approval_ip := "10.0.0.1"; approval_user_agent := "curl" |}.

Definition approve_as (authorization status : option string) (id : string)
  : ApprovalRequest :=
  {| societyId := id; approval_status := status; approval_reason := None;
     approval_authorization := authorization;
     approval_ip := "10.0.0.1"; approval_user_agent := "curl" |}.

(** * Further vocabulary *)

(** ** Sessions *)

Definition missing_credentials : Response :=
  respond 400 (ErrorBody "Missing required fields"
                 "Email and password are required").

Definition login_failed : Response :=
  respond 500 (ErrorBody "Internal server error"
                 "An error occurred during login").

(** What [jwt.sign] is given by the two logins. *)
Definition developer_claims (u : User) : Claims :=
  {| c_userId := u_id u; c_email := u_email u;
     c_role := role_name (u_role u); c_societyId := None |}.

Definition society_claims (u : User) (s : Society) : Claims :=
  {| c_userId := u_id u; c_email := u_email u;
     c_role := role_name (u_role u); c_societyId := Some (s_id s) |}.

Definition developer_session (E : Env) (u : User) : Response :=
  respond 200
    (LoginBody "Login successful" (jwt_sign E (developer_claims u)) None
       {| us_id := u_id u; us_email := u_email u; us_name := u_name u;
          us_role := role_name (u_role u); us_societyName := None |}).

Definition society_session (E : Env) (u : User) (s : Society) : Response :=
  respond 200
    (LoginBody "Login successful" (jwt_sign E (society_claims u s))
       (Some (s_id s))
       {| us_id := u_id u; us_email := u_email u; us_name := u_name u;
          us_role := role_name (u_role u);
          us_societyName := Some (s_name s) |}).

(** The token a response carries, when it carries one. *)
Definition issued_token (r : Response) : option string :=
  match json r with
  | LoginBody _ token _ _ => Some token
  | _ => None
  end.

(** ** The Authorization header *)

Fixpoint no_space (s : string) : bool :=
  match s with
  | EmptyString => true
  | String c rest => negb (Ascii.eqb c " "%char) && no_space rest
  end.

(** The header a client sends with a token. *)
Definition bearer (token : string) : option string :=
  Some ("Bearer " ++ token)%string.

Definition pending_failed : Response :=
  respond 500
    (ErrorBody "Internal server error"
       "An error occurred while retrieving pending societies").

Definition pending_listed (rows : list PendingSociety) : Response :=
  respond 200 (PendingBody "Pending societies retrieved successfully" rows).

(** The header with any first word in place of [Bearer]. *)
Definition with_scheme (scheme token : string) : option string :=
  Some (scheme ++ " " ++ token)%string.

(** [jwt.verify] accepts what [jwt.sign] produced, and returns the role that
    was signed. *)
Definition verifies_own_tokens (E : Env) : Prop :=
  forall c, exists decoded,
    jwt_verify E (jwt_sign E c) = Some decoded /\ c_role decoded = c_role c.

(** The header was sent, holds a non-empty second word, and [jwt.verify]
    rejects that word. *)
Definition token_rejected (E : Env) (authorization : option string) : Prop :=
  truthy (bearer_token authorization) = true
  /\ jwt_verify E (str (bearer_token authorization)) = None.

(** Tokens that carry the role and nothing else. *)
Definition signing : Env :=
  {| pool_pick := fun _ => 0;
     fault := fun _ _ => false;
     uuid := fun n => String (Ascii.ascii_of_nat (65 + n)) "";
     bcrypt_hash := fun p => ("h:" ++ p)%string;
     bcrypt_compare := fun p h => String.eqb ("h:" ++ p)%string h;
     jwt_sign := fun c => ("t:" ++ c_role c)%string;
     jwt_verify := fun t =>
       match t with
       | String a (String b role) =>
           if Ascii.eqb a "t"%char && Ascii.eqb b ":"%char
           then Some {| c_userId := "dev"; c_email := "admin@coopbase.com";
                        c_role := role; c_societyId := None |}
           else None
       | _ => None
       end |}.

(** ** What a flow may do to the store *)

(** The same row but, possibly, for its status. *)
Definition same_but_status (s s' : Society) : Prop :=
  set_status (s_status s) s' = s.

(** [T'] holds every row of [T], each where it was: users, documents and
    audit entries unchanged, societies unchanged but, possibly, for their
    status; whatever else [T'] holds comes after them. *)
Record grows (T T' : Tables) : Prop := {
  gr_societies :
    exists kept,
      kept `prefix_of` societies T'
      /\ Forall2 same_but_status (societies T) kept;
  gr_users : users T `prefix_of` users T';
  gr_documents : society_documents T `prefix_of` society_documents T';
  gr_audit_logs : audit_logs T `prefix_of` audit_logs T'
}.

Definition never_shrinks (w w' : World) : Prop :=
  grows (committed w) (committed w').

(** Every run of [m] relates the world it starts in to the one it leaves. *)
Definition keeps (R : World -> World -> Prop) {A} (m : M A) : Prop :=
  forall w, R w (snd (m w)).

(** Nothing any connection can read from, or will commit to, the business
    tables has changed. *)
Definition reads_only (w w' : World) : Prop :=
  business (committed w') = business (committed w)
  /\ forall c, business (view w' c) = business (view w c).

(** Societies row by row: those with the given id may differ in status,
    the others are the same. *)
Definition only_status_of (id : string) (before after : list Society) : Prop :=
  Forall2
    (fun s s' =>
       if String.eqb (s_id s) id then same_but_status s s' else s' = s)
    before after.

(** ** A registration on one connection *)

Definition ids_in_use (T : Tables) : list string :=
  map s_id (societies T) ++ map u_id (users T)
  ++ map d_id (society_documents T) ++ map a_id (audit_logs T).

(** The next [n] ids [uuidv4] draws are distinct and name no row of the
    committed tables. *)
Definition fresh_ids (E : Env) (w : World) (n : nat) : Prop :=
  (forall i j, i < n -> j < n ->
     uuid E (uuids w + i) = uuid E (uuids w + j) -> i = j)
  /\ forall i, i < n -> ~ In (uuid E (uuids w + i)) (ids_in_use (committed w)).

(** The document rows of the files [l], with ids drawn from the [i]-th on. *)
Fixpoint stored_from (E : Env) (society : string) (i : nat)
    (l : list (DocumentType * File)) : list SocietyDocument :=
  match l with
  | [] => []
  | kf :: rest =>
      document_row (uuid E i) society (fst kf) (snd kf)
        :: stored_from E society (S i) rest
  end.

(** The society, the administrator and the documents of a registration
    that starts in [w]: [uuidv4] is called for the society, then for the
    user, then once per file. *)
Definition new_society (E : Env) (w : World) (req : RegisterRequest)
  : Society :=
  society_row (uuid E (uuids w)) req.

Definition new_admin (E : Env) (w : World) (req : RegisterRequest) : User :=
  admin_row E (uuid E (S (uuids w))) (uuid E (uuids w)) req.

Definition new_documents (E : Env) (w : World)
    (l : list (DocumentType * File)) : list SocietyDocument :=
  stored_from E (uuid E (uuids w)) (uuids w + 2) l.

Definition unit_ops (E : Env) (w : World) (req : RegisterRequest)
    (l : list (DocumentType * File)) : list Write :=
  [InsertSociety (new_society E w req); InsertUser (new_admin E w req)]
  ++ map InsertDocument (new_documents E w l).

(** [wk] is [w] after [k] statements and [n] calls of [uuidv4], with the
    writes [ops] staged on connection [c] and nothing committed. *)
Record in_unit (c : nat) (w : World) (ops : list Write) (k n : nat)
    (wk : World) : Prop := {
  iu_committed : committed wk = committed w;
  iu_txns : txns wk = <[c := ops]> (txns w);
  iu_clock : clock wk = clock w + k;
  iu_uuids : uuids wk = uuids w + n;
  iu_journal : journal wk = journal w ++ ops
}.

(** No user and no document refers to the society [id]. *)
Definition unreferenced (id : string) (T : Tables) : Prop :=
  (forall u, In u (users T) -> u_society_id u <> Some id)
  /\ forall d, In d (society_documents T) -> d_society_id d <> id.

(** One connection, and the server refuses every insert into users. *)
Definition refusing_users : Env :=
  {| pool_pick := fun _ => 0;
     fault := fun _ q =>
       match q with INSERT_INTO_users => true | _ => false end;
     uuid := uuid signing;
     bcrypt_hash := bcrypt_hash signing;
     bcrypt_compare := bcrypt_compare signing;
     jwt_sign := jwt_sign signing;
     jwt_verify := jwt_verify signing |}.

(** * The registration route: what files it lets through *)

(** ** fileFilter *)

Definition images_and_pdf : list string :=
  ["image/jpeg"; "image/jpg"; "image/png"; "application/pdf"].

(** What [allowedTypes[fieldName]] finds: a list under one of the three
    keys of the table, a property every object inherits from
    [Object.prototype], or nothing. *)
Inductive Property :=
| Own (types : list string)
| Inherited
| Undefined.

Definition object_prototype : list string :=
  ["constructor"; "__defineGetter__"; "__defineSetter__"; "hasOwnProperty";
   "__lookupGetter__"; "__lookupSetter__"; "isPrototypeOf";
   "propertyIsEnumerable"; "toString"; "valueOf"; "__proto__";
   "toLocaleString"].

Definition allowedTypes (fieldName : string) : Property :=
  if String.eqb fieldName "registration_certificate" then Own images_and_pdf
  else if String.eqb fieldName "bylaws" then Own ["application/pdf"]
  else if String.eqb fieldName "additional_docs" then Own images_and_pdf
  else if has_string fieldName object_prototype then Inherited
  else Undefined.

(** [cb(null, true)], [cb(new Error(message), false)], or the TypeError of
    calling [includes] on something that has none. *)
Inductive Filtered :=
| Accept
| Reject (message : string)
| Crash.

(** [allowedMimeTypes.join(', ')] *)
Definition join_types (l : list string) : string := String.concat ", " l.

Definition fileFilter (file : File) : Filtered :=
  let fieldName := fieldname file in
  match
    match allowedTypes fieldName with
    | Own l => Some l
    | Inherited => None
    | Undefined => Some images_and_pdf
    end
  with
  | None => Crash
  | Some allowedMimeTypes =>
      if has_string (mimetype file) allowedMimeTypes then Accept
      else Reject ("Invalid file type for " ++ fieldName
                   ++ ". Allowed types: " ++ join_types allowedMimeTypes)%string
  end.

(** ** The router's error middleware *)

(** An error on its way through the router: whether it is a
    [multer.MulterError], its code and its message. *)
Record Raised := {
  is_multer : bool;
  code : string;
  message : string
}.

(** [haystack.includes(needle)] *)
Fixpoint includes (needle haystack : string) : bool :=
  String.prefix needle haystack
  || match haystack with
     | EmptyString => false
     | String _ rest => includes needle rest
     end.

(** [None] is [next(error)]. *)
Definition upload_error_handler (error : Raised) : option Response :=
  if is_multer error && String.eqb (code error) "LIMIT_FILE_SIZE"
  then Some (respond 400
               (ErrorBody "File too large"
                  "File size exceeds the maximum allowed limit"))
  else if is_multer error && String.eqb (code error) "LIMIT_FILE_COUNT"
  then Some (respond 400
               (ErrorBody "Too many files"
                  "Number of files exceeds the maximum allowed limit"))
  else if is_multer error && String.eqb (code error) "LIMIT_UNEXPECTED_FILE"
  then Some (respond 400
               (ErrorBody "Unexpected file field"
                  "Unexpected file field in the request"))
  else if includes "Invalid file type" (message error)
  then Some (respond 400 (ErrorBody "Invalid file type" (message error)))
  else None.

(** The error [fileFilter] hands to its callback: a plain [Error]. *)
Definition filter_error (message : string) : Raised :=
  {| is_multer := false; code := ""; message := message |}.

(** The field names of [upload.fields]. *)
Definition route_fields : list string :=
  ["registrationCertificate"; "bylaws"; "additionalDocs"].

(** * The flows outside the claims: setup and society details *)

(** ** Their statements *)

Inductive Statement :=
| SELECT_1
| CREATE_TABLE_IF_NOT_EXISTS (table : string)
| SELECT_developer_ids
| INSERT_default_developer
| SELECT_society_with_admin
| SELECT_society_documents.

(** A promise that resolves to a value or rejects. *)
Definition Script (A : Type) : Type := World -> option A * World.

Definition resolve {A} (a : A) : Script A := fun w => (Some a, w).

Definition and_then {A B} (m : Script A) (k : A -> Script B) : Script B :=
  fun w =>
    match m w with
    | (Some a, w') => k a w'
    | (None, w') => (None, w')
    end.

(** [SELECT id FROM users WHERE role = "developer"] *)
Definition developer_ids (T : Tables) : list string :=
  map u_id
    (List.filter (fun u => role_eqb (u_role u) role_developer) (users T)).

(** A society with the columns [admin_name], [admin_email], [admin_phone]
    of the LEFT JOIN: all three are NULL when no administrator matched. *)
Record SocietyWithAdmin := {
  wa_society : Society;
  wa_admin_name : option string;
  wa_admin_email : option string;
  wa_admin_phone : option string
}.

Definition with_admin (s : Society) (u : option User) : SocietyWithAdmin :=
  {| wa_society := s;
     wa_admin_name := option_map u_name u;
     wa_admin_email := option_map u_email u;
     wa_admin_phone := u ≫= u_phone |}.

(** [SELECT s.*, u.name as admin_name, u.email as admin_email,
     u.phone as admin_phone FROM societies s LEFT JOIN users u
     ON s.id = u.society_id AND u.role = 'society_admin' WHERE s.id = ?] *)
Definition society_with_admin (id : string) (T : Tables)
  : list SocietyWithAdmin :=
  flat_map
    (fun s =>
       match
         List.filter
           (fun u => opt_string_eqb (u_society_id u) (s_id s)
                     && role_eqb (u_role u) role_society_admin)
           (users T)
       with
       | [] => [with_admin s None]
       | admins => map (fun u => with_admin s (Some u)) admins
       end)
    (List.filter (fun s => String.eqb (s_id s) id) (societies T)).

(** [ORDER BY uploaded_at DESC].  The rows carry no timestamp here, and
    [uploaded_at] has a resolution of one second, so that the documents of
    one registration share it: which of two rows comes first is the
    server's to say.  [newer a b] holds when it puts [a] before [b]; the
    result is the rows given, in the order those answers lead to. *)
Fixpoint insert_by {A} (before : A -> A -> bool) (a : A) (l : list A)
  : list A :=
  match l with
  | [] => [a]
  | b :: rest =>
      if before a b then a :: b :: rest else b :: insert_by before a rest
  end.

Definition order_by {A} (before : A -> A -> bool) (l : list A) : list A :=
  fold_right (insert_by before) [] l.

(** [SELECT * FROM society_documents WHERE society_id = ?
     ORDER BY uploaded_at DESC] *)
Definition documents_of (newer : SocietyDocument -> SocietyDocument -> bool)
    (id : string) (T : Tables) : list SocietyDocument :=
  order_by newer
    (List.filter (fun d => String.eqb (d_society_id d) id)
       (society_documents T)).

Inductive DetailsPayload :=
| DetailsError (error message : string)
| DetailsBody (message : string) (society : SocietyWithAdmin)
    (documents : list SocietyDocument).

Record DetailsResponse := {
  details_status : nat;
  details_json : DetailsPayload
}.

(** The tables of [initializeDatabase], in the order it creates them. *)
Definition schema : list string :=
  ["societies"; "users"; "society_documents"; "services"; "members";
   "transactions"; "audit_logs"].

Section Gateway.

Context (E : Env).

(** Which of these statements the server fails, statement by statement. *)
Context (refused : nat -> Statement -> bool).

(** The order in which the server returns documents. *)
Context (newer : SocietyDocument -> SocietyDocument -> bool).

(** [query(sql, params)] again, for the statements above. *)
Definition execute {A} (sql : Statement)
    (run : nat -> World -> option (A * World)) : Script A :=
  fun w =>
    if refused (clock w) sql then (None, tick w)
    else match run (conn_at E (clock w)) (tick w) with
         | Some (a, w') => (Some a, w')
         | None => (None, tick w)
         end.

Definition draw_uuid : Script string :=
  fun w => (Some (uuid E (uuids w)), next_uuid w).

(** ** getSocietyDetails *)

Definition details_failed : DetailsResponse :=
  {| details_status := 500;
     details_json :=
       DetailsError "Internal server error"
         "An error occurred while retrieving society details" |}.

Definition society_not_found : DetailsResponse :=
  {| details_status := 404;
     details_json :=
       DetailsError "Society not found"
         "The requested society does not exist" |}.

Definition details_found (society : SocietyWithAdmin)
    (documents : list SocietyDocument) : DetailsResponse :=
  {| details_status := 200;
     details_json :=
       DetailsBody "Society details retrieved successfully" society
         documents |}.

(** The handler reads [req.params.societyId] and nothing else of the
    request. *)
Definition getSocietyDetails (societyId : string)
  : World -> DetailsResponse * World :=
  fun w =>
    match
      and_then
        (execute SELECT_society_with_admin
           (rows_of (society_with_admin societyId)))
        (fun societies =>
           match societies with
           | [] => resolve society_not_found
           | society :: _ =>
               and_then
                 (execute SELECT_society_documents
                    (rows_of (documents_of newer societyId)))
                 (fun documents => resolve (details_found society documents))
           end) w
    with
    | (Some r, w') => (r, w')
    | (None, w') => (details_failed, w')
    end.

(** ** setup.js *)

(** [CREATE TABLE] commits whatever transaction its connection has open. *)
Fixpoint create_tables (tables : list string) : Script unit :=
  match tables with
  | [] => resolve tt
  | t :: rest =>
      and_then (execute (CREATE_TABLE_IF_NOT_EXISTS t) (control commit_on))
        (fun _ => create_tables rest)
  end.

Definition initializeDatabase : Script unit := create_tables schema.

Definition default_developer (id : string) : User :=
  {| u_id := id; u_email := "admin@coopbase.com";
     u_password := bcrypt_hash E "admin123";
     u_name := "System Administrator"; u_phone := Some "+1234567890";
     u_role := role_developer; u_society_id := None;
     u_status := user_active |}.

(** [setupDatabase] with the exit code of the process: 0 when the promise
    resolves, 1 when anything was caught. *)
Definition setupDatabase : World -> nat * World :=
  fun w =>
    match
      and_then (execute SELECT_1 (rows_of (fun _ => tt)))
        (fun _ =>
           and_then initializeDatabase
             (fun _ =>
                and_then
                  (execute SELECT_developer_ids (rows_of developer_ids))
                  (fun existingDevelopers =>
                     if Nat.ltb 0 (length existingDevelopers)
                     then resolve tt
                     else
                       and_then draw_uuid
                         (fun developerId =>
                            execute INSERT_default_developer
                              (row_write
                                 (InsertUser
                                    (default_developer developerId))))))) w
    with
    | (Some _, w') => (0, w')
    | (None, w') => (1, w')
    end.

End Gateway.

(** The server fails none of the [n] statements of these flows sent from
    the [t]-th on. *)
Definition accepted_from (refused : nat -> Statement -> bool) (t n : nat)
  : Prop :=
  forall k q, k < n -> refused (t + k) q = false.

(** The credentials [setup.js] prints. *)
Definition default_login : LoginRequest :=
  {| login_email := Some "admin@coopbase.com";
     login_password := Some "admin123";
     login_ip := "127.0.0.1"; login_user_agent := "browser" |}.

(** No statement of these flows ever fails. *)
Definition obliging : nat -> Statement -> bool := fun _ _ => false.

(** The documents the server returns last stored first. *)
Definition last_first : SocietyDocument -> SocietyDocument -> bool :=
  fun _ _ => false.

(** A store with no row at all. *)
Definition blank : World :=
  {| committed :=
       {| societies := []; users := []; society_documents := [];
          audit_logs := [] |};
     txns := ∅; clock := 0; uuids := 0; journal := [] |}.

(** ** A registration answered 201 and lost *)

(** A second society, registering after Alpha Co-op. *)
Definition register_beta : RegisterRequest :=
  {| societyName := Some "Beta Co-op"; registrationNumber := Some "RC-002";
     societyType := Some "credit"; establishmentDate := Some "2021-01-01";
     societyAddress := Some "2 Main St"; adminName := Some "Bea";
     adminEmail := Some "b@beta.coop"; adminPhone := Some "556";
     password := Some "hidden"; files := both_files;
     register_ip := "10.0.0.2"; register_user_agent := "curl" |}.

(** Two requests on a pool with two connections in use.  Every statement
    is served by connection 0 except the eighth, the COMMIT of the first
    request, and the twelfth, the START TRANSACTION of the second, which
    connection 1 serves; the fourteenth, the second request's INSERT INTO
    users, fails. *)
Definition lost_commit : Env :=
  {| pool_pick := fun t => if Nat.eqb t 7 || Nat.eqb t 11 then 1 else 0;
     fault := fun t _ => Nat.eqb t 13;
     uuid := uuid calm;
     bcrypt_hash := bcrypt_hash calm;
     bcrypt_compare := bcrypt_compare calm;
     jwt_sign := jwt_sign calm;
     jwt_verify := jwt_verify calm |}.


(** * Properties *)

(** ** The developer gate *)

Lemma getPendingSocieties_no_token E req w :
  no_token (pending_authorization req) ->
  getPendingSocieties E req w = (unauthorized, w).
Proof.
  unfold no_token, getPendingSocieties, handle. intros ->. reflexivity.
Qed.

Lemma getPendingSocieties_wrong_role E req decoded w :
  token_decodes E (pending_authorization req) decoded ->
  c_role decoded <> "developer" ->
  getPendingSocieties E req w = (forbidden, w).
Proof.
  unfold token_decodes, getPendingSocieties, handle. intros [-> ->] Hrole.
  apply String.eqb_neq in Hrole. cbn. rewrite Hrole. reflexivity.
Qed.

Lemma updateSocietyApproval_no_token E req st w :
  decision (approval_status req) = Some st ->
  no_token (approval_authorization req) ->
  updateSocietyApproval E req w = (unauthorized, w).
Proof.
  unfold no_token, updateSocietyApproval, handle. intros -> ->. reflexivity.
Qed.

Lemma updateSocietyApproval_wrong_role E req st decoded w :
  decision (approval_status req) = Some st ->
  token_decodes E (approval_authorization req) decoded ->
  c_role decoded <> "developer" ->
  updateSocietyApproval E req w = (forbidden, w).
Proof.
  unfold token_decodes, updateSocietyApproval, handle. intros -> [-> ->] Hrole.
  apply String.eqb_neq in Hrole. cbn. rewrite Hrole. reflexivity.
Qed.

Lemma updateSocietyApproval_invalid_status E req w :
  decision (approval_status req) = None ->
  updateSocietyApproval E req w = (invalid_status, w).
Proof.
  unfold updateSocietyApproval, handle. intros ->. reflexivity.
Qed.

(** C3, as stated, fails on the approval endpoint: the status of the body
    is validated before the token is looked at, so a request without a token
    and without a valid status is answered 400, not 401. *)
Lemma C3_counterexample :
  ~ (forall E req w,
       no_token (approval_authorization req) ->
       updateSocietyApproval E req w = (unauthorized, w)).
Proof.
  intros H.
  specialize (H calm (approve_as None (Some "maybe") "alpha") fresh eq_refl).
  discriminate H.
Qed.

(** C3 (amended): the pending list rejects a request without a token with
    401 and one whose token decodes to a role other than developer with
    403; the approval update does the same once the status of the body is
    approved or rejected; with any other status it answers 400 whatever the
    token.  In all five cases no statement is sent: the world is returned as
    it was. *)
Theorem C3_developer_gate E w :
  (forall req, no_token (pending_authorization req) ->
     getPendingSocieties E req w = (unauthorized, w))
  /\ (forall req decoded,
        token_decodes E (pending_authorization req) decoded ->
        c_role decoded <> "developer" ->
        getPendingSocieties E req w = (forbidden, w))
  /\ (forall req st, decision (approval_status req) = Some st ->
        no_token (approval_authorization req) ->
        updateSocietyApproval E req w = (unauthorized, w))
  /\ (forall req st decoded,
        decision (approval_status req) = Some st ->
        token_decodes E (approval_authorization req) decoded ->
        c_role decoded <> "developer" ->
        updateSocietyApproval E req w = (forbidden, w))
  /\ (forall req, decision (approval_status req) = None ->
        updateSocietyApproval E req w = (invalid_status, w)).
Proof.
  repeat split; intros.
  - by apply getPendingSocieties_no_token.
  - by eapply getPendingSocieties_wrong_role.
  - by eapply updateSocietyApproval_no_token.
  - by eapply updateSocietyApproval_wrong_role.
  - by apply updateSocietyApproval_invalid_status.
Qed.

Lemma C3_developer_gate_witness :
  getPendingSocieties calm {| pending_authorization := None |} with_alpha
  = (unauthorized, with_alpha)
  /\ getPendingSocieties calm
       {| pending_authorization := Some "Bearer t:society_admin" |} with_alpha
     = (forbidden, with_alpha)
  /\ updateSocietyApproval calm
       (approve_as (Some "Bearer") (Some "approved") "alpha") with_alpha
     = (unauthorized, with_alpha)
  /\ updateSocietyApproval calm
       (approve_as (Some "Bearer t:society_admin") (Some "rejected") "alpha")
       with_alpha
     = (forbidden, with_alpha)
  /\ updateSocietyApproval calm
       (approve_as (Some "Bearer t:developer") (Some "pending") "alpha")
       with_alpha
     = (invalid_status, with_alpha).
Proof.
  destruct (C3_developer_gate calm with_alpha) as (H1 & H2 & H3 & H4 & H5).
  split; [| split; [| split; [| split]]].
  - apply H1. reflexivity.
  - eapply H2.
    + split; reflexivity.
    + simpl. discriminate.
  - eapply H3; reflexivity.
  - eapply H4.
    + reflexivity.
    + split; reflexivity.
    + simpl. discriminate.
  - apply H5. reflexivity.
Defined.

(** ** Staged writes and what a connection reads *)

Lemma apply_writes_app ops1 ops2 T :
  apply_writes (ops1 ++ ops2) T = apply_writes ops2 (apply_writes ops1 T).
Proof. unfold apply_writes. apply fold_left_app. Qed.

Lemma apply_writes_snoc ops op T :
  apply_writes (ops ++ [op]) T = apply_write op (apply_writes ops T).
Proof. rewrite apply_writes_app. reflexivity. Qed.

Lemma view_idle w c : txns w !! c = None -> view w c = committed w.
Proof. unfold view, staged. intros ->. reflexivity. Qed.

Lemma view_quiescent w c : quiescent w -> view w c = committed w.
Proof.
  unfold quiescent. intros H. apply view_idle. rewrite H. apply lookup_empty.
Qed.

Lemma update_status_ids st id l :
  map s_id (update_status st id l) = map s_id l.
Proof.
  unfold update_status. rewrite map_map. apply map_ext.
  intros r. destruct (String.eqb (s_id r) id); reflexivity.
Qed.

Lemma update_status_numbers st id l :
  map s_registration_number (update_status st id l)
  = map s_registration_number l.
Proof.
  unfold update_status. rewrite map_map. apply map_ext.
  intros r. destruct (String.eqb (s_id r) id); reflexivity.
Qed.

Lemma update_status_absent st id l :
  (forall s, In s l -> s_id s <> id) -> update_status st id l = l.
Proof.
  unfold update_status. intros H. rewrite <- (map_id l) at 2.
  apply map_ext_in. intros r Hr.
  destruct (String.eqb_spec (s_id r) id) as [Heq | _]; [| reflexivity].
  destruct (H r Hr Heq).
Qed.

(** A registration number, once in the table, is in every view built on it:
    no write removes a society or changes its number. *)
Lemma numbers_apply_write op T x :
  In x (map s_registration_number (societies T)) ->
  In x (map s_registration_number (societies (apply_write op T))).
Proof.
  destruct op; simpl; try tauto.
  - rewrite map_app, in_app_iff. tauto.
  - rewrite update_status_numbers. tauto.
Qed.

Lemma numbers_apply_writes ops T x :
  In x (map s_registration_number (societies T)) ->
  In x (map s_registration_number (societies (apply_writes ops T))).
Proof.
  revert T. induction ops as [| op ops IH]; intros T H; [exact H |].
  simpl. apply IH. by apply numbers_apply_write.
Qed.


(** ** One statement *)

Lemma query_fault {A} E q (run : nat -> World -> option (A * World)) w :
  fault E (clock w) q = true ->
  query E q run w = (Throw (QueryError q), tick w).
Proof. unfold query. intros ->. reflexivity. Qed.

Lemma query_rows {A} E q (f : Tables -> A) w :
  fault E (clock w) q = false ->
  query E q (rows_of f) w = (Ok (f (visible E w)), tick w).
Proof. unfold query, rows_of. intros ->. reflexivity. Qed.

Lemma query_control E q f w :
  fault E (clock w) q = false ->
  query E q (control f) w = (Ok tt, f (conn_at E (clock w)) (tick w)).
Proof. unfold query, control. intros ->. reflexivity. Qed.

Lemma query_write E q op w :
  fault E (clock w) q = false ->
  admissible op (visible E w) = true ->
  query E q (row_write op) w
  = (Ok tt, perform op (conn_at E (clock w)) (tick w)).
Proof.
  unfold query, row_write, visible. intros -> H.
  change (view (tick w) (conn_at E (clock w))) with (view w (conn_at E (clock w))).
  rewrite H. reflexivity.
Qed.

Lemma query_write_refused E q op w :
  admissible op (visible E w) = false ->
  query E q (row_write op) w = (Throw (QueryError q), tick w).
Proof.
  unfold query, row_write, visible. intros H.
  change (view (tick w) (conn_at E (clock w))) with (view w (conn_at E (clock w))).
  rewrite H. destruct (fault E (clock w) q); reflexivity.
Qed.

(** Whatever a write statement answers, it answered because the server
    accepted the write or because it did not. *)
Lemma query_write_cases E q op w :
  (query E q (row_write op) w
   = (Ok tt, perform op (conn_at E (clock w)) (tick w))
   /\ fault E (clock w) q = false
   /\ admissible op (visible E w) = true)
  \/ query E q (row_write op) w = (Throw (QueryError q), tick w).
Proof.
  destruct (fault E (clock w) q) eqn:Hf.
  - right. by apply query_fault.
  - destruct (admissible op (visible E w)) eqn:Ha.
    + left. split; [by apply query_write | done].
    + right. by apply query_write_refused.
Qed.

Lemma query_control_cases E q f w :
  (query E q (control f) w = (Ok tt, f (conn_at E (clock w)) (tick w))
   /\ fault E (clock w) q = false)
  \/ query E q (control f) w = (Throw (QueryError q), tick w).
Proof.
  destruct (fault E (clock w) q) eqn:Hf.
  - right. by apply query_fault.
  - left. split; [by apply query_control | done].
Qed.

(** ** Logging in *)

Lemma role_eqb_eq a b : role_eqb a b = true <-> a = b.
Proof. destruct a, b; simpl; split; (done || discriminate). Qed.

Lemma user_status_eqb_eq a b : user_status_eqb a b = true <-> a = b.
Proof. destruct a, b; simpl; split; (done || discriminate). Qed.

Lemma status_eqb_eq a b : status_eqb a b = true <-> a = b.
Proof. destruct a, b; simpl; split; (done || discriminate). Qed.

Lemma opt_string_eqb_eq a b : opt_string_eqb a b = true <-> a = Some b.
Proof.
  destruct a as [x |]; simpl.
  - rewrite String.eqb_eq. split; [by intros -> | by intros [= ->]].
  - split; discriminate.
Qed.

(** The rows of the society login's join. *)
Lemma in_society_admins_by_email email T u s :
  In (u, s) (society_admins_by_email email T)
  <-> (In u (users T) /\ u_email u = email /\ u_role u = role_society_admin
       /\ u_status u = user_active)
      /\ In s (societies T) /\ u_society_id u = Some (s_id s).
Proof.
  unfold society_admins_by_email. rewrite in_flat_map. split.
  - intros (u' & Hu' & Hin).
    apply in_map_iff in Hin. destruct Hin as (s' & [= <- <-] & Hs').
    apply filter_In in Hu'. destruct Hu' as (Hu' & Hc).
    apply filter_In in Hs'. destruct Hs' as (Hs' & Hj).
    apply andb_true_iff in Hc. destruct Hc as (Hc & Hst).
    apply andb_true_iff in Hc. destruct Hc as (He & Hr).
    apply String.eqb_eq in He. apply role_eqb_eq in Hr.
    apply user_status_eqb_eq in Hst. apply opt_string_eqb_eq in Hj.
    done.
  - intros ((Hu & He & Hr & Hst) & Hs & Hj). exists u. split.
    + apply filter_In. split; [exact Hu |].
      rewrite !andb_true_iff, String.eqb_eq, role_eqb_eq, user_status_eqb_eq.
      done.
    + apply in_map_iff. exists s. split; [reflexivity |].
      apply filter_In. split; [exact Hs |]. by apply opt_string_eqb_eq.
Qed.

(** Under the schema's keys an email selects at most one row of the join,
    possibly several times over. *)
Lemma society_admins_by_email_head email T u s :
  unique_emails T -> unique_society_ids T ->
  In (u, s) (society_admins_by_email email T) ->
  exists rest, society_admins_by_email email T = (u, s) :: rest.
Proof.
  intros Hue Hus Hin.
  destruct (society_admins_by_email email T) as [| [u' s'] rest] eqn:Hq;
    [destruct Hin |].
  assert (Hin' : In (u', s') (society_admins_by_email email T))
    by (rewrite Hq; left; reflexivity).
  rewrite <- Hq in Hin.
  apply in_society_admins_by_email in Hin, Hin'.
  destruct Hin as ((Hu & He & _) & Hs & Hj).
  destruct Hin' as ((Hu' & He' & _) & Hs' & Hj').
  assert (u' = u) as -> by (apply Hue; congruence).
  assert (s' = s) as -> by (apply Hus; congruence).
  by exists rest.
Qed.

Lemma login_supplied req :
  supplied req ->
  negb (truthy (login_email req)) || negb (truthy (login_password req)) = false.
Proof. intros [-> ->]. reflexivity. Qed.

(** C4: a society login that supplies an email and a password, whose email
    is that of an active society_admin of a society that is not approved,
    is answered 403 "Society not approved", whatever the password and
    whether or not it matches; no row is touched. *)
Theorem C4_unapproved_society_login E w req u s :
  supplied req ->
  fault E (clock w) SELECT_society_admin_by_email = false ->
  unique_emails (visible E w) ->
  unique_society_ids (visible E w) ->
  In u (users (visible E w)) ->
  u_email u = str (login_email req) ->
  u_role u = role_society_admin ->
  u_status u = user_active ->
  In s (societies (visible E w)) ->
  u_society_id u = Some (s_id s) ->
  s_status s <> status_approved ->
  societyLogin E req w = (not_approved, tick w).
Proof.
  intros Hsup Hf Hue Hus Hu He Hr Hst Hs Hj Hna.
  unfold societyLogin, handle. rewrite (login_supplied _ Hsup).
  unfold bind. rewrite query_rows by exact Hf.
  destruct (society_admins_by_email_head (str (login_email req))
              (visible E w) u s Hue Hus) as (rest & ->).
  { apply in_society_admins_by_email. done. }
  destruct (status_eqb (s_status s) status_approved) eqn:Hap.
  - apply status_eqb_eq in Hap. contradiction.
  - reflexivity.
Qed.

Lemma C4_unapproved_society_login_witness :
  societyLogin calm (login_as (Some "a@alpha.coop") (Some "secret")) with_alpha
  = (not_approved, tick with_alpha)
  /\ societyLogin calm (login_as (Some "a@alpha.coop") (Some "guess"))
       with_alpha
     = (not_approved, tick with_alpha).
Proof.
  assert (Hue : unique_emails (visible calm with_alpha)).
  { intros u1 u2 [<- | [<- | []]] [<- | [<- | []]]; simpl;
      (reflexivity || discriminate). }
  assert (Hus : unique_society_ids (visible calm with_alpha)).
  { intros s1 s2 [<- | []] [<- | []] _. reflexivity. }
  split;
    apply (C4_unapproved_society_login calm with_alpha _ alpha_admin alpha);
    try (split; reflexivity); try reflexivity; try assumption;
    try (vm_compute; tauto); discriminate.
Defined.



(** ** Registrations turned away before the transaction *)

Lemma query_rows_cases {A} E q (f : Tables -> A) w :
  query E q (rows_of f) w = (Ok (f (visible E w)), tick w)
  \/ query E q (rows_of f) w = (Throw (QueryError q), tick w).
Proof.
  destruct (fault E (clock w) q) eqn:Hf.
  - right. by apply query_fault.
  - left. by apply query_rows.
Qed.

Lemma societies_by_registration_number_found number T :
  In number (map s_registration_number (societies T)) ->
  Nat.ltb 0 (length (societies_by_registration_number number T)) = true.
Proof.
  unfold societies_by_registration_number. rewrite length_map.
  induction (societies T) as [| s l IH]; simpl; [tauto |].
  intros [Hs | Hl].
  - rewrite Hs, String.eqb_refl. reflexivity.
  - destruct (String.eqb (s_registration_number s) number);
      [reflexivity | by apply IH].
Qed.

(** C5, as stated, fails: the nine text fields are checked before the
    registration number is looked up, so an attempt that repeats a
    registered number but leaves the society name out is answered 400. *)
Lemma C5_counterexample :
  ~ (forall E req w s,
       In s (societies (committed w)) ->
       s_registration_number s = str (registrationNumber req) ->
       status (fst (societyRegister E req w)) = 409).
Proof.
  intros H.
  specialize (H calm (register_alpha None both_files) with_alpha alpha).
  simpl in H. specialize (H (or_introl eq_refl) eq_refl).
  vm_compute in H. discriminate H.
Qed.

(** C5 (amended): a registration attempt with all nine text fields filled
    in whose registration number is already in the societies table is
    answered 409 "Registration number already exists"; the committed
    tables, the open transactions and the journal of accepted writes are
    what they were, so no society, user or document was added.  An attempt
    that leaves a required text field empty is answered 400 before anything
    is looked up. *)
Theorem C5_duplicate_number E w req s :
  fields_missing req = false ->
  fault E (clock w) SELECT_society_by_registration_number = false ->
  In s (societies (committed w)) ->
  s_registration_number s = str (registrationNumber req) ->
  fst (societyRegister E req w) = number_taken
  /\ committed (snd (societyRegister E req w)) = committed w
  /\ txns (snd (societyRegister E req w)) = txns w
  /\ journal (snd (societyRegister E req w)) = journal w
  /\ (forall req' w',
        fields_missing req' = true ->
        societyRegister E req' w' = (missing_fields, w')).
Proof.
  intros Hfields Hf Hs Hnum.
  assert (Hrun : societyRegister E req w = (number_taken, tick w)).
  { unfold societyRegister, handle, bind. rewrite Hfields.
    rewrite query_rows by exact Hf.
    rewrite societies_by_registration_number_found; [reflexivity |].
    unfold visible, view. apply numbers_apply_writes.
    rewrite <- Hnum. by apply in_map. }
  rewrite Hrun. do 4 (split; [done |]).
  intros req' w' Hmissing. unfold societyRegister, handle.
  by rewrite Hmissing.
Qed.

Lemma C5_duplicate_number_witness :
  fst (societyRegister calm (register_alpha (Some "Beta") both_files)
         with_alpha) = number_taken
  /\ committed (snd (societyRegister calm
                       (register_alpha (Some "Beta") both_files) with_alpha))
     = committed with_alpha
  /\ txns (snd (societyRegister calm
                  (register_alpha (Some "Beta") both_files) with_alpha))
     = txns with_alpha
  /\ journal (snd (societyRegister calm
                     (register_alpha (Some "Beta") both_files) with_alpha))
     = journal with_alpha.
Proof.
  destruct (C5_duplicate_number calm with_alpha
              (register_alpha (Some "Beta") both_files) alpha)
    as (H1 & H2 & H3 & H4 & _).
  - reflexivity.
  - reflexivity.
  - simpl. tauto.
  - reflexivity.
  - split; [exact H1 |]. split; [exact H2 |]. split; [exact H3 |]. exact H4.
Defined.

(** C2, as stated, fails: the duplicate checks run before the files are
    looked at, so an attempt without files that repeats a registered number
    is answered 409, not 400. *)
Lemma C2_counterexample :
  ~ (forall E req w,
       files_missing (files req) = true ->
       status (fst (societyRegister E req w)) = 400).
Proof.
  intros H.
  specialize (H calm (register_alpha (Some "Beta") None) with_alpha eq_refl).
  vm_compute in H. discriminate H.
Qed.

(** What the handler answers when a required file is absent, check by
    check. *)
Lemma societyRegister_without_files E req w :
  files_missing (files req) = true ->
  societyRegister E req w
  = if fields_missing req then (missing_fields, w)
    else if fault E (clock w) SELECT_society_by_registration_number
    then (registration_failed, tick w)
    else if Nat.ltb 0 (length (societies_by_registration_number
                                 (str (registrationNumber req)) (visible E w)))
    then (number_taken, tick w)
    else if fault E (S (clock w)) SELECT_user_by_email
    then (registration_failed, tick (tick w))
    else if Nat.ltb 0 (length (users_by_email (str (adminEmail req))
                                 (visible E (tick w))))
    then (email_taken, tick (tick w))
    else (missing_documents, tick (tick w)).
Proof.
  intros Hfiles. unfold societyRegister, handle, bind.
  destruct (fields_missing req); [reflexivity |].
  destruct (fault E (clock w) SELECT_society_by_registration_number) eqn:Hf1.
  { by rewrite query_fault. }
  rewrite query_rows by exact Hf1.
  destruct (Nat.ltb 0 _); [reflexivity |].
  destruct (fault E (S (clock w)) SELECT_user_by_email) eqn:Hf2.
  { by rewrite query_fault. }
  rewrite query_rows by exact Hf2.
  destruct (Nat.ltb 0 _); [reflexivity |].
  rewrite Hfiles. reflexivity.
Qed.

(** C2 (amended): a registration request without the certificate or
    without the bylaws is always turned away (400, 409 or 500) and writes
    nothing: the committed tables, the open transactions and the journal are
    what they were.  It is answered 400 when a text field is missing, and
    also when both lookups answer and find neither the registration number
    nor the admin email; a lookup that finds one answers 409 first. *)
Theorem C2_missing_documents E w req :
  files_missing (files req) = true ->
  (status (fst (societyRegister E req w)) = 400
   \/ status (fst (societyRegister E req w)) = 409
   \/ status (fst (societyRegister E req w)) = 500)
  /\ committed (snd (societyRegister E req w)) = committed w
  /\ txns (snd (societyRegister E req w)) = txns w
  /\ journal (snd (societyRegister E req w)) = journal w
  /\ (fields_missing req = true ->
      fst (societyRegister E req w) = missing_fields)
  /\ (fields_missing req = false ->
      fault E (clock w) SELECT_society_by_registration_number = false ->
      fault E (S (clock w)) SELECT_user_by_email = false ->
      societies_by_registration_number (str (registrationNumber req))
        (visible E w) = [] ->
      users_by_email (str (adminEmail req)) (visible E (tick w)) = [] ->
      fst (societyRegister E req w) = missing_documents)
  /\ (fields_missing req = false ->
      fault E (clock w) SELECT_society_by_registration_number = false ->
      societies_by_registration_number (str (registrationNumber req))
        (visible E w) <> [] ->
      fst (societyRegister E req w) = number_taken)
  /\ (fields_missing req = false ->
      fault E (clock w) SELECT_society_by_registration_number = false ->
      fault E (S (clock w)) SELECT_user_by_email = false ->
      societies_by_registration_number (str (registrationNumber req))
        (visible E w) = [] ->
      users_by_email (str (adminEmail req)) (visible E (tick w)) <> [] ->
      fst (societyRegister E req w) = email_taken).
Proof.
  intros Hfiles. rewrite (societyRegister_without_files E req w Hfiles).
  repeat split.
  - repeat (match goal with |- context [if ?b then _ else _] => destruct b end);
      simpl; tauto.
  - repeat (match goal with |- context [if ?b then _ else _] => destruct b end);
      reflexivity.
  - repeat (match goal with |- context [if ?b then _ else _] => destruct b end);
      reflexivity.
  - repeat (match goal with |- context [if ?b then _ else _] => destruct b end);
      reflexivity.
  - intros ->. reflexivity.
  - intros -> -> -> -> ->. reflexivity.
  - intros -> -> Hfound.
    destruct (societies_by_registration_number _ _); [by destruct Hfound |].
    reflexivity.
  - intros -> -> -> -> Hfound.
    destruct (users_by_email _ _); [by destruct Hfound |].
    reflexivity.
Qed.

Lemma C2_missing_documents_witness :
  let r := societyRegister calm (register_alpha (Some "Alpha Co-op") None)
             fresh in
  (status (fst r) = 400 \/ status (fst r) = 409 \/ status (fst r) = 500)
  /\ committed (snd r) = committed fresh
  /\ txns (snd r) = txns fresh
  /\ journal (snd r) = journal fresh
  /\ fst r = missing_documents.
Proof.
  destruct (C2_missing_documents calm fresh
              (register_alpha (Some "Alpha Co-op") None) eq_refl)
    as (H1 & H2 & H3 & H4 & _ & H6 & _).
  intros r.
  split; [exact H1 |]. split; [exact H2 |]. split; [exact H3 |].
  split; [exact H4 |].
  exact (H6 eq_refl eq_refl eq_refl eq_refl eq_refl).
Defined.

(** ** The audit recorder *)

Lemma has_string_In x l : has_string x l = true <-> In x l.
Proof.
  unfold has_string. rewrite existsb_exists. split.
  - intros (y & Hy & Heq). apply String.eqb_eq in Heq. by subst.
  - intros H. exists x. split; [exact H | apply String.eqb_refl].
Qed.

Lemma has_string_not_In x l : has_string x l = false <-> ~ In x l.
Proof.
  rewrite <- has_string_In. destruct (has_string x l); split;
    (done || discriminate || (intros H; by destruct H)).
Qed.

(** What [logAuditTrail] does: it draws an id, sends one insert, and
    returns normally whether the insert was accepted or not. *)
Lemma logAuditTrail_run E userId societyId action tableName recordId
    oldValues newValues ipAddress userAgent w :
  logAuditTrail E userId societyId action tableName recordId oldValues
    newValues ipAddress userAgent w
  = (Ok tt,
     if fault E (clock w) INSERT_INTO_audit_logs
     then tick (next_uuid w)
     else if admissible
               (InsertAuditLog
                  (audit_log_row (uuid E (uuids w)) userId societyId action
                     tableName recordId oldValues newValues ipAddress
                     userAgent))
               (visible E w)
     then perform
            (InsertAuditLog
               (audit_log_row (uuid E (uuids w)) userId societyId action
                  tableName recordId oldValues newValues ipAddress userAgent))
            (conn_at E (clock w)) (tick (next_uuid w))
     else tick (next_uuid w)).
Proof.
  unfold logAuditTrail, try_catch, bind, uuidv4, query, row_write.
  change (clock (next_uuid w)) with (clock w).
  change (view (tick (next_uuid w)) (conn_at E (clock w))) with (visible E w).
  destruct (fault E (clock w) INSERT_INTO_audit_logs); [reflexivity |].
  destruct (admissible _ (visible E w)); reflexivity.
Qed.

Lemma business_apply_write op T1 T2 :
  business T1 = business T2 ->
  business (apply_write op T1) = business (apply_write op T2).
Proof.
  unfold business. intros [= H1 H2 H3].
  destruct op; simpl; rewrite ?H1, ?H2, ?H3; reflexivity.
Qed.

Lemma business_apply_writes ops T1 T2 :
  business T1 = business T2 ->
  business (apply_writes ops T1) = business (apply_writes ops T2).
Proof.
  revert T1 T2. induction ops as [| op ops IH]; intros T1 T2 H; [exact H |].
  simpl. apply IH. by apply business_apply_write.
Qed.

(** An audit insert, accepted or not, leaves the business tables alone:
    the committed ones and those of every connection's view. *)
Lemma perform_audit_business a c w :
  business (committed (perform (InsertAuditLog a) c w)) = business (committed w)
  /\ forall c', business (view (perform (InsertAuditLog a) c w) c')
                = business (view w c').
Proof.
  unfold perform. destruct (txns w !! c) as [ops |] eqn:Hc.
  - split; [reflexivity |]. intros c'. unfold view, staged. simpl.
    destruct (decide (c = c')) as [<- | Hne].
    + rewrite lookup_insert_eq, Hc. simpl. by rewrite apply_writes_snoc.
    + by rewrite lookup_insert_ne.
  - split; [reflexivity |]. intros c'. unfold view, staged. simpl.
    by apply business_apply_writes.
Qed.

Lemma logAuditTrail_business E userId societyId action tableName recordId
    oldValues newValues ipAddress userAgent w :
  let w' := snd (logAuditTrail E userId societyId action tableName recordId
                   oldValues newValues ipAddress userAgent w) in
  business (committed w') = business (committed w)
  /\ forall c, business (view w' c) = business (view w c).
Proof.
  rewrite logAuditTrail_run. cbv zeta. unfold snd.
  destruct (fault E (clock w) INSERT_INTO_audit_logs); [done |].
  match goal with
  | |- context [admissible ?op ?T] => destruct (admissible op T)
  end; [| done].
  apply (perform_audit_business _ _ (tick (next_uuid w))).
Qed.

(** ** The approval update *)

Lemma tables_eta T :
  {| societies := societies T; users := users T;
     society_documents := society_documents T; audit_logs := audit_logs T |}
  = T.
Proof. destruct T. reflexivity. Qed.

Lemma apply_write_update_absent st id T :
  (forall s, In s (societies T) -> s_id s <> id) ->
  apply_write (UpdateSocietyStatus st id) T = T.
Proof.
  intros H. simpl. rewrite update_status_absent by exact H. apply tables_eta.
Qed.


Lemma rows_with_id_update_status st id l :
  rows_with_id id (update_status st id l)
  = map (set_status st) (rows_with_id id l).
Proof.
  unfold rows_with_id, update_status.
  induction l as [| r l IH]; [reflexivity |]. simpl.
  destruct (String.eqb (s_id r) id) eqn:Hr; simpl; rewrite Hr, IH; reflexivity.
Qed.

(** Past the gate the handler sends the UPDATE, hands the decision to the
    audit recorder and answers 200; only a failed UPDATE answers 500. *)
Lemma updateSocietyApproval_run E req st decoded w :
  decision (approval_status req) = Some st ->
  token_decodes E (approval_authorization req) decoded ->
  c_role decoded = "developer" ->
  updateSocietyApproval E req w
  = if fault E (clock w) UPDATE_societies_status
    then (approval_failed, tick w)
    else (approval_done st (societyId req),
          snd (logAuditTrail E (Some (c_userId decoded)) (Some (societyId req))
                 "SOCIETY_APPROVAL_UPDATE" "societies" (societyId req) None
                 (Some [("status", JString (status_name st));
                        ("reason", reason_or_null (approval_reason req))])
                 (approval_ip req) (approval_user_agent req)
                 (perform (UpdateSocietyStatus st (societyId req))
                    (conn_at E (clock w)) (tick w)))).
Proof.
  intros Hd [Ht Hv] Hr. unfold updateSocietyApproval, handle.
  rewrite Hd, Ht, Hv, Hr, String.eqb_refl. cbn [negb]. unfold bind.
  destruct (fault E (clock w) UPDATE_societies_status) eqn:Hf.
  - by rewrite query_fault.
  - rewrite query_write by done. rewrite logAuditTrail_run. reflexivity.
Qed.

Lemma view_perform_update_absent st id c w c' :
  (forall c0 s, In s (societies (view w c0)) -> s_id s <> id) ->
  view (perform (UpdateSocietyStatus st id) c w) c' = view w c'.
Proof.
  intros Habs. unfold perform.
  destruct (txns w !! c) as [ops |] eqn:Hc.
  - unfold view, staged. simpl.
    destruct (decide (c = c')) as [<- | Hne].
    + rewrite lookup_insert_eq, Hc. simpl. rewrite apply_writes_snoc.
      apply apply_write_update_absent. intros s Hs. apply (Habs c s).
      unfold view, staged. by rewrite Hc.
    + by rewrite lookup_insert_ne.
  - unfold view, staged. cbn [committed txns].
    rewrite apply_write_update_absent; [done |].
    intros s Hs. apply (Habs c s). by rewrite view_idle.
Qed.

Lemma committed_perform_update_absent st id c w :
  (forall c0 s, In s (societies (view w c0)) -> s_id s <> id) ->
  committed (perform (UpdateSocietyStatus st id) c w) = committed w.
Proof.
  intros Habs. unfold perform.
  destruct (txns w !! c) as [ops |] eqn:Hc; [reflexivity |].
  cbn [committed]. apply apply_write_update_absent.
  intros s Hs. apply (Habs c s). by rewrite view_idle.
Qed.

Lemma journal_perform op c w : journal (perform op c w) = journal w ++ [op].
Proof. unfold perform. destruct (txns w !! c); reflexivity. Qed.

(** C10, as stated, fails: [audit_logs.society_id] is a foreign key to
    [societies(id)], so the audit insert for an id that matches no society
    is refused, and the recorder swallows the refusal; nothing is appended. *)
Lemma C10_counterexample :
  ~ (forall E req w st decoded,
       decision (approval_status req) = Some st ->
       token_decodes E (approval_authorization req) decoded ->
       c_role decoded = "developer" ->
       (forall s, In s (societies (committed w)) -> s_id s <> societyId req) ->
       exists a,
         In a (audit_logs (committed (snd (updateSocietyApproval E req w))))
         /\ a_record_id a = societyId req).
Proof.
  intros H.
  destruct (H calm (approve_as (Some "Bearer t:developer") (Some "approved")
                      "ghost")
              fresh status_approved
              dev_claims)
    as (a & Ha & _).
  - reflexivity.
  - split; reflexivity.
  - reflexivity.
  - intros s [].
  - vm_compute in Ha. exact Ha.
Qed.

(** C10 (amended): an approval update by an authenticated developer, with
    a valid decision, for an id that matches no society (committed or
    staged), whose UPDATE the server answers, is answered 200 with the
    requested status; the societies table is unchanged and no audit entry is
    recorded: the only write the server accepted is the UPDATE, which
    matched no row. *)
Theorem C10_unknown_society E w req st decoded :
  decision (approval_status req) = Some st ->
  token_decodes E (approval_authorization req) decoded ->
  c_role decoded = "developer" ->
  fault E (clock w) UPDATE_societies_status = false ->
  (forall c s, In s (societies (view w c)) -> s_id s <> societyId req) ->
  fst (updateSocietyApproval E req w) = approval_done st (societyId req)
  /\ societies (committed (snd (updateSocietyApproval E req w)))
     = societies (committed w)
  /\ audit_logs (committed (snd (updateSocietyApproval E req w)))
     = audit_logs (committed w)
  /\ journal (snd (updateSocietyApproval E req w))
     = journal w ++ [UpdateSocietyStatus st (societyId req)].
Proof.
  intros Hd Ht Hr Hf Habs.
  rewrite (updateSocietyApproval_run E req st decoded w Hd Ht Hr), Hf.
  rewrite logAuditTrail_run. unfold fst, snd.
  set (w1 := perform (UpdateSocietyStatus st (societyId req))
               (conn_at E (clock w)) (tick w)).
  assert (Habs' : forall c s, In s (societies (view (tick w) c)) ->
                              s_id s <> societyId req) by exact Habs.
  assert (Hrefused :
    admissible
      (InsertAuditLog
         (audit_log_row (uuid E (uuids w1)) (Some (c_userId decoded))
            (Some (societyId req)) "SOCIETY_APPROVAL_UPDATE" "societies"
            (societyId req) None
            (Some [("status", JString (status_name st));
                   ("reason", reason_or_null (approval_reason req))])
            (approval_ip req) (approval_user_agent req)))
      (visible E w1) = false).
  { unfold visible, w1. rewrite view_perform_update_absent by exact Habs'.
    simpl. rewrite !andb_false_iff. right. apply has_string_not_In.
    intros Hin. apply in_map_iff in Hin. destruct Hin as (s & Hid & Hs).
    by apply (Habs' _ s Hs). }
  rewrite Hrefused.
  assert (Hc : committed w1 = committed w)
    by (apply (committed_perform_update_absent _ _ _ (tick w)); exact Habs').
  assert (Hj : journal w1 = journal w ++ [UpdateSocietyStatus st (societyId req)])
    by apply (journal_perform _ _ (tick w)).
  destruct (fault E (clock w1) INSERT_INTO_audit_logs); simpl;
    rewrite Hc, Hj; done.
Qed.

Lemma C10_unknown_society_witness :
  let r := updateSocietyApproval calm
             (approve_as (Some "Bearer t:developer") (Some "rejected") "ghost")
             with_alpha in
  fst r = approval_done status_rejected "ghost"
  /\ societies (committed (snd r)) = societies (committed with_alpha)
  /\ audit_logs (committed (snd r)) = audit_logs (committed with_alpha)
  /\ journal (snd r)
     = journal with_alpha ++ [UpdateSocietyStatus status_rejected "ghost"].
Proof.
  apply (C10_unknown_society calm with_alpha
           (approve_as (Some "Bearer t:developer") (Some "rejected") "ghost")
           status_rejected
           dev_claims).
  - reflexivity.
  - split; reflexivity.
  - reflexivity.
  - reflexivity.
  - intros c s Hs. rewrite view_quiescent in Hs by reflexivity.
    destruct Hs as [<- | []]. discriminate.
Defined.

(** ** Approving twice *)

Lemma perform_idle op c w :
  txns w !! c = None ->
  perform op c w
  = {| committed := apply_write op (committed w); txns := txns w;
       clock := clock w; uuids := uuids w; journal := journal w ++ [op] |}.
Proof. unfold perform. intros ->. reflexivity. Qed.

Lemma quiescent_idle w c : quiescent w -> txns w !! c = None.
Proof. unfold quiescent. intros ->. apply lookup_empty. Qed.

(** An approval update in a world without open transactions, when the
    society and the developer's user row exist and both statements are
    answered: the status is overwritten in place and one audit entry is
    appended. *)
Lemma updateSocietyApproval_quiescent E req st decoded w :
  decision (approval_status req) = Some st ->
  token_decodes E (approval_authorization req) decoded ->
  c_role decoded = "developer" ->
  quiescent w ->
  fault E (clock w) UPDATE_societies_status = false ->
  fault E (S (clock w)) INSERT_INTO_audit_logs = false ->
  In (societyId req) (map s_id (societies (committed w))) ->
  In (c_userId decoded) (map u_id (users (committed w))) ->
  ~ In (uuid E (uuids w)) (map a_id (audit_logs (committed w))) ->
  updateSocietyApproval E req w
  = (approval_done st (societyId req),
     {| committed :=
          {| societies := update_status st (societyId req)
                            (societies (committed w));
             users := users (committed w);
             society_documents := society_documents (committed w);
             audit_logs := audit_logs (committed w)
                           ++ [approval_entry (uuid E (uuids w)) decoded st req] |};
        txns := txns w;
        clock := S (S (clock w));
        uuids := S (uuids w);
        journal := journal w
                   ++ [UpdateSocietyStatus st (societyId req)]
                   ++ [InsertAuditLog
                         (approval_entry (uuid E (uuids w)) decoded st req)] |}).
Proof.
  intros Hd Ht Hr Hq Hf1 Hf2 Hs Hu Hid.
  rewrite (updateSocietyApproval_run E req st decoded w Hd Ht Hr), Hf1.
  rewrite logAuditTrail_run.
  rewrite (perform_idle _ _ (tick w)) by (apply (quiescent_idle (tick w)), Hq).
  cbn [clock tick uuids].
  rewrite Hf2. unfold visible.
  rewrite view_idle by (apply (quiescent_idle (tick w)), Hq).
  cbn [committed].
  change (committed (tick w)) with (committed w).
  change (txns (tick w)) with (txns w).
  change (journal (tick w)) with (journal w).
  assert (Hok :
    admissible
      (InsertAuditLog
         (audit_log_row (uuid E (uuids w)) (Some (c_userId decoded))
            (Some (societyId req)) "SOCIETY_APPROVAL_UPDATE" "societies"
            (societyId req) None
            (Some [("status", JString (status_name st));
                   ("reason", reason_or_null (approval_reason req))])
            (approval_ip req) (approval_user_agent req)))
      (apply_write (UpdateSocietyStatus st (societyId req)) (committed w))
    = true).
  { simpl. rewrite update_status_ids. rewrite !andb_true_iff.
    rewrite negb_true_iff, has_string_not_In, !has_string_In. done. }
  rewrite Hok. unfold snd.
  rewrite perform_idle by (apply (quiescent_idle (tick w)), Hq).
  unfold approval_entry. cbn. rewrite <- app_assoc. reflexivity.
Qed.

(** The model class's [updateStatus] does to the store what the handler's
    UPDATE does, and never reports a row as affected. *)
Lemma Society_updateStatus_effect E id st w :
  snd (Society_updateStatus E id st w)
  = snd (query E UPDATE_societies_status
           (row_write (UpdateSocietyStatus st id)) w)
  /\ fst (Society_updateStatus E id st w) <> Ok true.
Proof.
  unfold Society_updateStatus, bind.
  destruct (query E UPDATE_societies_status _ w) as [[[] | e] w'];
    split; (reflexivity || discriminate).
Qed.

(** ** Audit failures do not reach the business flows *)

Lemma logAuditTrail_audited E userId societyId action tableName recordId
    oldValues newValues ipAddress userAgent w :
  logAuditTrail E userId societyId action tableName recordId oldValues
    newValues ipAddress userAgent w
  = (Ok tt,
     audited E userId societyId action tableName recordId oldValues newValues
       ipAddress userAgent w).
Proof. unfold audited. rewrite logAuditTrail_run. reflexivity. Qed.

Lemma same_outcome_refl r : same_outcome r r.
Proof. unfold same_outcome. done. Qed.

Lemma same_outcome_audited E g r userId societyId action tableName recordId
    oldValues newValues ipAddress userAgent w :
  same_outcome
    (r, audited (with_audit_fault g E) userId societyId action tableName
          recordId oldValues newValues ipAddress userAgent w)
    (r, audited E userId societyId action tableName recordId oldValues
          newValues ipAddress userAgent w).
Proof.
  unfold same_outcome, audited. cbn [fst snd].
  destruct (logAuditTrail_business (with_audit_fault g E) userId societyId
              action tableName recordId oldValues newValues ipAddress
              userAgent w) as [H1 H2].
  destruct (logAuditTrail_business E userId societyId action tableName
              recordId oldValues newValues ipAddress userAgent w) as [H3 H4].
  cbv zeta in H1, H2, H3, H4.
  split; [reflexivity |]. split; [congruence |].
  intros c. rewrite H2, H4. reflexivity.
Qed.

(** Outside the audit recorder the two environments are the same
    environment: every other statement, and every library call, unfolds to
    the same thing. *)
Ltac spare g E :=
  change (@query (with_audit_fault g E) (list User) SELECT_developer_by_email)
    with (@query E (list User) SELECT_developer_by_email);
  change (@query (with_audit_fault g E) (list (User * Society))
            SELECT_society_admin_by_email)
    with (@query E (list (User * Society)) SELECT_society_admin_by_email);
  change (@query (with_audit_fault g E) (list string)
            SELECT_society_by_registration_number)
    with (@query E (list string) SELECT_society_by_registration_number);
  change (@query (with_audit_fault g E) (list string) SELECT_user_by_email)
    with (@query E (list string) SELECT_user_by_email);
  change (@query (with_audit_fault g E) unit START_TRANSACTION)
    with (@query E unit START_TRANSACTION);
  change (@query (with_audit_fault g E) unit COMMIT)
    with (@query E unit COMMIT);
  change (@query (with_audit_fault g E) unit ROLLBACK)
    with (@query E unit ROLLBACK);
  change (@query (with_audit_fault g E) unit INSERT_INTO_societies)
    with (@query E unit INSERT_INTO_societies);
  change (@query (with_audit_fault g E) unit INSERT_INTO_users)
    with (@query E unit INSERT_INTO_users);
  change (@query (with_audit_fault g E) unit UPDATE_societies_status)
    with (@query E unit UPDATE_societies_status);
  change (save_document (with_audit_fault g E)) with (save_document E);
  change (save_additional (with_audit_fault g E)) with (save_additional E);
  change (admin_row (with_audit_fault g E)) with (admin_row E);
  change (uuidv4 (with_audit_fault g E)) with (uuidv4 E);
  change (bcrypt_compare (with_audit_fault g E)) with (bcrypt_compare E);
  change (jwt_sign (with_audit_fault g E)) with (jwt_sign E);
  change (jwt_verify (with_audit_fault g E)) with (jwt_verify E).

(** Run both sides in step until they part at the audit recorder: split
    on what the next statement, test or lookup yields, innermost first. *)
Ltac in_step :=
  repeat first
    [ apply same_outcome_refl
    | apply same_outcome_audited
    | rewrite !logAuditTrail_audited
    | match goal with
      | |- context [match ?x with _ => _ end] =>
          lazymatch x with
          | context [match _ with _ => _ end] => fail
          | _ => destruct x
          end
      end ].

Lemma developerLogin_spared E g req w :
  same_outcome (developerLogin (with_audit_fault g E) req w)
    (developerLogin E req w).
Proof.
  unfold developerLogin, handle, bind, ret. spare g E. in_step.
Qed.

Lemma societyLogin_spared E g req w :
  same_outcome (societyLogin (with_audit_fault g E) req w)
    (societyLogin E req w).
Proof.
  unfold societyLogin, handle, bind, ret. spare g E. in_step.
Qed.

Lemma updateSocietyApproval_spared E g req w :
  same_outcome (updateSocietyApproval (with_audit_fault g E) req w)
    (updateSocietyApproval E req w).
Proof.
  unfold updateSocietyApproval, handle, bind, ret, throw. spare g E. in_step.
Qed.

Lemma societyRegister_spared E g req w :
  same_outcome (societyRegister (with_audit_fault g E) req w)
    (societyRegister E req w).
Proof.
  unfold societyRegister, register_unit, handle, try_catch, bind, ret, throw.
  spare g E. in_step.
Qed.

(** C8: whether the audit insert fails or not has no bearing on a business
    flow.  Replace the fate of every audit insert by any other ([g]): each
    of the four flows that call the recorder gives the same response and
    leaves the societies, users and society_documents tables the same, in
    the committed store and in every connection's view. *)
Theorem C8_audit_failure_contained E g w :
  (forall req, same_outcome (developerLogin (with_audit_fault g E) req w)
                 (developerLogin E req w))
  /\ (forall req, same_outcome (societyLogin (with_audit_fault g E) req w)
                    (societyLogin E req w))
  /\ (forall req, same_outcome (societyRegister (with_audit_fault g E) req w)
                    (societyRegister E req w))
  /\ (forall req,
        same_outcome (updateSocietyApproval (with_audit_fault g E) req w)
          (updateSocietyApproval E req w)).
Proof.
  split; [| split; [| split]]; intros req.
  - apply developerLogin_spared.
  - apply societyLogin_spared.
  - apply societyRegister_spared.
  - apply updateSocietyApproval_spared.
Qed.

(** ** The registration unit *)

Lemma bind_inv {A B} (m : M A) (k : A -> M B) w o w' :
  bind m k w = (o, w') ->
  (exists e, m w = (Throw e, w') /\ o = Throw e)
  \/ (exists a w1, m w = (Ok a, w1) /\ k a w1 = (o, w')).
Proof.
  unfold bind. destruct (m w) as [[a | e] w1]; intros H.
  - right. by exists a, w1.
  - left. exists e. by injection H as <- <-.
Qed.

Section Progress.

Context (E : Env) (w0 : World).

Lemma progress_start :
  progress E w0 [] w0.
Proof.
  split.
  - by rewrite app_nil_r.
  - done.
  - intros c _ H. split; [done |]. symmetry. by apply insert_id.
  - intros a H. by exists [], [].
Qed.

Lemma progress_tick ops w :
  progress E w0 ops w -> progress E w0 ops (tick w).
Proof.
  intros [Hj Hc Hs Hst]. split; [exact Hj | simpl; lia | exact Hs | exact Hst].
Qed.

Lemma progress_next_uuid ops w :
  progress E w0 ops w -> progress E w0 ops (next_uuid w).
Proof.
  intros [Hj Hc Hs Hst]. split; [exact Hj | exact Hc | exact Hs | exact Hst].
Qed.

Lemma progress_perform ops op w :
  progress E w0 ops w ->
  progress E w0 (ops ++ [op]) (perform op (conn_at E (clock w)) (tick w)).
Proof.
  intros [Hj Hc Hs Hst]. split.
  - rewrite journal_perform. simpl. rewrite Hj. by rewrite app_assoc.
  - unfold perform. destruct (txns (tick w) !! _); simpl; lia.
  - intros c Hpin H0. destruct (Hs c Hpin H0) as [Hcom Htx].
    rewrite (Hpin (clock w) Hc). unfold perform. cbn [txns tick].
    rewrite Htx, lookup_insert_eq. cbn.
    split; [exact Hcom |]. by rewrite insert_insert_eq.
  - intros a H0. destruct (Hst a H0) as (direct & held & Hcom & Htx & Hperm).
    unfold perform. cbn [txns tick committed]. rewrite Htx.
    destruct (decide (conn_at E (clock w) = a)) as [-> | Hne].
    + rewrite lookup_singleton_eq. exists direct, (held ++ [op]). cbn.
      split; [exact Hcom |]. split; [apply insert_singleton_eq |].
      rewrite app_assoc. by apply Permutation_app_tail.
    + rewrite lookup_singleton_ne by done. exists (direct ++ [op]), held. cbn.
      split; [by rewrite apply_writes_snoc, Hcom |]. split; [done |].
      rewrite <- app_assoc.
      rewrite (Permutation_app_comm [op] held), app_assoc.
      by apply Permutation_app_tail.
Qed.

(** A write statement either is accepted, and then joins the unit's
    writes, or throws and changes nothing. *)
Lemma progress_write ops q op w o w' :
  progress E w0 ops w ->
  query E q (row_write op) w = (o, w') ->
  (o = Ok tt /\ progress E w0 (ops ++ [op]) w')
  \/ ((exists e, o = Throw e) /\ progress E w0 ops w').
Proof.
  intros Hp Hq.
  destruct (query_write_cases E q op w) as [(Hok & _) | Hko];
    rewrite Hq in *.
  - injection Hok as -> ->. left. split; [done |]. by apply progress_perform.
  - injection Hko as -> ->. right. split; [by eexists |].
    by apply progress_tick.
Qed.

Lemma progress_save_document ops society k f w o w' :
  progress E w0 ops w ->
  save_document E society k (Some f) w = (o, w') ->
  (o = Ok (document_entry k f)
   /\ exists id,
        progress E w0
          (ops ++ [InsertDocument (document_row id society k f)]) w')
  \/ ((exists e, o = Throw e) /\ progress E w0 ops w').
Proof.
  intros Hp Hrun. unfold save_document in Hrun.
  apply bind_inv in Hrun.
  destruct Hrun as [(e & Hu & _) | (id & w1 & Hu & Hrun)];
    [discriminate Hu |].
  injection Hu as <- <-.
  apply bind_inv in Hrun.
  destruct Hrun as [(e & Hq & ->) | ([] & w2 & Hq & Hret)].
  - right. split; [by eexists |].
    destruct (progress_write ops _ _ _ _ _ (progress_next_uuid _ _ Hp) Hq)
      as [(Hno & _) | (_ & Hp')]; [discriminate Hno | exact Hp'].
  - injection Hret as <- <-. left. split; [done |].
    destruct (progress_write ops _ _ _ _ _ (progress_next_uuid _ _ Hp) Hq)
      as [(_ & Hp') | ((e & Hno) & _)]; [| discriminate Hno].
    by eexists.
Qed.

Lemma progress_save_document_missing ops society k w o w' :
  progress E w0 ops w ->
  save_document E society k None w = (o, w') ->
  (exists e, o = Throw e) /\ progress E w0 ops w'.
Proof.
  intros Hp Hrun. unfold save_document, bind, uuidv4, throw in Hrun.
  injection Hrun as <- <-. split; [by eexists |].
  by apply progress_next_uuid.
Qed.

Lemma progress_save_additional society fs :
  forall ops documents w o w',
    progress E w0 ops w ->
    save_additional E society fs documents w = (o, w') ->
    (o = Ok (documents ++ map (document_entry doc_additional) fs)
     /\ exists rows,
          map recorded rows
          = map (expected society) (map (pair doc_additional) fs)
          /\ progress E w0 (ops ++ map InsertDocument rows) w')
    \/ ((exists e, o = Throw e) /\ exists ops', progress E w0 ops' w').
Proof.
  induction fs as [| f fs IH]; intros ops documents w o w' Hp Hrun.
  - injection Hrun as <- <-. left. rewrite app_nil_r. split; [done |].
    exists []. split; [done |]. by rewrite app_nil_r.
  - simpl in Hrun. apply bind_inv in Hrun.
    destruct Hrun as [(e & Hd & ->) | (d & w1 & Hd & Hrun)].
    + right. split; [by eexists |].
      destruct (progress_save_document _ _ _ _ _ _ _ Hp Hd)
        as [(Hno & _) | (_ & Hp')]; [discriminate Hno | by eexists].
    + destruct (progress_save_document _ _ _ _ _ _ _ Hp Hd)
        as [([= ->] & id & Hp') | ((e & Hno) & _)]; [| discriminate Hno].
      destruct (IH _ _ _ _ _ Hp' Hrun)
        as [(-> & rows & Hrows & Hp'') | Hthrow]; [| by right].
      left. split.
      { simpl. by rewrite <- app_assoc. }
      exists (document_row id society doc_additional f :: rows).
      split; [simpl; by rewrite Hrows |].
      simpl. by rewrite <- app_assoc in Hp''.
Qed.

End Progress.

Lemma progress_first_file E w0 ops society k part documents w o w' :
  progress E w0 ops w ->
  match part with
  | Some l =>
      let! d := save_document E society k (head l) in
      ret (documents ++ [d])
  | None => ret documents
  end w = (o, w') ->
  (o = Ok (documents ++ manifest (first_file k part))
   /\ exists rows,
        map recorded rows = map (expected society) (first_file k part)
        /\ progress E w0 (ops ++ map InsertDocument rows) w')
  \/ ((exists e, o = Throw e) /\ exists ops', progress E w0 ops' w').
Proof.
  intros Hp Hrun. destruct part as [l |].
  2: { injection Hrun as <- <-. left. simpl. rewrite app_nil_r.
       split; [done |]. exists []. simpl. by rewrite app_nil_r. }
  apply bind_inv in Hrun.
  unfold first_file. destruct (head l) as [f |].
  - destruct Hrun as [(e & Hd & ->) | (d & w1 & Hd & Hret)].
    + right. split; [by eexists |].
      destruct (progress_save_document _ _ _ _ _ _ _ _ _ Hp Hd)
        as [(Hno & _) | (_ & Hp')]; [discriminate Hno | by eexists].
    + injection Hret as <- <-.
      destruct (progress_save_document _ _ _ _ _ _ _ _ _ Hp Hd)
        as [([= ->] & id & Hp') | ((e & Hno) & _)]; [| discriminate Hno].
      left. split; [done |].
      exists [document_row id society k f]. done.
  - destruct Hrun as [(e & Hd & ->) | (d & w1 & Hd & Hret)].
    + right. split; [by eexists |].
      destruct (progress_save_document_missing _ _ _ _ _ _ _ _ Hp Hd)
        as (_ & Hp'). by eexists.
    + destruct (progress_save_document_missing _ _ _ _ _ _ _ _ Hp Hd)
        as ((e & Hno) & _). discriminate Hno.
Qed.

(** What the inner [try] can do.  Either it throws, before COMMIT took
    effect, with the unit's writes where they were put; or every insert
    was accepted, COMMIT was answered, the audit recorder ran and the
    response is 201. *)
Lemma register_unit_progress E req fs w0 o w' :
  register_unit E req fs w0 = (o, w') ->
  ((exists e, o = Throw e) /\ exists ops, progress E w0 ops w')
  \/ (exists society user rows wc,
        o = Ok (registration_done society (recorded_files fs))
        /\ map recorded rows = map (expected society) (recorded_files fs)
        /\ progress E w0
             ([InsertSociety (society_row society req);
               InsertUser (admin_row E user society req)]
              ++ map InsertDocument rows) wc
        /\ fault E (clock wc) COMMIT = false
        /\ w' = committed_and_audited E req society user
                  (length (recorded_files fs)) wc).
Proof.
  intros Hrun. unfold register_unit in Hrun.
  apply bind_inv in Hrun.
  destruct Hrun as [(e & Hu & _) | (society & w1 & Hu & Hrun)];
    [discriminate Hu |].
  injection Hu as <- <-.
  assert (Hp1 := progress_next_uuid E w0 _ _ (progress_start E w0)).
  apply bind_inv in Hrun.
  destruct Hrun as [(e & Hq & ->) | ([] & w2 & Hq & Hrun)].
  { left. split; [by eexists |].
    destruct (progress_write _ _ _ _ _ _ _ _ Hp1 Hq)
      as [(Hno & _) | (_ & Hp')]; [discriminate Hno | by eexists]. }
  destruct (progress_write _ _ _ _ _ _ _ _ Hp1 Hq)
    as [(_ & Hp2) | ((e & Hno) & _)]; [| discriminate Hno].
  apply bind_inv in Hrun.
  destruct Hrun as [(e & Hu & _) | (user & w3 & Hu & Hrun)];
    [discriminate Hu |].
  injection Hu as <- <-.
  apply progress_next_uuid in Hp2.
  apply bind_inv in Hrun.
  destruct Hrun as [(e & Hq' & ->) | ([] & w4 & Hq' & Hrun)].
  { left. split; [by eexists |].
    destruct (progress_write _ _ _ _ _ _ _ _ Hp2 Hq')
      as [(Hno & _) | (_ & Hp')]; [discriminate Hno | by eexists]. }
  destruct (progress_write _ _ _ _ _ _ _ _ Hp2 Hq')
    as [(_ & Hp4) | ((e & Hno) & _)]; [| discriminate Hno].
  simpl app in Hp4.
  apply bind_inv in Hrun.
  destruct Hrun as [(e & Hd & ->) | (docs1 & w5 & Hd & Hrun)].
  { left. split; [by eexists |].
    destruct (progress_first_file E w0 _ _ doc_registration_certificate
                (fs ≫= registrationCertificate) [] _ _ _ Hp4 Hd)
      as [(Hno & _) | (_ & Hp')]; [discriminate Hno | exact Hp']. }
  destruct (progress_first_file E w0 _ _ doc_registration_certificate
              (fs ≫= registrationCertificate) [] _ _ _ Hp4 Hd)
    as [([= ->] & rows1 & Hrows1 & Hp5) | ((e & Hno) & _)];
    [| discriminate Hno].
  apply bind_inv in Hrun.
  destruct Hrun as [(e & Hd' & ->) | (docs2 & w6 & Hd' & Hrun)].
  { left. split; [by eexists |].
    destruct (progress_first_file E w0 _ _ doc_bylaws (fs ≫= bylaws)
                _ _ _ _ Hp5 Hd')
      as [(Hno & _) | (_ & Hp')]; [discriminate Hno | exact Hp']. }
  destruct (progress_first_file E w0 _ _ doc_bylaws (fs ≫= bylaws)
              _ _ _ _ Hp5 Hd')
    as [([= ->] & rows2 & Hrows2 & Hp6) | ((e & Hno) & _)];
    [| discriminate Hno].
  apply bind_inv in Hrun.
  assert (Hadd : forall docs,
    match fs ≫= additionalDocs with
    | Some l => save_additional E (uuid E (uuids w0)) l docs
    | None => ret docs
    end
    = save_additional E (uuid E (uuids w0))
        (default [] (fs ≫= additionalDocs)) docs).
  { intros docs. destruct (fs ≫= additionalDocs); reflexivity. }
  rewrite Hadd in Hrun. clear Hadd.
  destruct Hrun as [(e & Hd'' & ->) | (docs3 & w7 & Hd'' & Hrun)].
  { left. split; [by eexists |].
    destruct (progress_save_additional E w0 _ _ _ _ _ _ _ Hp6 Hd'')
      as [(Hno & _) | (_ & Hp')]; [discriminate Hno | exact Hp']. }
  destruct (progress_save_additional E w0 _ _ _ _ _ _ _ Hp6 Hd'')
    as [([= ->] & rows3 & Hrows3 & Hp7) | ((e & Hno) & _)];
    [| discriminate Hno].
  apply bind_inv in Hrun.
  destruct (query_control_cases E COMMIT commit_on w7) as [(Hc & Hfc) | Hc];
    rewrite Hc in Hrun.
  2: { destruct Hrun as [(e & [= <- <-] & ->) | (? & ? & Hno & _)];
         [| discriminate Hno].
       left. split; [by eexists |]. eexists. by apply progress_tick. }
  destruct Hrun as [(e & Hno & _) | ([] & w8 & [= <-] & Hrun)];
    [discriminate Hno |].
  apply bind_inv in Hrun. rewrite logAuditTrail_audited in Hrun.
  destruct Hrun as [(e & Hno & _) | ([] & w9 & [= <-] & Hret)];
    [discriminate Hno |].
  injection Hret as <- <-.
  right. exists (uuid E (uuids w0)), (uuid E (uuids w2)),
           (rows1 ++ rows2 ++ rows3), w7.
  assert (Hman :
    (manifest (first_file doc_registration_certificate
                 (fs ≫= registrationCertificate))
     ++ manifest (first_file doc_bylaws (fs ≫= bylaws)))
    ++ map (document_entry doc_additional) (default [] (fs ≫= additionalDocs))
    = manifest (recorded_files fs)).
  { unfold recorded_files, manifest. rewrite !map_app, map_map.
    simpl. by rewrite <- app_assoc. }
  split; [| split; [| split; [| split]]].
  - unfold registration_done. by rewrite Hman.
  - unfold recorded_files. rewrite !map_app. congruence.
  - rewrite !map_app. rewrite <- !app_assoc in Hp7. exact Hp7.
  - exact Hfc.
  - unfold committed_and_audited. rewrite Hman.
    unfold manifest. by rewrite length_map.
Qed.

(** ** The registration handler, case by case *)

(** Every run of the handler is of one of three kinds: turned away before
    a transaction was opened, with nothing written; committed and answered
    201; or thrown out of the unit, whereupon ROLLBACK is sent to whichever
    connection the pool hands out and the answer is 500. *)
Lemma societyRegister_cases E req w :
  (status (fst (societyRegister E req w)) <> 201
   /\ committed (snd (societyRegister E req w)) = committed w
   /\ txns (snd (societyRegister E req w)) = txns w
   /\ journal (snd (societyRegister E req w)) = journal w)
  \/ (exists society user rows wc,
        societyRegister E req w
        = (registration_done society (recorded_files (files req)),
           committed_and_audited E req society user
             (length (recorded_files (files req))) wc)
        /\ map recorded rows
           = map (expected society) (recorded_files (files req))
        /\ progress E (begun E w)
             ([InsertSociety (society_row society req);
               InsertUser (admin_row E user society req)]
              ++ map InsertDocument rows) wc
        /\ fault E (clock wc) COMMIT = false)
  \/ (exists ops wr,
        societyRegister E req w
        = (registration_failed,
           if fault E (clock wr) ROLLBACK then tick wr
           else rollback_on (conn_at E (clock wr)) (tick wr))
        /\ progress E (begun E w) ops wr).
Proof.
  unfold societyRegister, handle, bind.
  destruct (fields_missing req); [left; simpl; done |].
  destruct (query_rows_cases E SELECT_society_by_registration_number
              (societies_by_registration_number (str (registrationNumber req)))
              w) as [-> | ->]; [| left; simpl; done].
  destruct (Nat.ltb 0 _); [left; simpl; done |].
  destruct (query_rows_cases E SELECT_user_by_email
              (users_by_email (str (adminEmail req))) (tick w))
    as [-> | ->]; [| left; simpl; done].
  destruct (Nat.ltb 0 _); [left; simpl; done |].
  destruct (files_missing (files req)); [left; simpl; done |].
  destruct (query_control_cases E START_TRANSACTION begin_on (tick (tick w)))
    as [(-> & _) | ->]; [| left; simpl; done].
  change (begin_on (conn_at E (clock (tick (tick w)))) (tick (tick (tick w))))
    with (begun E w).
  unfold try_catch.
  destruct (register_unit E req (files req) (begun E w)) as [o wu] eqn:Hunit.
  destruct (register_unit_progress E req (files req) (begun E w) o wu Hunit)
    as [((e & ->) & ops & Hp)
       | (society & user & rows & wc & -> & Hrows & Hp & Hfc & ->)].
  - right. right. exists ops, wu. split; [| exact Hp].
    destruct (query_control_cases E ROLLBACK rollback_on wu)
      as [(-> & ->) | Hq].
    + reflexivity.
    + rewrite Hq. unfold query in Hq.
      destruct (fault E (clock wu) ROLLBACK); [reflexivity | discriminate Hq].
  - right. left. exists society, user, rows, wc. done.
Qed.

Lemma business_apply_documents rows T :
  business (apply_writes (map InsertDocument rows) T)
  = (societies T, users T, society_documents T ++ rows).
Proof.
  revert T. induction rows as [| r rows IH]; intros T.
  - simpl. by rewrite app_nil_r.
  - simpl. rewrite IH. simpl. by rewrite <- app_assoc.
Qed.

Lemma business_apply_unit s u rows T :
  business (apply_writes ([InsertSociety s; InsertUser u]
                          ++ map InsertDocument rows) T)
  = (societies T ++ [s], users T ++ [u], society_documents T ++ rows).
Proof. rewrite apply_writes_app. by rewrite business_apply_documents. Qed.

(** The audit recorder adds at most its own entry to the journal. *)
Lemma journal_audited E userId societyId action tableName recordId oldValues
    newValues ipAddress userAgent w :
  exists trail,
    journal (audited E userId societyId action tableName recordId oldValues
               newValues ipAddress userAgent w)
    = journal w ++ trail
    /\ (trail = [] \/ exists a, trail = [InsertAuditLog a]).
Proof.
  unfold audited. rewrite logAuditTrail_run. cbn [snd].
  destruct (fault E (clock w) INSERT_INTO_audit_logs).
  { exists []. rewrite app_nil_r. by split; [| left]. }
  match goal with
  | |- context [admissible ?op ?T] => destruct (admissible op T)
  end.
  - eexists. rewrite journal_perform. split; [reflexivity |]. right.
    by eexists.
  - exists []. rewrite app_nil_r. by split; [| left].
Qed.

Lemma begun_journal E w : journal (begun E w) = journal w.
Proof. reflexivity. Qed.

Lemma begun_clock E w : clock (begun E w) = S (S (S (clock w))).
Proof. reflexivity. Qed.

Lemma begun_idle E c w :
  pinned E c (clock w) -> txns w !! c = None ->
  committed (begun E w) = committed w
  /\ txns (begun E w) = <[c := []]> (txns w).
Proof.
  intros Hpin Hidle. unfold begun, begin_on.
  rewrite (Hpin (S (S (clock w)))) by lia. cbn [committed txns].
  split; [| reflexivity]. by apply (view_idle (tick (tick (tick w)))).
Qed.

(** ** When the pool pins the connection *)

Lemma recorded_files_as_uploaded fs certificate bylaw extra :
  as_uploaded fs certificate bylaw extra ->
  recorded_files fs = accepted certificate bylaw extra.
Proof.
  intros (f & -> & Hc & Hb & Hx). unfold recorded_files, accepted.
  simpl. rewrite Hc, Hb, Hx. reflexivity.
Qed.

(** With the connection pinned and idle beforehand, every write accepted
    since START TRANSACTION sits staged on that connection. *)
Lemma progress_pinned E c w ops wc :
  pinned E c (clock w) -> txns w !! c = None ->
  progress E (begun E w) ops wc ->
  clock w <= clock wc
  /\ committed wc = committed w
  /\ txns wc = <[c := ops]> (txns w).
Proof.
  intros Hpin Hidle [_ Hclock Hstaged].
  destruct (begun_idle E c w Hpin Hidle) as [Hcom Htx].
  rewrite begun_clock in Hclock.
  destruct (Hstaged c) as [Hcom' Htx'].
  { intros t Ht. apply Hpin. rewrite begun_clock in Ht. lia. }
  { rewrite Htx. apply lookup_insert_eq. }
  split; [lia |]. split; [congruence |].
  rewrite Htx', Htx. apply insert_insert_eq.
Qed.

Lemma txns_audited_idle E userId societyId action tableName recordId
    oldValues newValues ipAddress userAgent w :
  txns w !! conn_at E (clock w) = None ->
  txns (audited E userId societyId action tableName recordId oldValues
          newValues ipAddress userAgent w) = txns w.
Proof.
  intros Hidle. unfold audited. rewrite logAuditTrail_run. cbn [snd].
  destruct (fault E (clock w) INSERT_INTO_audit_logs); [reflexivity |].
  match goal with
  | |- context [admissible ?op ?T] => destruct (admissible op T)
  end; [| reflexivity].
  by rewrite (perform_idle _ _ (tick (next_uuid w))).
Qed.

(** The unit's rollback does restore the store when the pool serves the
    whole request on one connection that had no transaction open and
    ROLLBACK itself is answered: whatever made the request fail, the
    committed tables and the open transactions are what they were. *)
Lemma societyRegister_atomic_when_pinned E c req w :
  pinned E c (clock w) ->
  txns w !! c = None ->
  (forall t, fault E t ROLLBACK = false) ->
  status (fst (societyRegister E req w)) <> 201 ->
  committed (snd (societyRegister E req w)) = committed w
  /\ txns (snd (societyRegister E req w)) = txns w.
Proof.
  intros Hpin Hidle Hrb Hfail.
  destruct (societyRegister_cases E req w)
    as [(_ & Hc & Ht & _)
       | [(society & user & rows & wc & Hrun & _)
         | (ops & wr & Hrun & Hp)]].
  - done.
  - rewrite Hrun in Hfail. by destruct Hfail.
  - rewrite Hrun, Hrb. cbn [snd].
    destruct (progress_pinned E c w ops wr Hpin Hidle Hp) as (Hclock & Hc & Ht).
    rewrite (Hpin (clock wr) Hclock). unfold rollback_on. cbn [committed txns tick].
    split; [exact Hc |].
    rewrite Ht, delete_insert_eq. by apply delete_id.
Qed.

(** ** Whichever connections the pool hands out *)

Lemma business_apply_inserts ops T :
  (forall op, In op ops -> is_update op = false) ->
  business (apply_writes ops T)
  = (societies T ++ inserted_societies ops,
     users T ++ inserted_users ops,
     society_documents T ++ inserted_documents ops).
Proof.
  revert T. induction ops as [| op ops IH]; intros T Hno.
  - unfold business. simpl. by rewrite !app_nil_r.
  - simpl apply_writes. change (fold_left _ ops ?x) with (apply_writes ops x).
    rewrite IH by (intros op' Hin; apply Hno; by right).
    assert (Hop := Hno op (or_introl eq_refl)).
    destruct op; try discriminate Hop; simpl; by rewrite <- ?app_assoc.
Qed.

Lemma inserted_societies_perm ops1 ops2 :
  Permutation ops1 ops2 ->
  Permutation (inserted_societies ops1) (inserted_societies ops2).
Proof. intros H. unfold inserted_societies. by apply Permutation_flat_map. Qed.

Lemma inserted_users_perm ops1 ops2 :
  Permutation ops1 ops2 ->
  Permutation (inserted_users ops1) (inserted_users ops2).
Proof. intros H. unfold inserted_users. by apply Permutation_flat_map. Qed.

Lemma inserted_documents_perm ops1 ops2 :
  Permutation ops1 ops2 ->
  Permutation (inserted_documents ops1) (inserted_documents ops2).
Proof. intros H. unfold inserted_documents. by apply Permutation_flat_map. Qed.

Lemma inserted_documents_map rows :
  inserted_documents (map InsertDocument rows) = rows.
Proof.
  unfold inserted_documents. induction rows as [| r rows IH]; [done |].
  simpl. by rewrite IH.
Qed.

Lemma inserted_societies_documents rows :
  inserted_societies (map InsertDocument rows) = [].
Proof.
  unfold inserted_societies. induction rows as [| r rows IH]; [done |].
  simpl. exact IH.
Qed.

Lemma inserted_users_documents rows :
  inserted_users (map InsertDocument rows) = [].
Proof.
  unfold inserted_users. induction rows as [| r rows IH]; [done |].
  simpl. exact IH.
Qed.

Lemma begun_quiescent E w :
  quiescent w ->
  committed (begun E w) = committed w
  /\ txns (begun E w) = {[conn_at E (S (S (clock w))) := []]}.
Proof.
  intros Hq. unfold begun, begin_on. cbn [committed txns tick].
  split.
  - by apply (view_quiescent (tick (tick (tick w)))).
  - rewrite Hq. apply insert_empty.
Qed.

(** What the connection that opened the transaction reads once the unit
    has committed, wherever COMMIT went: the committed tables of before with
    the unit's writes applied, in some order. *)
Lemma view_after_commit E w ops wc :
  quiescent w ->
  progress E (begun E w) ops wc ->
  exists ops',
    Permutation ops' ops
    /\ view (commit_on (conn_at E (clock wc)) (tick wc))
          (conn_at E (S (S (clock w))))
       = apply_writes ops' (committed w).
Proof.
  intros Hq Hp. destruct (begun_quiescent E w Hq) as [Hcom Htx].
  destruct (pr_stored _ _ _ _ Hp _ Htx) as (direct & held & Hc & Ht & Hperm).
  exists (direct ++ held). split; [exact Hperm |].
  rewrite apply_writes_app, <- Hcom, <- Hc.
  unfold view, staged, commit_on. cbn [committed txns tick].
  unfold view, staged. cbn [committed txns tick]. rewrite Ht.
  destruct (decide (conn_at E (clock wc) = conn_at E (S (S (clock w)))))
    as [-> | Hne].
  - rewrite delete_singleton_eq, lookup_empty, lookup_singleton_eq.
    reflexivity.
  - rewrite delete_singleton_ne by done.
    rewrite lookup_singleton_eq, lookup_singleton_ne by done. reflexivity.
Qed.

(** C1: the failing input.  The pool serves START TRANSACTION on one
    connection and INSERT INTO societies on another, which commits it at
    once; INSERT INTO users then fails; ROLLBACK finds nothing to undo.  The
    request is answered 500 and its society row stays in the store. *)
Theorem C1_orphaned_society :
  fst (societyRegister unpinned (register_alpha (Some "Alpha Co-op") both_files)
         fresh)
  = registration_failed
  /\ societies (committed (snd (societyRegister unpinned
                                  (register_alpha (Some "Alpha Co-op")
                                     both_files) fresh)))
     = [society_row "A" (register_alpha (Some "Alpha Co-op") both_files)]
  /\ users (committed (snd (societyRegister unpinned
                              (register_alpha (Some "Alpha Co-op")
                                 both_files) fresh)))
     = [dev]
  /\ txns (snd (societyRegister unpinned
                  (register_alpha (Some "Alpha Co-op") both_files) fresh))
     = ∅.
Proof. vm_compute. repeat split. Qed.

(** The same defect seen from the success path: when COMMIT is served by
    another connection than the one the unit ran on, the request is answered
    201 while its rows are still staged, uncommitted, on that connection. *)
Lemma societyRegister_commit_astray :
  status (fst (societyRegister stray_commit
                 (register_alpha (Some "Alpha Co-op") both_files) fresh)) = 201
  /\ committed (snd (societyRegister stray_commit
                       (register_alpha (Some "Alpha Co-op") both_files) fresh))
     = committed fresh
  /\ length (staged (snd (societyRegister stray_commit
                            (register_alpha (Some "Alpha Co-op") both_files)
                            fresh)) 0) = 5.
Proof. vm_compute. repeat split. Qed.

Lemma registered_rows_readable E w req society user rows count wc :
  quiescent w ->
  progress E (begun E w)
    ([InsertSociety (society_row society req);
      InsertUser (admin_row E user society req)]
     ++ map InsertDocument rows) wc ->
  let w' := committed_and_audited E req society user count wc in
  let a := conn_at E (S (S (clock w))) in
  societies (view w' a) = societies (committed w) ++ [society_row society req]
  /\ users (view w' a)
     = users (committed w) ++ [admin_row E user society req]
  /\ Permutation (society_documents (view w' a))
       (society_documents (committed w) ++ rows).
Proof.
  intros Hq Hp w' a.
  destruct (view_after_commit E w _ wc Hq Hp) as (ops' & Hperm & Hview).
  assert (Hb : business (view w' a)
               = (societies (committed w) ++ inserted_societies ops',
                  users (committed w) ++ inserted_users ops',
                  society_documents (committed w) ++ inserted_documents ops')).
  { subst w' a. unfold committed_and_audited, audited.
    match goal with
    | |- context [logAuditTrail ?E0 ?a1 ?a2 ?a3 ?a4 ?a5 ?a6 ?a7 ?a8 ?a9 ?w0] =>
        destruct (logAuditTrail_business E0 a1 a2 a3 a4 a5 a6 a7 a8 a9 w0)
          as [_ Hv]
    end.
    cbv zeta in Hv. rewrite Hv, Hview. apply business_apply_inserts.
    intros op Hin. apply (Permutation_in _ Hperm) in Hin.
    destruct Hin as [<- | [<- | Hin]]; [done | done |].
    apply in_map_iff in Hin. by destruct Hin as (r & <- & _). }
  unfold business in Hb. injection Hb as Hs Hu Hd.
  assert (Hps := inserted_societies_perm _ _ Hperm).
  assert (Hpu := inserted_users_perm _ _ Hperm).
  assert (Hpd := inserted_documents_perm _ _ Hperm).
  unfold inserted_societies in Hps at 2. unfold inserted_users in Hpu at 2.
  unfold inserted_documents in Hpd at 2.
  simpl in Hps, Hpu, Hpd.
  fold (inserted_societies (map InsertDocument rows)) in Hps.
  fold (inserted_users (map InsertDocument rows)) in Hpu.
  fold (inserted_documents (map InsertDocument rows)) in Hpd.
  rewrite inserted_societies_documents in Hps.
  rewrite inserted_users_documents in Hpu.
  rewrite inserted_documents_map in Hpd.
  apply Permutation_sym, Permutation_length_1_inv in Hps.
  apply Permutation_sym, Permutation_length_1_inv in Hpu.
  rewrite Hs, Hu, Hd, Hps, Hpu.
  split; [done |]. split; [done |]. by apply Permutation_app_head.
Qed.

(** X30: what a registration answered 201 has written, for files as
    [upload.fields] delivers them.  Whatever connections the pool handed
    out, exactly these writes were accepted, in this order: one society
    row with status pending, one user row with role society_admin and
    status active pointing at that society, one document row per accepted
    file with that file's kind, and at most the audit entry; the response
    names the society and lists the accepted files.  When the pool served
    the request on one connection that had no transaction open, the
    committed societies, users and society_documents tables are the
    previous ones followed by exactly those rows, and no transaction is
    left open.  In a store that had no transaction open, whichever
    connections the pool handed out, the connection that opened this
    transaction reads the previous societies and users followed by exactly
    that society and that user, and the previous documents with exactly
    those rows. *)
Theorem registration_201_writes E w req certificate bylaw extra :
  as_uploaded (files req) certificate bylaw extra ->
  status (fst (societyRegister E req w)) = 201 ->
  exists society user rows trail,
    fst (societyRegister E req w)
    = registration_done society (accepted certificate bylaw extra)
    /\ journal (snd (societyRegister E req w))
       = journal w
         ++ [InsertSociety (society_row society req);
             InsertUser (admin_row E user society req)]
         ++ map InsertDocument rows ++ trail
    /\ (trail = [] \/ exists a, trail = [InsertAuditLog a])
    /\ s_status (society_row society req) = status_pending
    /\ u_role (admin_row E user society req) = role_society_admin
    /\ u_status (admin_row E user society req) = user_active
    /\ u_society_id (admin_row E user society req)
       = Some (s_id (society_row society req))
    /\ map recorded rows
       = map (expected society) (accepted certificate bylaw extra)
    /\ (forall c, pinned E c (clock w) -> txns w !! c = None ->
          business (committed (snd (societyRegister E req w)))
          = (societies (committed w) ++ [society_row society req],
             users (committed w) ++ [admin_row E user society req],
             society_documents (committed w) ++ rows)
          /\ txns (snd (societyRegister E req w)) = txns w)
    /\ (quiescent w ->
        societies (view (snd (societyRegister E req w))
                     (conn_at E (S (S (clock w)))))
        = societies (committed w) ++ [society_row society req]
        /\ users (view (snd (societyRegister E req w))
                    (conn_at E (S (S (clock w)))))
           = users (committed w) ++ [admin_row E user society req]
        /\ Permutation
             (society_documents (view (snd (societyRegister E req w))
                                   (conn_at E (S (S (clock w))))))
             (society_documents (committed w) ++ rows)).
Proof.
  intros Hup H201.
  destruct (societyRegister_cases E req w)
    as [(Hno & _)
       | [(society & user & rows & wc & Hrun & Hrows & Hp & Hfc)
         | (ops & wr & Hrun & _)]].
  - contradiction.
  - rewrite (recorded_files_as_uploaded _ _ _ _ Hup) in Hrun, Hrows.
    rewrite Hrun. cbn [fst snd]. unfold committed_and_audited.
    destruct (journal_audited E (Some user) (Some society)
                "SOCIETY_REGISTRATION" "societies" society None
                (Some [("society_name", JString (str (societyName req)));
                       ("registration_number",
                        JString (str (registrationNumber req)));
                       ("admin_email", JString (str (adminEmail req)));
                       ("documents_count",
                        JNumber (length (accepted certificate bylaw extra)))])
                (register_ip req) (register_user_agent req)
                (commit_on (conn_at E (clock wc)) (tick wc)))
      as (trail & Hj & Htrail).
    exists society, user, rows, trail.
    split; [reflexivity |]. split.
    { rewrite Hj. cbn [journal commit_on tick].
      rewrite (pr_journal _ _ _ _ Hp), begun_journal.
      by rewrite <- !app_assoc. }
    split; [exact Htrail |].
    do 4 (split; [reflexivity |]). split; [exact Hrows |].
    split; [| intros Hq; by apply (registered_rows_readable E w req _ _ _ _ wc) ].
    intros c Hpin Hidle.
    destruct (progress_pinned E c w _ wc Hpin Hidle Hp) as (Hclock & Hc & Ht).
    rewrite (Hpin (clock wc) Hclock).
    assert (Hstaged : view (tick wc) c
                      = apply_writes
                          ([InsertSociety (society_row society req);
                            InsertUser (admin_row E user society req)]
                           ++ map InsertDocument rows) (committed w)).
    { unfold view, staged. cbn [txns committed tick].
      by rewrite Ht, lookup_insert_eq, Hc. }
    split.
    + unfold audited.
      destruct (logAuditTrail_business E (Some user) (Some society)
                  "SOCIETY_REGISTRATION" "societies" society None
                  (Some [("society_name", JString (str (societyName req)));
                         ("registration_number",
                          JString (str (registrationNumber req)));
                         ("admin_email", JString (str (adminEmail req)));
                         ("documents_count",
                          JNumber (length (accepted certificate bylaw extra)))])
                  (register_ip req) (register_user_agent req)
                  (commit_on c (tick wc))) as [Hb _].
      cbv zeta in Hb. rewrite Hb. cbn [committed commit_on].
      rewrite Hstaged. apply business_apply_unit.
    + rewrite txns_audited_idle.
      * cbn [txns commit_on tick]. rewrite Ht, delete_insert_eq.
        by apply delete_id.
      * cbn [txns commit_on tick clock].
        rewrite (Hpin (S (clock wc))) by lia. apply lookup_delete_eq.
  - rewrite Hrun in H201. discriminate H201.
Qed.

Lemma registration_201_writes_witness :
  exists society user rows trail,
    fst (societyRegister calm (register_alpha (Some "Alpha Co-op") three_files)
           fresh)
    = registration_done society (accepted certificate_png bylaws_pdf [minutes_png])
    /\ journal (snd (societyRegister calm
                       (register_alpha (Some "Alpha Co-op") three_files) fresh))
       = journal fresh
         ++ [InsertSociety
               (society_row society
                  (register_alpha (Some "Alpha Co-op") three_files));
             InsertUser
               (admin_row calm user society
                  (register_alpha (Some "Alpha Co-op") three_files))]
         ++ map InsertDocument rows ++ trail
    /\ (trail = [] \/ exists a, trail = [InsertAuditLog a])
    /\ s_status (society_row society
                   (register_alpha (Some "Alpha Co-op") three_files))
       = status_pending
    /\ u_role (admin_row calm user society
                 (register_alpha (Some "Alpha Co-op") three_files))
       = role_society_admin
    /\ u_status (admin_row calm user society
                   (register_alpha (Some "Alpha Co-op") three_files))
       = user_active
    /\ u_society_id (admin_row calm user society
                       (register_alpha (Some "Alpha Co-op") three_files))
       = Some (s_id (society_row society
                       (register_alpha (Some "Alpha Co-op") three_files)))
    /\ map recorded rows
       = map (expected society)
           (accepted certificate_png bylaws_pdf [minutes_png])
    /\ (forall c, pinned calm c (clock fresh) -> txns fresh !! c = None ->
          business (committed (snd (societyRegister calm
                                      (register_alpha (Some "Alpha Co-op")
                                         three_files) fresh)))
          = (societies (committed fresh)
             ++ [society_row society
                   (register_alpha (Some "Alpha Co-op") three_files)],
             users (committed fresh)
             ++ [admin_row calm user society
                   (register_alpha (Some "Alpha Co-op") three_files)],
             society_documents (committed fresh) ++ rows)
          /\ txns (snd (societyRegister calm
                          (register_alpha (Some "Alpha Co-op") three_files)
                          fresh))
             = txns fresh)
    /\ (quiescent fresh ->
        societies (view (snd (societyRegister calm
                                (register_alpha (Some "Alpha Co-op")
                                   three_files) fresh))
                     (conn_at calm (S (S (clock fresh)))))
        = societies (committed fresh)
          ++ [society_row society
                (register_alpha (Some "Alpha Co-op") three_files)]
        /\ users (view (snd (societyRegister calm
                                (register_alpha (Some "Alpha Co-op")
                                   three_files) fresh))
                    (conn_at calm (S (S (clock fresh)))))
           = users (committed fresh)
             ++ [admin_row calm user society
                   (register_alpha (Some "Alpha Co-op") three_files)]
        /\ Permutation
             (society_documents
                (view (snd (societyRegister calm
                              (register_alpha (Some "Alpha Co-op")
                                 three_files) fresh))
                   (conn_at calm (S (S (clock fresh))))))
             (society_documents (committed fresh) ++ rows)).
Proof.
  apply (registration_201_writes calm fresh
           (register_alpha (Some "Alpha Co-op") three_files)
           certificate_png bylaws_pdf [minutes_png]).
  - eexists. repeat split; reflexivity.
  - vm_compute. reflexivity.
Defined.

(** * Further properties *)

(** ** Who gets a session *)

Lemma in_developers_by_email email T u :
  In u (developers_by_email email T)
  <-> In u (users T) /\ u_email u = email /\ u_role u = role_developer
      /\ u_status u = user_active.
Proof.
  unfold developers_by_email. rewrite filter_In, !andb_true_iff.
  rewrite String.eqb_eq, role_eqb_eq, user_status_eqb_eq. tauto.
Qed.

(** What [developerLogin] answers, check by check. *)
Lemma developerLogin_run E req w :
  developerLogin E req w
  = if negb (truthy (login_email req)) || negb (truthy (login_password req))
    then (missing_credentials, w)
    else if fault E (clock w) SELECT_developer_by_email
    then (login_failed, tick w)
    else match developers_by_email (str (login_email req)) (visible E w) with
         | [] => (bad_credentials, tick w)
         | u :: _ =>
             if bcrypt_compare E (str (login_password req)) (u_password u)
             then (developer_session E u,
                   audited E (Some (u_id u)) None "LOGIN" "users" (u_id u) None
                     (Some [("email", JString (u_email u));
                            ("role", JString (role_name (u_role u)))])
                     (login_ip req) (login_user_agent req) (tick w))
             else (bad_credentials, tick w)
         end.
Proof.
  unfold developerLogin, handle, bind.
  destruct (negb (truthy (login_email req)) || negb (truthy (login_password req)));
    [reflexivity |].
  destruct (fault E (clock w) SELECT_developer_by_email) eqn:Hf.
  { by rewrite query_fault. }
  rewrite query_rows by exact Hf.
  destruct (developers_by_email _ _) as [| u rest]; [reflexivity |].
  destruct (bcrypt_compare E _ _); [| reflexivity].
  cbn [negb]. rewrite logAuditTrail_audited. reflexivity.
Qed.

Lemma societyLogin_run E req w :
  societyLogin E req w
  = if negb (truthy (login_email req)) || negb (truthy (login_password req))
    then (missing_credentials, w)
    else if fault E (clock w) SELECT_society_admin_by_email
    then (login_failed, tick w)
    else match society_admins_by_email (str (login_email req)) (visible E w) with
         | [] => (bad_credentials, tick w)
         | (u, s) :: _ =>
             if negb (status_eqb (s_status s) status_approved)
             then (not_approved, tick w)
             else if bcrypt_compare E (str (login_password req)) (u_password u)
             then (society_session E u s,
                   audited E (Some (u_id u)) (Some (s_id s)) "LOGIN" "users"
                     (u_id u) None
                     (Some [("email", JString (u_email u));
                            ("role", JString (role_name (u_role u)));
                            ("society_id", JString (s_id s))])
                     (login_ip req) (login_user_agent req) (tick w))
             else (bad_credentials, tick w)
         end.
Proof.
  unfold societyLogin, handle, bind.
  destruct (negb (truthy (login_email req)) || negb (truthy (login_password req)));
    [reflexivity |].
  destruct (fault E (clock w) SELECT_society_admin_by_email) eqn:Hf.
  { by rewrite query_fault. }
  rewrite query_rows by exact Hf.
  destruct (society_admins_by_email _ _) as [| [u s] rest]; [reflexivity |].
  destruct (negb (status_eqb (s_status s) status_approved)); [reflexivity |].
  destruct (bcrypt_compare E _ _); [| reflexivity].
  cbn [negb]. rewrite logAuditTrail_audited. reflexivity.
Qed.

(** Either the session of an eligible developer, or an error body. *)
Lemma developerLogin_outcome E req w :
  (exists u,
     (In u (users (visible E w))
      /\ u_email u = str (login_email req)
      /\ u_role u = role_developer
      /\ u_status u = user_active)
     /\ bcrypt_compare E (str (login_password req)) (u_password u) = true
     /\ supplied req
     /\ fst (developerLogin E req w) = developer_session E u)
  \/ (exists code e m,
        code <> 200
        /\ fst (developerLogin E req w) = respond code (ErrorBody e m)).
Proof.
  rewrite developerLogin_run.
  destruct (truthy (login_email req)) eqn:He;
    [| right; by exists 400, "Missing required fields",
                         "Email and password are required"].
  destruct (truthy (login_password req)) eqn:Hp;
    [| right; by exists 400, "Missing required fields",
                         "Email and password are required"].
  cbn [negb orb].
  destruct (fault E (clock w) SELECT_developer_by_email);
    [right; by exists 500, "Internal server error",
                      "An error occurred during login" |].
  destruct (developers_by_email _ _) as [| u rest] eqn:Hq;
    [right; by exists 401, "Authentication failed",
                      "Invalid email or password" |].
  destruct (bcrypt_compare E _ _) eqn:Hpw;
    [| right; by exists 401, "Authentication failed",
                         "Invalid email or password"].
  left. exists u.
  assert (Hin : In u (developers_by_email (str (login_email req)) (visible E w)))
    by (rewrite Hq; by left).
  apply in_developers_by_email in Hin. unfold supplied. done.
Qed.

(** Either the session of an eligible administrator of an approved society,
    or an error body. *)
Lemma societyLogin_outcome E req w :
  (exists u s,
     ((In u (users (visible E w))
       /\ u_email u = str (login_email req)
       /\ u_role u = role_society_admin
       /\ u_status u = user_active)
      /\ In s (societies (visible E w))
      /\ u_society_id u = Some (s_id s))
     /\ s_status s = status_approved
     /\ bcrypt_compare E (str (login_password req)) (u_password u) = true
     /\ fst (societyLogin E req w) = society_session E u s)
  \/ (exists code e m,
        code <> 200
        /\ fst (societyLogin E req w) = respond code (ErrorBody e m)).
Proof.
  rewrite societyLogin_run.
  destruct (truthy (login_email req)) eqn:He;
    [| right; by exists 400, "Missing required fields",
                         "Email and password are required"].
  destruct (truthy (login_password req)) eqn:Hp;
    [| right; by exists 400, "Missing required fields",
                         "Email and password are required"].
  cbn [negb orb].
  destruct (fault E (clock w) SELECT_society_admin_by_email);
    [right; by exists 500, "Internal server error",
                      "An error occurred during login" |].
  destruct (society_admins_by_email _ _) as [| [u s] rest] eqn:Hq;
    [right; by exists 401, "Authentication failed",
                      "Invalid email or password" |].
  destruct (status_eqb (s_status s) status_approved) eqn:Hap;
    [| right; by exists 403, "Society not approved",
                         "Your society registration is still pending approval"].
  cbn [negb].
  destruct (bcrypt_compare E _ _) eqn:Hpw;
    [| right; by exists 401, "Authentication failed",
                         "Invalid email or password"].
  left. exists u, s.
  assert (Hin : In (u, s) (society_admins_by_email (str (login_email req))
                             (visible E w)))
    by (rewrite Hq; by left).
  apply in_society_admins_by_email in Hin.
  apply status_eqb_eq in Hap. done.
Qed.

(** X1: [developerLogin] answers 200 only to the credentials of an active
    developer: the rows it read hold a user with the email sent, role
    developer and status active, whose stored hash the password sent
    matches, and the session answered is that user's. *)
Theorem developerLogin_sound E req w :
  status (fst (developerLogin E req w)) = 200 ->
  exists u,
    In u (users (visible E w))
    /\ u_email u = str (login_email req)
    /\ u_role u = role_developer
    /\ u_status u = user_active
    /\ bcrypt_compare E (str (login_password req)) (u_password u) = true
    /\ supplied req
    /\ fst (developerLogin E req w) = developer_session E u.
Proof.
  intros H200.
  destruct (developerLogin_outcome E req w)
    as [(u & (H1 & H2 & H3 & H4) & H5 & H6 & H7) | (code & e & m & Hc & Hr)].
  - by exists u.
  - rewrite Hr in H200. done.
Qed.

Lemma developerLogin_sound_witness :
  exists u,
    In u (users (visible calm fresh))
    /\ u_email u = "admin@coopbase.com"
    /\ u_role u = role_developer
    /\ u_status u = user_active
    /\ bcrypt_compare calm "admin123" (u_password u) = true
    /\ supplied (login_as (Some "admin@coopbase.com") (Some "admin123"))
    /\ fst (developerLogin calm
              (login_as (Some "admin@coopbase.com") (Some "admin123")) fresh)
       = developer_session calm u.
Proof.
  exact (developerLogin_sound calm
           (login_as (Some "admin@coopbase.com") (Some "admin123")) fresh
           eq_refl).
Defined.

(** X2: [societyLogin] answers 200 only to the credentials of an active
    society_admin whose society is approved: the rows it read hold such a
    user with the email sent, joined to its society, and the password sent
    matches the stored hash. *)
Theorem societyLogin_sound E req w :
  status (fst (societyLogin E req w)) = 200 ->
  exists u s,
    In u (users (visible E w))
    /\ In s (societies (visible E w))
    /\ u_email u = str (login_email req)
    /\ u_role u = role_society_admin
    /\ u_status u = user_active
    /\ u_society_id u = Some (s_id s)
    /\ s_status s = status_approved
    /\ bcrypt_compare E (str (login_password req)) (u_password u) = true
    /\ fst (societyLogin E req w) = society_session E u s.
Proof.
  intros H200.
  destruct (societyLogin_outcome E req w)
    as [(u & s & ((H1 & H2 & H3 & H4) & H5 & H6) & H7 & H8 & H9)
       | (code & e & m & Hc & Hr)].
  - by exists u, s.
  - rewrite Hr in H200. done.
Qed.

Lemma societyLogin_sound_witness :
  exists u s,
    In u (users (visible calm with_approved_alpha))
    /\ In s (societies (visible calm with_approved_alpha))
    /\ u_email u = "a@alpha.coop"
    /\ u_role u = role_society_admin
    /\ u_status u = user_active
    /\ u_society_id u = Some (s_id s)
    /\ s_status s = status_approved
    /\ bcrypt_compare calm "secret" (u_password u) = true
    /\ fst (societyLogin calm (login_as (Some "a@alpha.coop") (Some "secret"))
              with_approved_alpha)
       = society_session calm u s.
Proof.
  exact (societyLogin_sound calm
           (login_as (Some "a@alpha.coop") (Some "secret"))
           with_approved_alpha eq_refl).
Defined.

Lemma developers_by_email_head email T u :
  unique_emails T ->
  In u (developers_by_email email T) ->
  exists rest, developers_by_email email T = u :: rest.
Proof.
  intros Hue Hin.
  destruct (developers_by_email email T) as [| u' rest] eqn:Hq;
    [destruct Hin |].
  assert (Hin' : In u' (developers_by_email email T))
    by (rewrite Hq; by left).
  rewrite <- Hq in Hin.
  apply in_developers_by_email in Hin, Hin'.
  destruct Hin as (Hu & He & _), Hin' as (Hu' & He' & _).
  assert (u' = u) as -> by (apply Hue; congruence).
  by exists rest.
Qed.

(** An eligible developer is let in: the form the flows that end in a
    developer login use. *)
Lemma developerLogin_eligible E req w u :
  supplied req ->
  fault E (clock w) SELECT_developer_by_email = false ->
  unique_emails (visible E w) ->
  In u (users (visible E w)) ->
  u_email u = str (login_email req) ->
  u_role u = role_developer ->
  u_status u = user_active ->
  bcrypt_compare E (str (login_password req)) (u_password u) = true ->
  fst (developerLogin E req w) = developer_session E u.
Proof.
  intros Hs Hf Hue Hu He Hr Hst Hpw.
  rewrite developerLogin_run, (login_supplied _ Hs), Hf.
  destruct (developers_by_email_head (str (login_email req)) (visible E w) u Hue)
    as [rest ->].
  { by apply in_developers_by_email. }
  by rewrite Hpw.
Qed.

(** X3: a developer login that supplies the email of an active developer
    and a password its stored hash matches is answered 200 with that user's
    session, provided the lookup is answered and emails are unique among
    the rows read. *)
Theorem developerLogin_accepts E req w u :
  supplied req ->
  fault E (clock w) SELECT_developer_by_email = false ->
  unique_emails (visible E w) ->
  In u (users (visible E w)) ->
  u_email u = str (login_email req) ->
  u_role u = role_developer ->
  u_status u = user_active ->
  bcrypt_compare E (str (login_password req)) (u_password u) = true ->
  fst (developerLogin E req w) = developer_session E u.
Proof.
  intros Hs Hf Hue Hu He Hr Hst Hpw.
  rewrite developerLogin_run, (login_supplied _ Hs), Hf.
  destruct (developers_by_email_head (str (login_email req)) (visible E w) u Hue)
    as [rest ->].
  { by apply in_developers_by_email. }
  by rewrite Hpw.
Qed.

Lemma unique_emails_fresh : unique_emails (visible calm fresh).
Proof.
  intros u1 u2 H1 H2 _. vm_compute in H1, H2.
  destruct H1 as [<- | []], H2 as [<- | []]. reflexivity.
Qed.

Lemma developerLogin_accepts_witness :
  fst (developerLogin calm
         (login_as (Some "admin@coopbase.com") (Some "admin123")) fresh)
  = developer_session calm dev.
Proof.
  apply (developerLogin_accepts calm
           (login_as (Some "admin@coopbase.com") (Some "admin123")) fresh dev).
  - split; reflexivity.
  - reflexivity.
  - exact unique_emails_fresh.
  - vm_compute. by left.
  - reflexivity.
  - reflexivity.
  - reflexivity.
  - reflexivity.
Defined.

(** An eligible administrator of an approved society is let in: the form
    the flows that end in a society login use. *)
Lemma societyLogin_eligible E req w u s :
  supplied req ->
  fault E (clock w) SELECT_society_admin_by_email = false ->
  unique_emails (visible E w) ->
  unique_society_ids (visible E w) ->
  In u (users (visible E w)) ->
  u_email u = str (login_email req) ->
  u_role u = role_society_admin ->
  u_status u = user_active ->
  In s (societies (visible E w)) ->
  u_society_id u = Some (s_id s) ->
  s_status s = status_approved ->
  bcrypt_compare E (str (login_password req)) (u_password u) = true ->
  fst (societyLogin E req w) = society_session E u s.
Proof.
  intros Hs Hf Hue Hus Hu He Hr Hst Hin Hj Hap Hpw.
  rewrite societyLogin_run, (login_supplied _ Hs), Hf.
  destruct (society_admins_by_email_head (str (login_email req)) (visible E w)
              u s Hue Hus) as [rest ->].
  { by apply in_society_admins_by_email. }
  rewrite Hap. cbn [status_eqb negb]. by rewrite Hpw.
Qed.

(** X4: a society login that supplies the email of an active society_admin
    whose society is approved, and a password the stored hash matches, is
    answered 200 with a session that names that society, provided the
    lookup is answered and the rows read respect the keys of the schema. *)
Theorem societyLogin_accepts E req w u s :
  supplied req ->
  fault E (clock w) SELECT_society_admin_by_email = false ->
  unique_emails (visible E w) ->
  unique_society_ids (visible E w) ->
  In u (users (visible E w)) ->
  u_email u = str (login_email req) ->
  u_role u = role_society_admin ->
  u_status u = user_active ->
  In s (societies (visible E w)) ->
  u_society_id u = Some (s_id s) ->
  s_status s = status_approved ->
  bcrypt_compare E (str (login_password req)) (u_password u) = true ->
  fst (societyLogin E req w) = society_session E u s.
Proof.
  intros Hs Hf Hue Hus Hu He Hr Hst Hin Hj Hap Hpw.
  rewrite societyLogin_run, (login_supplied _ Hs), Hf.
  destruct (society_admins_by_email_head (str (login_email req)) (visible E w)
              u s Hue Hus) as [rest ->].
  { by apply in_society_admins_by_email. }
  rewrite Hap. cbn [status_eqb negb]. by rewrite Hpw.
Qed.

Lemma unique_emails_with_approved_alpha :
  unique_emails (visible calm with_approved_alpha).
Proof.
  intros u1 u2 H1 H2 He. vm_compute in H1, H2.
  destruct H1 as [<- | [<- | []]], H2 as [<- | [<- | []]];
    (reflexivity || discriminate He).
Qed.

Lemma unique_society_ids_with_approved_alpha :
  unique_society_ids (visible calm with_approved_alpha).
Proof.
  intros s1 s2 H1 H2 _. vm_compute in H1, H2.
  destruct H1 as [<- | []], H2 as [<- | []]. reflexivity.
Qed.

Lemma societyLogin_accepts_witness :
  fst (societyLogin calm (login_as (Some "a@alpha.coop") (Some "secret"))
         with_approved_alpha)
  = society_session calm alpha_admin approved_alpha.
Proof.
  apply (societyLogin_accepts calm
           (login_as (Some "a@alpha.coop") (Some "secret"))
           with_approved_alpha alpha_admin approved_alpha).
  - split; reflexivity.
  - reflexivity.
  - exact unique_emails_with_approved_alpha.
  - exact unique_society_ids_with_approved_alpha.
  - vm_compute. right. by left.
  - reflexivity.
  - reflexivity.
  - reflexivity.
  - vm_compute. by left.
  - reflexivity.
  - reflexivity.
  - reflexivity.
Defined.

(** ** Tokens and the gate *)

Lemma split_space_no_space t : no_space t = true -> split_space t = [t].
Proof.
  induction t as [| c t IH]; [reflexivity |].
  cbn [no_space split_space]. intros H.
  apply andb_true_iff in H. destruct H as [Hc Ht].
  apply negb_true_iff in Hc. rewrite Hc, (IH Ht). reflexivity.
Qed.

Lemma split_space_word a b :
  no_space a = true ->
  split_space (a ++ " " ++ b)%string = a :: split_space b.
Proof.
  induction a as [| c a IH]; [reflexivity |].
  cbn [no_space]. intros H.
  apply andb_true_iff in H. destruct H as [Hc Ha].
  apply negb_true_iff in Hc.
  change (String c a ++ " " ++ b)%string with (String c (a ++ " " ++ b))%string.
  cbn [split_space]. rewrite Hc, (IH Ha). reflexivity.
Qed.

Lemma bearer_token_with_scheme scheme token :
  no_space scheme = true -> no_space token = true ->
  bearer_token (with_scheme scheme token) = Some token.
Proof.
  intros Hs Ht. unfold bearer_token, with_scheme.
  rewrite (split_space_word _ _ Hs), (split_space_no_space _ Ht). reflexivity.
Qed.

Lemma bearer_token_bearer token :
  no_space token = true -> bearer_token (bearer token) = Some token.
Proof. exact (bearer_token_with_scheme "Bearer" token eq_refl). Qed.

Lemma truthy_Some t : t <> "" -> truthy (Some t) = true.
Proof. intros H. cbn. by apply negb_true_iff, String.eqb_neq. Qed.

(** What [getPendingSocieties] answers, check by check. *)
Lemma getPendingSocieties_run E req w :
  getPendingSocieties E req w
  = if negb (truthy (bearer_token (pending_authorization req)))
    then (unauthorized, w)
    else match jwt_verify E (str (bearer_token (pending_authorization req))) with
         | None => (pending_failed, w)
         | Some decoded =>
             if negb (String.eqb (c_role decoded) "developer")
             then (forbidden, w)
             else if fault E (clock w) SELECT_pending_societies
             then (pending_failed, tick w)
             else (pending_listed (pending_societies (visible E w)), tick w)
         end.
Proof.
  unfold getPendingSocieties, handle, bind.
  destruct (negb (truthy _)); [reflexivity |].
  destruct (jwt_verify E _) as [decoded |]; [| reflexivity].
  destruct (negb (String.eqb _ _)); [reflexivity |].
  destruct (fault E (clock w) SELECT_pending_societies) eqn:Hf.
  - by rewrite query_fault.
  - by rewrite query_rows.
Qed.

(** X5: the gate of both developer endpoints reads the token from the
    second word of the Authorization header and never looks at the first:
    with any space-free word in place of Bearer the request is handled
    exactly as with Bearer. *)
Theorem scheme_is_not_checked E scheme token w :
  no_space scheme = true ->
  no_space token = true ->
  getPendingSocieties E {| pending_authorization := with_scheme scheme token |} w
  = getPendingSocieties E {| pending_authorization := bearer token |} w
  /\ forall id status reason ip agent,
       updateSocietyApproval E
         {| societyId := id; approval_status := status;
            approval_reason := reason;
            approval_authorization := with_scheme scheme token;
            approval_ip := ip; approval_user_agent := agent |} w
       = updateSocietyApproval E
           {| societyId := id; approval_status := status;
              approval_reason := reason;
              approval_authorization := bearer token;
              approval_ip := ip; approval_user_agent := agent |} w.
Proof.
  intros Hs Ht. split.
  - rewrite !getPendingSocieties_run. cbn [pending_authorization].
    by rewrite (bearer_token_with_scheme _ _ Hs Ht), (bearer_token_bearer _ Ht).
  - intros id status reason ip agent.
    unfold updateSocietyApproval. cbn [approval_authorization].
    by rewrite (bearer_token_with_scheme _ _ Hs Ht), (bearer_token_bearer _ Ht).
Qed.

Lemma scheme_is_not_checked_witness :
  getPendingSocieties calm
    {| pending_authorization := with_scheme "Basic" "t:developer" |} with_alpha
  = getPendingSocieties calm
      {| pending_authorization := bearer "t:developer" |} with_alpha
  /\ forall id status reason ip agent,
       updateSocietyApproval calm
         {| societyId := id; approval_status := status;
            approval_reason := reason;
            approval_authorization := with_scheme "Basic" "t:developer";
            approval_ip := ip; approval_user_agent := agent |} with_alpha
       = updateSocietyApproval calm
           {| societyId := id; approval_status := status;
              approval_reason := reason;
              approval_authorization := bearer "t:developer";
              approval_ip := ip; approval_user_agent := agent |} with_alpha.
Proof.
  exact (scheme_is_not_checked calm "Basic" "t:developer" with_alpha
           eq_refl eq_refl).
Defined.

(** X6: a token that [jwt.verify] rejects is answered 500 by both developer
    endpoints, not 401 or 403, and no statement is sent.  On the approval
    endpoint this is for a request whose body carries a valid status: the
    status is checked first, and an invalid one is answered 400. *)
Theorem rejected_token_is_500 E w :
  (forall req,
     token_rejected E (pending_authorization req) ->
     getPendingSocieties E req w = (pending_failed, w))
  /\ (forall req st,
        decision (approval_status req) = Some st ->
        token_rejected E (approval_authorization req) ->
        updateSocietyApproval E req w = (approval_failed, w)).
Proof.
  split.
  - intros req [Ht Hv]. by rewrite getPendingSocieties_run, Ht, Hv.
  - intros req st Hd [Ht Hv]. unfold updateSocietyApproval, handle.
    by rewrite Hd, Ht, Hv.
Qed.

Lemma issued_token_respond code e m :
  issued_token (respond code (ErrorBody e m)) = None.
Proof. reflexivity. Qed.

Lemma gate_open E authorization token decoded :
  no_space token = true -> token <> "" ->
  authorization = bearer token ->
  jwt_verify E token = Some decoded ->
  token_decodes E authorization decoded.
Proof.
  intros Hn Ht -> Hv. unfold token_decodes.
  rewrite (bearer_token_bearer _ Hn). split; [by apply truthy_Some | exact Hv].
Qed.

(** X7: the token a successful developer login issues, sent back as
    [Bearer <token>], passes the gate of both developer endpoints: the
    pending list is read and the approval update of a request whose body
    carries a valid status is sent, and only a failing statement keeps the
    answer from being 200. *)
Theorem developer_token_passes_gate E login w token :
  verifies_own_tokens E ->
  issued_token (fst (developerLogin E login w)) = Some token ->
  no_space token = true ->
  token <> "" ->
  forall w',
    getPendingSocieties E {| pending_authorization := bearer token |} w'
    = (if fault E (clock w') SELECT_pending_societies
       then (pending_failed, tick w')
       else (pending_listed (pending_societies (visible E w')), tick w'))
    /\ forall req st,
         approval_authorization req = bearer token ->
         decision (approval_status req) = Some st ->
         fst (updateSocietyApproval E req w')
         = if fault E (clock w') UPDATE_societies_status
           then approval_failed
           else approval_done st (societyId req).
Proof.
  intros Hjwt Htok Hn Hne w'.
  destruct (developerLogin_outcome E login w)
    as [(u & (_ & _ & Hrole & _) & _ & _ & Hr) | (code & e & m & _ & Hr)];
    rewrite Hr in Htok; [| discriminate Htok].
  injection Htok as <-.
  destruct (Hjwt (developer_claims u)) as (decoded & Hv & Hd).
  assert (Hdev : c_role decoded = "developer").
  { rewrite Hd. cbn. by rewrite Hrole. }
  split.
  - rewrite getPendingSocieties_run. cbn [pending_authorization].
    rewrite (bearer_token_bearer _ Hn), (truthy_Some _ Hne).
    change (str (Some (jwt_sign E (developer_claims u))))
      with (jwt_sign E (developer_claims u)).
    cbn [negb]. by rewrite Hv, Hdev.
  - intros req st Hauth Hdec.
    rewrite (updateSocietyApproval_run E req st decoded w' Hdec
               (gate_open E _ _ decoded Hn Hne Hauth Hv) Hdev).
    by destruct (fault E (clock w') UPDATE_societies_status).
Qed.

Lemma verifies_own_tokens_signing : verifies_own_tokens signing.
Proof.
  intros c.
  exists {| c_userId := "dev"; c_email := "admin@coopbase.com";
            c_role := c_role c; c_societyId := None |}.
  split; reflexivity.
Qed.

Lemma developer_token_passes_gate_witness :
  getPendingSocieties signing
    {| pending_authorization := bearer "t:developer" |} with_alpha
  = (pending_listed (pending_societies (visible signing with_alpha)),
     tick with_alpha)
  /\ forall req st,
       approval_authorization req = bearer "t:developer" ->
       decision (approval_status req) = Some st ->
       fst (updateSocietyApproval signing req with_alpha)
       = approval_done st (societyId req).
Proof.
  exact (developer_token_passes_gate signing
           (login_as (Some "admin@coopbase.com") (Some "admin123")) fresh
           "t:developer" verifies_own_tokens_signing eq_refl eq_refl
           ltac:(discriminate) with_alpha).
Defined.

(** X8: the token a successful society login issues is refused by both
    developer endpoints with 403, and no statement is sent.  On the
    approval endpoint this is for a request whose body carries a valid
    status: an invalid one is answered 400 before the token is looked
    at. *)
Theorem society_token_is_refused E login w token :
  verifies_own_tokens E ->
  issued_token (fst (societyLogin E login w)) = Some token ->
  no_space token = true ->
  token <> "" ->
  forall w',
    getPendingSocieties E {| pending_authorization := bearer token |} w'
    = (forbidden, w')
    /\ forall req st,
         approval_authorization req = bearer token ->
         decision (approval_status req) = Some st ->
         updateSocietyApproval E req w' = (forbidden, w').
Proof.
  intros Hjwt Htok Hn Hne w'.
  destruct (societyLogin_outcome E login w)
    as [(u & s & ((_ & _ & Hrole & _) & _) & _ & _ & Hr)
       | (code & e & m & _ & Hr)];
    rewrite Hr in Htok; [| discriminate Htok].
  injection Htok as <-.
  destruct (Hjwt (society_claims u s)) as (decoded & Hv & Hd).
  assert (Hdev : c_role decoded <> "developer").
  { rewrite Hd. cbn. by rewrite Hrole. }
  split.
  - apply (getPendingSocieties_wrong_role E _ decoded); [| exact Hdev].
    by apply (gate_open E _ _ decoded Hn Hne).
  - intros req st Hauth Hdec.
    apply (updateSocietyApproval_wrong_role E req st decoded);
      [exact Hdec | | exact Hdev].
    by apply (gate_open E _ _ decoded Hn Hne).
Qed.

Lemma society_token_is_refused_witness :
  getPendingSocieties signing
    {| pending_authorization := bearer "t:society_admin" |} with_alpha
  = (forbidden, with_alpha)
  /\ forall req st,
       approval_authorization req = bearer "t:society_admin" ->
       decision (approval_status req) = Some st ->
       updateSocietyApproval signing req with_alpha = (forbidden, with_alpha).
Proof.
  exact (society_token_is_refused signing
           (login_as (Some "a@alpha.coop") (Some "secret")) with_approved_alpha
           "t:society_admin" verifies_own_tokens_signing eq_refl eq_refl
           ltac:(discriminate) with_alpha).
Defined.

Lemma rejected_token_is_500_witness :
  getPendingSocieties calm
    {| pending_authorization := Some "Bearer expired" |} with_alpha
  = (pending_failed, with_alpha)
  /\ updateSocietyApproval calm
       (approve_as (Some "Bearer expired") (Some "approved") "alpha") with_alpha
     = (approval_failed, with_alpha).
Proof.
  destruct (rejected_token_is_500 calm with_alpha) as [H1 H2]. split.
  - apply H1. split; reflexivity.
  - apply (H2 _ status_approved); [reflexivity | split; reflexivity].
Defined.

(** ** What the flows do to the store *)

Lemma same_but_status_refl s : same_but_status s s.
Proof. by destruct s. Qed.

Lemma same_but_status_trans s1 s2 s3 :
  same_but_status s1 s2 -> same_but_status s2 s3 -> same_but_status s1 s3.
Proof.
  unfold same_but_status, set_status. destruct s1, s2, s3. cbn.
  intros [= -> -> -> -> -> ->] [= -> -> -> -> -> ->]. reflexivity.
Qed.

Lemma same_but_status_set st s : same_but_status s (set_status st s).
Proof. by destruct s. Qed.

Lemma Forall2_same_but_status_refl l : Forall2 same_but_status l l.
Proof. induction l; constructor; [apply same_but_status_refl | done]. Qed.

Lemma Forall2_same_but_status_update st id l :
  Forall2 same_but_status l (update_status st id l).
Proof.
  induction l as [| s l IH]; [constructor |]. cbn. constructor; [| exact IH].
  destruct (String.eqb (s_id s) id);
    [apply same_but_status_set | apply same_but_status_refl].
Qed.

Lemma grows_refl T : grows T T.
Proof.
  split; try reflexivity.
  exists (societies T). split; [reflexivity | apply Forall2_same_but_status_refl].
Qed.

Lemma grows_trans T1 T2 T3 : grows T1 T2 -> grows T2 T3 -> grows T1 T3.
Proof.
  intros [(k1 & [m1 Hk1] & H1) Hu1 Hd1 Ha1] [(k2 & Hk2 & H2) Hu2 Hd2 Ha2].
  split; try (etrans; eassumption).
  rewrite Hk1 in H2. apply Forall2_app_inv_l in H2.
  destruct H2 as (k2a & k2b & H2a & H2b & ->).
  exists k2a. split.
  - etrans; [| exact Hk2]. by exists k2b.
  - clear - H1 H2a. revert k2a H2a.
    induction H1 as [| s1 s2 l1 l2 Hs H1 IH]; intros k2a H2a.
    + inversion H2a. constructor.
    + inversion H2a as [| ? s3 ? l3 Hs' H2' ]; subst. constructor.
      * by apply (same_but_status_trans _ s2).
      * by apply IH.
Qed.

Lemma grows_apply_write op T : grows T (apply_write op T).
Proof.
  destruct op; split; cbn; try reflexivity; try (by eexists);
    try (exists (societies T); split;
         [(reflexivity || by eexists) | apply Forall2_same_but_status_refl]).
  exists (update_status st id (societies T)). split; [reflexivity |].
  apply Forall2_same_but_status_update.
Qed.

Lemma grows_apply_writes ops T : grows T (apply_writes ops T).
Proof.
  revert T. induction ops as [| op ops IH]; intros T; [apply grows_refl |].
  cbn. eapply grows_trans; [apply grows_apply_write | apply IH].
Qed.

Section Keeps.

Context (E : Env).

Lemma never_shrinks_refl w : never_shrinks w w.
Proof. apply grows_refl. Qed.

Lemma never_shrinks_trans w1 w2 w3 :
  never_shrinks w1 w2 -> never_shrinks w2 w3 -> never_shrinks w1 w3.
Proof. apply grows_trans. Qed.

Lemma never_shrinks_perform op c w : never_shrinks w (perform op c w).
Proof.
  unfold never_shrinks, perform. destruct (txns w !! c); cbn;
    [apply grows_refl | apply grows_apply_write].
Qed.

Lemma keeps_ret {A} (a : A) : keeps never_shrinks (ret a).
Proof. intros w. apply never_shrinks_refl. Qed.

Lemma keeps_throw {A} e : keeps never_shrinks (@throw A e).
Proof. intros w. apply never_shrinks_refl. Qed.

Lemma keeps_bind {A B} (m : M A) (k : A -> M B) :
  keeps never_shrinks m -> (forall a, keeps never_shrinks (k a)) ->
  keeps never_shrinks (bind m k).
Proof.
  intros Hm Hk w. unfold bind. specialize (Hm w).
  destruct (m w) as [[a | e] w1]; [| exact Hm].
  eapply never_shrinks_trans; [exact Hm | apply Hk].
Qed.

Lemma keeps_try_catch {A} (m : M A) h :
  keeps never_shrinks m -> (forall e, keeps never_shrinks (h e)) ->
  keeps never_shrinks (try_catch m h).
Proof.
  intros Hm Hh w. unfold try_catch. specialize (Hm w).
  destruct (m w) as [[a | e] w1]; [exact Hm |].
  eapply never_shrinks_trans; [exact Hm | apply Hh].
Qed.

Lemma keeps_uuidv4 : keeps never_shrinks (uuidv4 E).
Proof. intros w. apply grows_refl. Qed.

Lemma keeps_rows {A} q (f : Tables -> A) :
  keeps never_shrinks (query E q (rows_of f)).
Proof.
  intros w. unfold query, rows_of. destruct (fault E (clock w) q);
    apply grows_refl.
Qed.

Lemma keeps_write q op : keeps never_shrinks (query E q (row_write op)).
Proof.
  intros w. unfold query, row_write. destruct (fault E (clock w) q);
    [apply grows_refl |].
  destruct (admissible op _); [| apply grows_refl].
  apply (never_shrinks_perform op _ (tick w)).
Qed.

Lemma keeps_control q f :
  (forall c w, never_shrinks w (f c w)) ->
  keeps never_shrinks (query E q (control f)).
Proof.
  intros Hf w. unfold query, control. destruct (fault E (clock w) q);
    [apply grows_refl |].
  apply (Hf _ (tick w)).
Qed.

Lemma never_shrinks_begin c w : never_shrinks w (begin_on c w).
Proof. apply grows_apply_writes. Qed.

Lemma never_shrinks_commit c w : never_shrinks w (commit_on c w).
Proof. apply grows_apply_writes. Qed.

Lemma never_shrinks_rollback c w : never_shrinks w (rollback_on c w).
Proof. apply grows_refl. Qed.

Lemma keeps_logAuditTrail userId societyId action tableName recordId
    oldValues newValues ipAddress userAgent :
  keeps never_shrinks
    (logAuditTrail E userId societyId action tableName recordId oldValues
       newValues ipAddress userAgent).
Proof.
  apply keeps_try_catch; [| intros e; apply keeps_ret].
  apply keeps_bind; [apply keeps_uuidv4 | intros id; apply keeps_write].
Qed.

Lemma keeps_save_document society k file :
  keeps never_shrinks (save_document E society k file).
Proof.
  apply keeps_bind; [apply keeps_uuidv4 | intros id].
  destruct file; [| apply keeps_throw].
  apply keeps_bind; [apply keeps_write | intros _; apply keeps_ret].
Qed.

Lemma keeps_save_additional society fs documents :
  keeps never_shrinks (save_additional E society fs documents).
Proof.
  revert documents. induction fs as [| f fs IH]; intros documents;
    [apply keeps_ret |].
  apply keeps_bind; [apply keeps_save_document | intros d; apply IH].
Qed.

Lemma keeps_handle (m : M Response) fallback w :
  keeps never_shrinks m -> never_shrinks w (snd (handle m fallback w)).
Proof.
  intros Hm. unfold handle. specialize (Hm w).
  by destruct (m w) as [[r | e] w1].
Qed.

End Keeps.

Ltac keeps_step :=
  lazymatch goal with
  | |- keeps _ (let _ := _ in _) => cbv zeta
  | |- keeps _ (bind _ _) => apply keeps_bind; [| intros ?]
  | |- keeps _ (ret _) => apply keeps_ret
  | |- keeps _ (throw _) => apply keeps_throw
  | |- keeps _ (try_catch _ _) => apply keeps_try_catch; [| intros ?]
  | |- keeps _ (uuidv4 _) => apply keeps_uuidv4
  | |- keeps _ (logAuditTrail _ _ _ _ _ _ _ _ _ _) => apply keeps_logAuditTrail
  | |- keeps _ (save_document _ _ _ _) => apply keeps_save_document
  | |- keeps _ (save_additional _ _ _ _) => apply keeps_save_additional
  | |- keeps _ (query _ _ (rows_of _)) => apply keeps_rows
  | |- keeps _ (query _ _ (row_write _)) => apply keeps_write
  | |- keeps _ (query _ _ (control begin_on)) =>
      apply keeps_control, never_shrinks_begin
  | |- keeps _ (query _ _ (control commit_on)) =>
      apply keeps_control, never_shrinks_commit
  | |- keeps _ (query _ _ (control rollback_on)) =>
      apply keeps_control, never_shrinks_rollback
  | |- keeps _ (if ?b then _ else _) => destruct b
  | |- keeps _ (match ?x with _ => _ end) => destruct x
  end.

(** X9: no flow deletes or rewrites a committed row of users,
    society_documents or audit_logs, and none deletes a society, moves it,
    or changes anything of it but its status; this holds in every
    environment and from every state of the pool.  Whatever a flow adds
    comes after the rows that were there. *)
Theorem no_flow_shrinks_the_store E w :
  (forall req, never_shrinks w (snd (developerLogin E req w)))
  /\ (forall req, never_shrinks w (snd (societyLogin E req w)))
  /\ (forall req, never_shrinks w (snd (societyRegister E req w)))
  /\ (forall req, never_shrinks w (snd (getPendingSocieties E req w)))
  /\ (forall req, never_shrinks w (snd (updateSocietyApproval E req w)))
  /\ (forall id st, never_shrinks w (snd (Society_updateStatus E id st w))).
Proof.
  split; [| split; [| split; [| split; [| split]]]].
  - intros req. apply keeps_handle. repeat keeps_step.
  - intros req. apply keeps_handle. repeat keeps_step.
  - intros req. apply keeps_handle. unfold register_unit. repeat keeps_step.
  - intros req. apply keeps_handle. repeat keeps_step.
  - intros req. apply keeps_handle. repeat keeps_step.
  - intros id st. revert w. change (keeps never_shrinks (Society_updateStatus E id st)).
    unfold Society_updateStatus. repeat keeps_step.
Qed.

Lemma reads_only_refl w : reads_only w w.
Proof. by split. Qed.

Lemma reads_only_tick w : reads_only w (tick w).
Proof. by split. Qed.

Lemma reads_only_audited E userId societyId action tableName recordId
    oldValues newValues ipAddress userAgent w :
  reads_only w
    (audited E userId societyId action tableName recordId oldValues newValues
       ipAddress userAgent (tick w)).
Proof.
  apply (logAuditTrail_business E userId societyId action tableName recordId
           oldValues newValues ipAddress userAgent (tick w)).
Qed.

(** X10: the two logins and the pending list are read-only on the business
    data: whatever the request, the environment and the state of the pool,
    the rows of societies, users and society_documents that are committed,
    and those every connection reads, are the same after as before. *)
Theorem logins_and_listing_read_only E w :
  (forall req, reads_only w (snd (developerLogin E req w)))
  /\ (forall req, reads_only w (snd (societyLogin E req w)))
  /\ (forall req, reads_only w (snd (getPendingSocieties E req w))).
Proof.
  split; [| split]; intros req.
  - rewrite developerLogin_run.
    repeat match goal with
           | |- context [if ?b then _ else _] => destruct b
           | |- context [match ?x with _ => _ end] => destruct x
           end;
      first [apply reads_only_refl | apply reads_only_tick
            | apply reads_only_audited].
  - rewrite societyLogin_run.
    repeat match goal with
           | |- context [if ?b then _ else _] => destruct b
           | |- context [match ?x with _ => _ end] => destruct x
           end;
      first [apply reads_only_refl | apply reads_only_tick
            | apply reads_only_audited].
  - rewrite getPendingSocieties_run.
    repeat match goal with
           | |- context [if ?b then _ else _] => destruct b
           | |- context [match ?x with _ => _ end] => destruct x
           end;
      first [apply reads_only_refl | apply reads_only_tick].
Qed.

(** ** The approval update, row by row *)

Lemma only_status_of_refl id l : only_status_of id l l.
Proof.
  unfold only_status_of. induction l as [| s l IH]; constructor; [| exact IH].
  destruct (String.eqb (s_id s) id); [apply same_but_status_refl | done].
Qed.

Lemma only_status_of_update st id l :
  only_status_of id l (update_status st id l).
Proof.
  unfold only_status_of. induction l as [| s l IH]; [constructor |].
  cbn. constructor; [| exact IH].
  destruct (String.eqb (s_id s) id); [apply same_but_status_set | done].
Qed.

(** The worlds an approval update can leave. *)
Lemma updateSocietyApproval_world E req w :
  snd (updateSocietyApproval E req w) = w
  \/ snd (updateSocietyApproval E req w) = tick w
  \/ exists st decoded,
       decision (approval_status req) = Some st
       /\ token_decodes E (approval_authorization req) decoded
       /\ c_role decoded = "developer"
       /\ fault E (clock w) UPDATE_societies_status = false
       /\ updateSocietyApproval E req w
          = (approval_done st (societyId req),
             audited E (Some (c_userId decoded)) (Some (societyId req))
               "SOCIETY_APPROVAL_UPDATE" "societies" (societyId req) None
               (Some [("status", JString (status_name st));
                      ("reason", reason_or_null (approval_reason req))])
               (approval_ip req) (approval_user_agent req)
               (perform (UpdateSocietyStatus st (societyId req))
                  (conn_at E (clock w)) (tick w))).
Proof.
  destruct (decision (approval_status req)) as [st |] eqn:Hd;
    [| left; by rewrite updateSocietyApproval_invalid_status].
  destruct (truthy (bearer_token (approval_authorization req))) eqn:Ht;
    [| left; by rewrite (updateSocietyApproval_no_token E req st)].
  destruct (jwt_verify E (str (bearer_token (approval_authorization req))))
    as [decoded |] eqn:Hv.
  2: { left. unfold updateSocietyApproval, handle. by rewrite Hd, Ht, Hv. }
  destruct (String.eqb (c_role decoded) "developer") eqn:Hr.
  2: { left. apply String.eqb_neq in Hr.
       by rewrite (updateSocietyApproval_wrong_role E req st decoded). }
  apply String.eqb_eq in Hr.
  rewrite (updateSocietyApproval_run E req st decoded w Hd (conj Ht Hv) Hr).
  destruct (fault E (clock w) UPDATE_societies_status) eqn:Hf;
    [right; by left |].
  right. right. exists st, decoded. done.
Qed.

Lemma committed_audited E userId societyId action tableName recordId
    oldValues newValues ipAddress userAgent w :
  let w' := audited E userId societyId action tableName recordId oldValues
              newValues ipAddress userAgent w in
  business (committed w') = business (committed w)
  /\ (audit_logs (committed w') = audit_logs (committed w)
      \/ audit_logs (committed w')
         = audit_logs (committed w)
           ++ [audit_log_row (uuid E (uuids w)) userId societyId action
                 tableName recordId oldValues newValues ipAddress userAgent]).
Proof.
  cbv zeta. unfold audited. rewrite logAuditTrail_run. unfold snd.
  destruct (fault E (clock w) INSERT_INTO_audit_logs); [by split; [| left] |].
  match goal with
  | |- context [admissible ?op ?T] => destruct (admissible op T)
  end; [| by split; [| left]].
  unfold perform.
  destruct (txns (tick (next_uuid w)) !! conn_at E (clock w));
    (split; [reflexivity |]); [left | right]; reflexivity.
Qed.

(** X11: an approval update, whatever the request, the environment and the
    state of the pool, changes no committed row of users or
    society_documents, adds, removes and moves no society, and changes
    nothing of a society but the status, and that only of rows with the id
    of the request; it appends at most one audit entry. *)
Theorem updateSocietyApproval_frame E req w :
  let w' := snd (updateSocietyApproval E req w) in
  only_status_of (societyId req) (societies (committed w))
    (societies (committed w'))
  /\ users (committed w') = users (committed w)
  /\ society_documents (committed w') = society_documents (committed w)
  /\ (audit_logs (committed w') = audit_logs (committed w)
      \/ exists a,
           audit_logs (committed w') = audit_logs (committed w) ++ [a]
           /\ a_action a = "SOCIETY_APPROVAL_UPDATE"
           /\ a_record_id a = societyId req).
Proof.
  cbv zeta.
  destruct (updateSocietyApproval_world E req w)
    as [-> | [-> | (st & decoded & _ & _ & _ & _ & ->)]].
  - split; [apply only_status_of_refl | by split; [| split; [| left]]].
  - split; [apply only_status_of_refl | by split; [| split; [| left]]].
  - unfold snd.
    match goal with
    | |- context [audited E ?u ?s ?a ?t ?r ?o ?n ?i ?g ?W] =>
        destruct (committed_audited E u s a t r o n i g W) as [Hb Ha];
        set (w1 := W) in *
    end.
    unfold business in Hb. injection Hb as Hs Hu Hd.
    rewrite Hs, Hu, Hd.
    assert (Hw1 : committed w1 = committed w
                  \/ committed w1
                     = apply_write (UpdateSocietyStatus st (societyId req))
                         (committed w)).
    { subst w1. unfold perform.
      destruct (txns (tick w) !! conn_at E (clock w)); [by left | by right]. }
    destruct Hw1 as [Hw1 | Hw1]; rewrite Hw1 in *; cbn [apply_write societies
      users society_documents audit_logs] in *.
    + split; [apply only_status_of_refl |]. split; [done |]. split; [done |].
      destruct Ha as [Ha | Ha]; [by left | right].
      eexists. split; [exact Ha | done].
    + split; [apply only_status_of_update |]. split; [done |]. split; [done |].
      destruct Ha as [Ha | Ha]; [by left | right].
      eexists. split; [exact Ha | done].
Qed.

Lemma update_status_overwrite st1 st2 id l :
  update_status st2 id (update_status st1 id l) = update_status st2 id l.
Proof.
  unfold update_status. rewrite map_map. apply map_ext. intros r.
  destruct (String.eqb (s_id r) id) eqn:Hr; simpl; rewrite Hr; reflexivity.
Qed.

(** X12: decisions are not guarded by the current status: in a world
    without open transactions that holds exactly one society with the given
    id, an approval update with any decision followed by one with any other
    decision, both by authenticated developers whose statements are
    answered, are both answered 200, and the society ends with the status
    of the second decision, whatever the first was. *)
Theorem last_decision_stands E w first second st1 st2 d1 d2 s0 :
  quiescent w ->
  societyId second = societyId first ->
  decision (approval_status first) = Some st1 ->
  decision (approval_status second) = Some st2 ->
  token_decodes E (approval_authorization first) d1 ->
  c_role d1 = "developer" ->
  token_decodes E (approval_authorization second) d2 ->
  c_role d2 = "developer" ->
  answered E (clock w) 4 ->
  rows_with_id (societyId first) (societies (committed w)) = [s0] ->
  In (c_userId d1) (map u_id (users (committed w))) ->
  In (c_userId d2) (map u_id (users (committed w))) ->
  ~ In (uuid E (uuids w)) (map a_id (audit_logs (committed w))) ->
  ~ In (uuid E (S (uuids w))) (map a_id (audit_logs (committed w))) ->
  uuid E (S (uuids w)) <> uuid E (uuids w) ->
  let once := updateSocietyApproval E first w in
  let twice := updateSocietyApproval E second (snd once) in
  fst once = approval_done st1 (societyId first)
  /\ rows_with_id (societyId first) (societies (committed (snd once)))
     = [set_status st1 s0]
  /\ fst twice = approval_done st2 (societyId first)
  /\ rows_with_id (societyId first) (societies (committed (snd twice)))
     = [set_status st2 s0]
  /\ societies (committed (snd twice))
     = update_status st2 (societyId first) (societies (committed w)).
Proof.
  intros Hq Hsame Hd1 Hd2 Ht1 Hr1 Ht2 Hr2 Hans Hrow Hu1 Hu2 Hid1 Hid2 Hne.
  assert (Hs : In (societyId first) (map s_id (societies (committed w)))).
  { assert (Hin : In s0 (rows_with_id (societyId first)
                           (societies (committed w))))
      by (rewrite Hrow; left; reflexivity).
    apply filter_In in Hin. destruct Hin as (Hin & Heq).
    apply String.eqb_eq in Heq. rewrite <- Heq. by apply in_map. }
  assert (Hf : forall k q, k < 4 -> fault E (k + clock w) q = false).
  { intros k q Hk. rewrite Nat.add_comm. by apply Hans. }
  intros once twice. subst twice once.
  rewrite (updateSocietyApproval_quiescent E first st1 d1 w);
    try assumption; [| apply (Hf 0); lia | apply (Hf 1); lia].
  cbn [fst snd].
  match goal with
  | |- context [updateSocietyApproval E second ?W] => set (w1 := W)
  end.
  assert (Htwice := updateSocietyApproval_quiescent E second st2
                      d2 w1 Hd2 Ht2 Hr2 Hq (Hf 2 _ ltac:(lia))
                      (Hf 3 _ ltac:(lia))).
  rewrite Htwice; clear Htwice; subst w1;
    cbn [fst snd committed societies users audit_logs clock uuids txns].
  - rewrite Hsame, update_status_overwrite, !rows_with_id_update_status, Hrow.
    repeat split.
  - rewrite Hsame, update_status_ids. exact Hs.
  - exact Hu2.
  - rewrite map_app, in_app_iff. intros [H | [H | []]].
    + by apply Hid2.
    + apply Hne. symmetry. exact H.
Qed.

Lemma last_decision_stands_witness :
  let once :=
    updateSocietyApproval calm
      (approve_as (Some "Bearer t:developer") (Some "rejected") "alpha")
      with_alpha in
  let twice :=
    updateSocietyApproval calm
      (approve_as (Some "Bearer t:developer") (Some "approved") "alpha")
      (snd once) in
  fst once = approval_done status_rejected "alpha"
  /\ rows_with_id "alpha" (societies (committed (snd once)))
     = [set_status status_rejected alpha]
  /\ fst twice = approval_done status_approved "alpha"
  /\ rows_with_id "alpha" (societies (committed (snd twice)))
     = [set_status status_approved alpha]
  /\ societies (committed (snd twice))
     = update_status status_approved "alpha" (societies (committed with_alpha)).
Proof.
  apply (last_decision_stands calm with_alpha
           (approve_as (Some "Bearer t:developer") (Some "rejected") "alpha")
           (approve_as (Some "Bearer t:developer") (Some "approved") "alpha")
           status_rejected status_approved dev_claims dev_claims alpha).
  - reflexivity.
  - reflexivity.
  - reflexivity.
  - reflexivity.
  - split; reflexivity.
  - reflexivity.
  - split; reflexivity.
  - reflexivity.
  - intros k q _. reflexivity.
  - reflexivity.
  - simpl. tauto.
  - simpl. tauto.
  - intros [].
  - intros [].
  - discriminate.
Defined.

(** ** Registering on one connection *)

Lemma societies_by_registration_number_none number T :
  ~ In number (map s_registration_number (societies T)) ->
  societies_by_registration_number number T = [].
Proof.
  unfold societies_by_registration_number.
  induction (societies T) as [| s l IH]; [reflexivity |]. cbn. intros H.
  destruct (String.eqb (s_registration_number s) number) eqn:Hs.
  - apply String.eqb_eq in Hs. destruct H. by left.
  - apply IH. intros Hin. apply H. by right.
Qed.

Lemma users_by_email_none email T :
  ~ In email (map u_email (users T)) -> users_by_email email T = [].
Proof.
  unfold users_by_email.
  induction (users T) as [| u l IH]; [reflexivity |]. cbn. intros H.
  destruct (String.eqb (u_email u) email) eqn:Hu.
  - apply String.eqb_eq in Hu. destruct H. by left.
  - apply IH. intros Hin. apply H. by right.
Qed.

Lemma users_by_email_found email T :
  In email (map u_email (users T)) ->
  Nat.ltb 0 (length (users_by_email email T)) = true.
Proof.
  unfold users_by_email. rewrite length_map.
  induction (users T) as [| u l IH]; simpl; [tauto |].
  intros [Hu | Hl].
  - rewrite Hu, String.eqb_refl. reflexivity.
  - destruct (String.eqb (u_email u) email); [reflexivity | by apply IH].
Qed.

Lemma emails_apply_write op T x :
  In x (map u_email (users T)) ->
  In x (map u_email (users (apply_write op T))).
Proof.
  destruct op; simpl; try done.
  rewrite map_app, in_app_iff. by left.
Qed.

Lemma emails_apply_writes ops T x :
  In x (map u_email (users T)) ->
  In x (map u_email (users (apply_writes ops T))).
Proof.
  revert T. induction ops as [| op ops IH]; intros T H; [exact H |].
  simpl. apply IH. by apply emails_apply_write.
Qed.

(** What [societyRegister] answers before it opens the transaction, check
    by check; past the checks, the unit runs in the world START TRANSACTION
    left. *)
Lemma societyRegister_run E req w :
  societyRegister E req w
  = if fields_missing req then (missing_fields, w)
    else if fault E (clock w) SELECT_society_by_registration_number
    then (registration_failed, tick w)
    else if Nat.ltb 0
              (length (societies_by_registration_number
                         (str (registrationNumber req)) (visible E w)))
    then (number_taken, tick w)
    else if fault E (S (clock w)) SELECT_user_by_email
    then (registration_failed, tick (tick w))
    else if Nat.ltb 0
              (length (users_by_email (str (adminEmail req))
                         (visible E (tick w))))
    then (email_taken, tick (tick w))
    else if files_missing (files req)
    then (missing_documents, tick (tick w))
    else if fault E (S (S (clock w))) START_TRANSACTION
    then (registration_failed, tick (tick (tick w)))
    else handle
           (try_catch (register_unit E req (files req))
              (fun error =>
                 let! _ := query E ROLLBACK (control rollback_on) in
                 throw error))
           registration_failed (begun E w).
Proof.
  unfold societyRegister, handle, bind.
  destruct (fields_missing req); [reflexivity |].
  destruct (fault E (clock w) SELECT_society_by_registration_number) eqn:Hf1.
  { by rewrite query_fault. }
  rewrite query_rows by exact Hf1.
  destruct (Nat.ltb 0 _); [reflexivity |].
  destruct (fault E (S (clock w)) SELECT_user_by_email) eqn:Hf2.
  { by rewrite query_fault. }
  rewrite query_rows by exact Hf2.
  destruct (Nat.ltb 0 _); [reflexivity |].
  destruct (files_missing (files req)); [reflexivity |].
  destruct (fault E (S (S (clock w))) START_TRANSACTION) eqn:Hf3.
  { by rewrite query_fault. }
  rewrite query_control by exact Hf3. reflexivity.
Qed.

(** X14: a registration attempt with all nine text fields filled in, whose
    registration number is not taken but whose administrator email is that
    of a user in the users table, is answered 409 "Email already exists",
    whatever files came with it; the committed tables, the open
    transactions and the journal of accepted writes are what they were. *)
Theorem duplicate_email_is_409 E w req u :
  fields_missing req = false ->
  answered E (clock w) 2 ->
  ~ In (str (registrationNumber req))
      (map s_registration_number (societies (visible E w))) ->
  In u (users (committed w)) ->
  u_email u = str (adminEmail req) ->
  fst (societyRegister E req w) = email_taken
  /\ committed (snd (societyRegister E req w)) = committed w
  /\ txns (snd (societyRegister E req w)) = txns w
  /\ journal (snd (societyRegister E req w)) = journal w.
Proof.
  intros Hfields Hans Hnum Hu Hemail.
  assert (Hrun : societyRegister E req w = (email_taken, tick (tick w))).
  { rewrite societyRegister_run, Hfields.
    rewrite <- (Nat.add_0_r (clock w)), (Hans 0) by lia.
    rewrite Nat.add_0_r.
    rewrite (societies_by_registration_number_none _ _ Hnum).
    change (Nat.ltb 0 (@length string [])) with false. cbv iota.
    rewrite <- (Nat.add_1_r (clock w)), (Hans 1) by lia.
    rewrite users_by_email_found; [reflexivity |].
    unfold visible, view. apply emails_apply_writes.
    rewrite <- Hemail. by apply in_map. }
  rewrite Hrun. done.
Qed.

Lemma duplicate_email_is_409_witness :
  fst (societyRegister calm
         {| societyName := Some "Beta Co-op"; registrationNumber := Some "RC-002";
            societyType := Some "credit"; establishmentDate := Some "2021-01-01";
            societyAddress := Some "2 Main St"; adminName := Some "Bea";
            adminEmail := Some "a@alpha.coop"; adminPhone := Some "556";
            password := Some "hidden"; files := None;
            register_ip := "10.0.0.1"; register_user_agent := "curl" |}
         with_alpha)
  = email_taken.
Proof.
  apply (duplicate_email_is_409 calm with_alpha _ alpha_admin).
  - reflexivity.
  - intros k q _. reflexivity.
  - vm_compute. intros [H | []]. discriminate H.
  - vm_compute. right. by left.
  - reflexivity.
Defined.

(** *** Step by step inside the unit *)

Lemma in_unit_begun E c w :
  pinned E c (clock w) -> txns w !! c = None ->
  in_unit c w [] 3 0 (begun E w).
Proof.
  intros Hpin Hidle. destruct (begun_idle E c w Hpin Hidle) as [Hc Ht].
  split; [exact Hc | exact Ht | | |].
  - rewrite begun_clock. lia.
  - cbn. lia.
  - rewrite begun_journal. by rewrite app_nil_r.
Qed.

Lemma in_unit_uuidv4 E c w ops k n wk :
  in_unit c w ops k n wk ->
  uuidv4 E wk = (Ok (uuid E (uuids w + n)), next_uuid wk)
  /\ in_unit c w ops k (S n) (next_uuid wk).
Proof.
  intros [Hc Ht Hk Hn Hj]. split.
  - unfold uuidv4. by rewrite Hn.
  - split; cbn [committed txns clock uuids journal next_uuid]; try done. lia.
Qed.

Lemma in_unit_visible E c w ops k n wk :
  pinned E c (clock w) ->
  in_unit c w ops k n wk ->
  conn_at E (clock wk) = c /\ visible E wk = apply_writes ops (committed w).
Proof.
  intros Hpin [Hc Ht Hk Hn Hj].
  assert (Hconn : conn_at E (clock wk) = c) by (apply Hpin; lia).
  split; [exact Hconn |].
  unfold visible, view, staged. by rewrite Hconn, Ht, lookup_insert_eq, Hc.
Qed.

Lemma in_unit_write E c w ops k n wk q op :
  pinned E c (clock w) ->
  in_unit c w ops k n wk ->
  fault E (clock w + k) q = false ->
  admissible op (apply_writes ops (committed w)) = true ->
  exists wk',
    query E q (row_write op) wk = (Ok tt, wk')
    /\ in_unit c w (ops ++ [op]) (S k) n wk'.
Proof.
  intros Hpin Hin Hf Ha.
  destruct (in_unit_visible E c w ops k n wk Hpin Hin) as [Hconn Hvis].
  destruct Hin as [Hc Ht Hk Hn Hj].
  exists (perform op c (tick wk)). split.
  - rewrite query_write; [by rewrite Hconn | by rewrite Hk | by rewrite Hvis].
  - unfold perform. cbn [txns tick].
    rewrite Ht, lookup_insert_eq.
    split; cbn [committed txns clock uuids journal tick]; try done.
    + by rewrite insert_insert_eq.
    + lia.
    + by rewrite Hj, app_assoc.
Qed.

Lemma stored_from_app E society i l1 l2 :
  stored_from E society i (l1 ++ l2)
  = stored_from E society i l1 ++ stored_from E society (i + length l1) l2.
Proof.
  revert i. induction l1 as [| kf l1 IH]; intros i; cbn.
  - by rewrite Nat.add_0_r.
  - rewrite IH. do 3 f_equal. lia.
Qed.

Lemma stored_from_ids E society i l x :
  In x (map d_id (stored_from E society i l)) ->
  exists j, j < length l /\ x = uuid E (i + j).
Proof.
  revert i. induction l as [| kf l IH]; intros i; cbn; [tauto |].
  intros [<- | H].
  - exists 0. split; [lia | by rewrite Nat.add_0_r].
  - destruct (IH _ H) as (j & Hj & ->). exists (S j).
    split; [lia | f_equal; lia].
Qed.

Lemma stored_from_recorded E society i l :
  map recorded (stored_from E society i l) = map (expected society) l.
Proof.
  revert i. induction l as [| kf l IH]; intros i; cbn; [done |].
  by rewrite IH.
Qed.

Lemma length_stored_from E society i l :
  length (stored_from E society i l) = length l.
Proof.
  revert i. induction l as [| kf l IH]; intros i; cbn; [done |].
  by rewrite IH.
Qed.

Lemma fresh_ids_split E w n i :
  fresh_ids E w n -> i < n ->
  ~ In (uuid E (uuids w + i)) (map s_id (societies (committed w)))
  /\ ~ In (uuid E (uuids w + i)) (map u_id (users (committed w)))
  /\ ~ In (uuid E (uuids w + i)) (map d_id (society_documents (committed w)))
  /\ ~ In (uuid E (uuids w + i)) (map a_id (audit_logs (committed w))).
Proof.
  intros [_ Hf] Hi. specialize (Hf i Hi). unfold ids_in_use in Hf.
  rewrite !in_app_iff in Hf. tauto.
Qed.

Lemma business_unit_ops E w req l T :
  business (apply_writes (unit_ops E w req l) T)
  = (societies T ++ [new_society E w req], users T ++ [new_admin E w req],
     society_documents T ++ new_documents E w l).
Proof. apply business_apply_unit. Qed.

Lemma audit_logs_apply_inserts ops T :
  (forall op, In op ops ->
     match op with InsertAuditLog _ => False | _ => True end) ->
  audit_logs (apply_writes ops T) = audit_logs T.
Proof.
  revert T. induction ops as [| op ops IH]; intros T H; [done |].
  cbn. rewrite IH by (intros op' Hin; apply H; by right).
  specialize (H op (or_introl eq_refl)). by destruct op.
Qed.

Lemma audit_logs_unit_ops E w req l T :
  audit_logs (apply_writes (unit_ops E w req l) T) = audit_logs T.
Proof.
  apply audit_logs_apply_inserts. intros op [<- | [<- | Hin]]; [done | done |].
  apply in_map_iff in Hin. by destruct Hin as (r & <- & _).
Qed.

(** One more file stored. *)
Lemma in_unit_save_document E c w req done kind f k wk :
  pinned E c (clock w) ->
  in_unit c w (unit_ops E w req done) k (2 + length done) wk ->
  fault E (clock w + k) INSERT_INTO_society_documents = false ->
  fresh_ids E w (3 + length done) ->
  exists wk',
    save_document E (uuid E (uuids w)) kind (Some f) wk
    = (Ok (document_entry kind f), wk')
    /\ in_unit c w (unit_ops E w req (done ++ [(kind, f)])) (S k)
         (2 + length (done ++ [(kind, f)])) wk'.
Proof.
  intros Hpin Hin Hf Hfresh.
  destruct (in_unit_uuidv4 E c w _ _ _ _ Hin) as [Hid Hin1].
  set (row := document_row (uuid E (uuids w + (2 + length done)))
                (uuid E (uuids w)) kind f).
  destruct (in_unit_write E c w _ k _ _ INSERT_INTO_society_documents
              (InsertDocument row) Hpin Hin1 Hf) as (wk' & Hrun & Hin2).
  { assert (Hb := business_unit_ops E w req done (committed w)).
    assert (Hs := f_equal (fun b => fst (fst b)) Hb).
    assert (Hd := f_equal snd Hb). cbn [business fst snd] in Hs, Hd.
    cbn [admissible]. rewrite Hs, Hd. apply andb_true_iff. split.
    - apply negb_true_iff, has_string_not_In. subst row. cbn [d_id document_row].
      rewrite map_app, in_app_iff. intros [H | H].
      + destruct (fresh_ids_split E w _ (2 + length done) Hfresh ltac:(lia))
          as (_ & _ & Hx & _).
        by apply Hx.
      + unfold new_documents in H. apply stored_from_ids in H. destruct H as (j & Hj & H).
        replace (uuids w + 2 + j) with (uuids w + (2 + j)) in H by lia.
        apply Hfresh in H; lia.
    - apply has_string_In. rewrite map_app, in_app_iff. right. by left. }
  exists wk'. split.
  - unfold save_document, bind. rewrite Hid. fold row. by rewrite Hrun.
  - rewrite length_app. cbn [length].
    replace (2 + (length done + 1)) with (S (2 + length done)) by lia.
    unfold unit_ops, new_documents in *. rewrite stored_from_app, map_app.
    cbn [stored_from map fst snd].
    replace (uuids w + 2 + length done) with (uuids w + (2 + length done))
      by lia.
    by rewrite app_assoc.
Qed.

Lemma in_unit_save_additional E c w req extra :
  forall done documents k wk,
    pinned E c (clock w) ->
    in_unit c w (unit_ops E w req done) k (2 + length done) wk ->
    (forall i, i < length extra ->
       fault E (clock w + k + i) INSERT_INTO_society_documents = false) ->
    fresh_ids E w (2 + length done + length extra) ->
    exists wk',
      save_additional E (uuid E (uuids w)) extra documents wk
      = (Ok (documents ++ manifest (map (pair doc_additional) extra)), wk')
      /\ in_unit c w
           (unit_ops E w req (done ++ map (pair doc_additional) extra))
           (k + length extra)
           (2 + length (done ++ map (pair doc_additional) extra)) wk'.
Proof.
  induction extra as [| f extra IH]; intros done documents k wk Hpin Hin Hf Hfresh.
  - exists wk. cbn [save_additional map manifest length].
    rewrite !app_nil_r, Nat.add_0_r. by split.
  - cbn [length] in Hf, Hfresh.
    destruct (in_unit_save_document E c w req done doc_additional f k wk Hpin Hin)
      as (wk1 & Hrun1 & Hin1).
    { rewrite <- (Nat.add_0_r (clock w + k)). apply Hf. lia. }
    { destruct Hfresh as [Hinj Hnew]. split.
      - intros i j Hi Hj. apply Hinj; lia.
      - intros i Hi. apply Hnew. lia. }
    destruct (IH (done ++ [(doc_additional, f)])
                (documents ++ [document_entry doc_additional f]) (S k) wk1
                Hpin Hin1) as (wk2 & Hrun2 & Hin2).
    { intros i Hi. replace (clock w + S k + i) with (clock w + k + S i) by lia.
      apply Hf. lia. }
    { rewrite length_app. cbn [length].
      replace (2 + (length done + 1) + length extra)
        with (2 + length done + S (length extra)) by lia.
      exact Hfresh. }
    exists wk2. split.
    + cbn [save_additional]. unfold bind at 1. rewrite Hrun1, Hrun2.
      cbn [map manifest]. unfold manifest. cbn [map fst snd].
      by rewrite <- app_assoc.
    + cbn [map length]. rewrite <- app_assoc in Hin2. cbn [app] in Hin2.
      replace (k + S (length extra)) with (S k + length extra) by lia.
      exact Hin2.
Qed.

Lemma apply_unit_ops E w req l T :
  apply_writes (unit_ops E w req l) T
  = {| societies := societies T ++ [new_society E w req];
       users := users T ++ [new_admin E w req];
       society_documents := society_documents T ++ new_documents E w l;
       audit_logs := audit_logs T |}.
Proof.
  assert (Hb := business_unit_ops E w req l T).
  assert (Hs := f_equal (fun b => fst (fst b)) Hb).
  assert (Hu := f_equal (fun b => snd (fst b)) Hb).
  assert (Hd := f_equal snd Hb). cbn [business fst snd] in Hs, Hu, Hd.
  rewrite <- Hs, <- Hu, <- Hd, <- (audit_logs_unit_ops E w req l T).
  symmetry. apply tables_eta.
Qed.

Lemma as_uploaded_files_missing fs certificate bylaw extra :
  as_uploaded fs certificate bylaw extra -> files_missing fs = false.
Proof. intros (f & -> & Hc & Hb & _). cbn. by rewrite Hc, Hb. Qed.

(** The unit, when the pool keeps handing out the connection the
    transaction was opened on, every statement up to COMMIT is answered,
    and the ids drawn are new. *)
Lemma register_unit_pinned E c w req certificate bylaw extra :
  as_uploaded (files req) certificate bylaw extra ->
  pinned E c (clock w) ->
  txns w !! c = None ->
  answered E (clock w) (8 + length extra) ->
  fresh_ids E w (4 + length extra) ->
  ~ In (str (registrationNumber req))
      (map s_registration_number (societies (committed w))) ->
  ~ In (str (adminEmail req)) (map u_email (users (committed w))) ->
  exists wk,
    register_unit E req (files req) (begun E w)
    = (Ok (registration_done (uuid E (uuids w))
             (accepted certificate bylaw extra)),
       committed_and_audited E req (uuid E (uuids w)) (uuid E (S (uuids w)))
         (length (accepted certificate bylaw extra)) wk)
    /\ in_unit c w (unit_ops E w req (accepted certificate bylaw extra))
         (7 + length extra) (4 + length extra) wk.
Proof.
  intros (f & Hfs & Hcert & Hbyl & Hextra) Hpin Hidle Hans Hfresh Hnum Hemail.
  assert (Hfresh' : forall n, n <= 4 + length extra -> fresh_ids E w n).
  { intros n Hn. destruct Hfresh as [Hinj Hnew]. split.
    - intros i j Hi Hj. apply Hinj; lia.
    - intros i Hi. apply Hnew. lia. }
  assert (H0 := in_unit_begun E c w Hpin Hidle).
  unfold register_unit.
  (* the society *)
  destruct (in_unit_uuidv4 E c w _ _ _ _ H0) as [Hid1 H1].
  rewrite Nat.add_0_r in Hid1.
  unfold bind at 1. rewrite Hid1.
  destruct (in_unit_write E c w _ _ _ _ INSERT_INTO_societies
              (InsertSociety (society_row (uuid E (uuids w)) req)) Hpin H1)
    as (w2 & Hrun2 & H2).
  { apply Hans. lia. }
  { cbn [admissible apply_writes fold_left s_id s_registration_number
         society_row].
    destruct (fresh_ids_split E w _ 0 Hfresh ltac:(lia)) as (Hs & _).
    rewrite Nat.add_0_r in Hs.
    apply andb_true_iff. split; by apply negb_true_iff, has_string_not_In. }
  unfold bind at 1. rewrite Hrun2.
  (* the administrator *)
  destruct (in_unit_uuidv4 E c w _ _ _ _ H2) as [Hid3 H3].
  rewrite Nat.add_1_r in Hid3.
  unfold bind at 1. rewrite Hid3.
  destruct (in_unit_write E c w _ _ _ _ INSERT_INTO_users
              (InsertUser (admin_row E (uuid E (S (uuids w)))
                             (uuid E (uuids w)) req)) Hpin H3)
    as (w4 & Hrun4 & H4).
  { apply Hans. lia. }
  { cbn [admissible apply_writes fold_left app apply_write users societies
         u_id u_email u_society_id admin_row references].
    destruct (fresh_ids_split E w _ 1 Hfresh ltac:(lia)) as (_ & Hu & _).
    rewrite Nat.add_1_r in Hu.
    rewrite !andb_true_iff. split; [split |].
    - by apply negb_true_iff, has_string_not_In.
    - by apply negb_true_iff, has_string_not_In.
    - apply has_string_In. rewrite map_app, in_app_iff. right. by left. }
  unfold bind at 1. rewrite Hrun4.
  change (([] ++ [InsertSociety (society_row (uuid E (uuids w)) req)])
          ++ [InsertUser (admin_row E (uuid E (S (uuids w)))
                            (uuid E (uuids w)) req)])
    with (unit_ops E w req []) in H4.
  (* the certificate and the bylaws *)
  rewrite Hfs. cbn [mbind option_bind]. rewrite Hcert, Hbyl. cbn [head].
  destruct (in_unit_save_document E c w req [] doc_registration_certificate
              certificate 5 w4 Hpin H4) as (w5 & Hrun5 & H5).
  { apply Hans. lia. }
  { apply Hfresh'. cbn [length]. lia. }
  unfold bind at 1. unfold bind at 1. rewrite Hrun5. cbn [ret].
  destruct (in_unit_save_document E c w req _ doc_bylaws bylaw 6 w5 Hpin H5)
    as (w6 & Hrun6 & H6).
  { apply Hans. lia. }
  { apply Hfresh'. cbn [length app]. lia. }
  unfold bind at 1. unfold bind at 1. rewrite Hrun6. cbn [ret].
  (* the additional documents *)
  destruct (in_unit_save_additional E c w req extra _
              ([document_entry doc_registration_certificate certificate]
               ++ [document_entry doc_bylaws bylaw]) 7 w6 Hpin H6)
    as (w7 & Hrun7 & H7).
  { intros i Hi. rewrite <- Nat.add_assoc. apply Hans. lia. }
  { cbn [length app]. apply Hfresh'. lia. }
  assert (Hdocs :
    (match additionalDocs f with
     | Some l =>
         save_additional E (uuid E (uuids w)) l
           ([document_entry doc_registration_certificate certificate]
            ++ [document_entry doc_bylaws bylaw])
     | None =>
         ret ([document_entry doc_registration_certificate certificate]
              ++ [document_entry doc_bylaws bylaw])
     end) w6
    = (Ok (manifest (accepted certificate bylaw extra)), w7)
    /\ in_unit c w (unit_ops E w req (accepted certificate bylaw extra))
         (7 + length extra) (4 + length extra) w7).
  { destruct (additionalDocs f) as [l |]; cbn [default] in Hextra; subst extra.
    - split; [exact Hrun7 |].
      rewrite length_app, length_map in H7. exact H7.
    - cbn [save_additional] in Hrun7. split; [exact Hrun7 | exact H7]. }
  destruct Hdocs as [Hrun8 H8].
  unfold bind at 1. rewrite Hrun8.
  (* COMMIT and the audit entry *)
  unfold bind at 1.
  rewrite query_control
    by (rewrite (iu_clock _ _ _ _ _ _ H8); apply Hans; lia).
  unfold bind at 1. rewrite logAuditTrail_audited.
  exists w7. split; [| exact H8].
  unfold registration_done, committed_and_audited, manifest.
  by rewrite !length_map.
Qed.

Lemma societyRegister_pinned E c w req certificate bylaw extra :
  fields_missing req = false ->
  as_uploaded (files req) certificate bylaw extra ->
  pinned E c (clock w) ->
  txns w !! c = None ->
  answered E (clock w) (8 + length extra) ->
  fresh_ids E w (4 + length extra) ->
  ~ In (str (registrationNumber req))
      (map s_registration_number (societies (committed w))) ->
  ~ In (str (adminEmail req)) (map u_email (users (committed w))) ->
  exists wk,
    societyRegister E req w
    = (registration_done (uuid E (uuids w)) (accepted certificate bylaw extra),
       committed_and_audited E req (uuid E (uuids w)) (uuid E (S (uuids w)))
         (length (accepted certificate bylaw extra)) wk)
    /\ in_unit c w (unit_ops E w req (accepted certificate bylaw extra))
         (7 + length extra) (4 + length extra) wk.
Proof.
  intros Hfields Hup Hpin Hidle Hans Hfresh Hnum Hemail.
  destruct (register_unit_pinned E c w req certificate bylaw extra Hup Hpin
              Hidle Hans Hfresh Hnum Hemail) as (wk & Hrun & Hin).
  exists wk. split; [| exact Hin].
  assert (Hf : forall k q, k < 3 -> fault E (k + clock w) q = false).
  { intros k q Hk. rewrite Nat.add_comm. apply Hans. lia. }
  rewrite societyRegister_run, Hfields.
  rewrite (Hf 0), (Hf 1), (Hf 2) by lia.
  unfold visible. cbn [clock tick].
  rewrite (Hpin (clock w)), (Hpin (S (clock w))) by lia.
  rewrite (view_idle w c Hidle), (view_idle (tick w) c Hidle).
  change (committed (tick w)) with (committed w).
  rewrite (societies_by_registration_number_none _ _ Hnum).
  rewrite (users_by_email_none _ _ Hemail).
  rewrite (as_uploaded_files_missing _ _ _ _ Hup).
  cbn [length Nat.ltb Nat.leb]. unfold handle, try_catch. by rewrite Hrun.
Qed.

(** What a pinned registration has committed once its COMMIT was served:
    the unit's rows after the old ones, and no transaction left open. *)
Lemma committed_and_audited_pinned E c w req l society user count k n wk :
  pinned E c (clock w) ->
  txns w !! c = None ->
  in_unit c w (unit_ops E w req l) k n wk ->
  let w' := committed_and_audited E req society user count wk in
  business (committed w')
  = (societies (committed w) ++ [new_society E w req],
     users (committed w) ++ [new_admin E w req],
     society_documents (committed w) ++ new_documents E w l)
  /\ txns w' = txns w.
Proof.
  intros Hpin Hidle Hin. cbv zeta.
  destruct (in_unit_visible E c w _ _ _ _ Hpin Hin) as [Hconn Hvis].
  destruct Hin as [Hc Ht Hk Hn Hj].
  unfold committed_and_audited. rewrite Hconn. split.
  - match goal with
    | |- context [audited E ?a1 ?a2 ?a3 ?a4 ?a5 ?a6 ?a7 ?a8 ?a9 ?W] =>
        destruct (logAuditTrail_business E a1 a2 a3 a4 a5 a6 a7 a8 a9 W)
          as [Hb _]
    end.
    cbv zeta in Hb. unfold audited. rewrite Hb. cbn [committed commit_on].
    unfold view, staged. cbn [txns committed tick].
    rewrite Ht, lookup_insert_eq, Hc. apply business_unit_ops.
  - rewrite txns_audited_idle.
    + cbn [txns commit_on tick]. rewrite Ht, delete_insert_eq.
      by apply delete_id.
    + cbn [txns commit_on tick clock].
      rewrite (Hpin (S (clock wk))) by lia. apply lookup_delete_eq.
Qed.

(** X15: a registration with all nine text fields filled in and files as
    [upload.fields] delivers them, whose number and email are not taken,
    served on one connection that had no transaction open, with every
    statement up to COMMIT answered and ids that are new, is answered 201:
    the response names the society and lists every accepted file, the
    society, its administrator and one document row per file are committed
    after the rows that were there, and no transaction is left open.  The
    audit insert may fail or not. *)
Theorem registration_succeeds E c w req certificate bylaw extra :
  fields_missing req = false ->
  as_uploaded (files req) certificate bylaw extra ->
  pinned E c (clock w) ->
  txns w !! c = None ->
  answered E (clock w) (8 + length extra) ->
  fresh_ids E w (4 + length extra) ->
  ~ In (str (registrationNumber req))
      (map s_registration_number (societies (committed w))) ->
  ~ In (str (adminEmail req)) (map u_email (users (committed w))) ->
  let w' := snd (societyRegister E req w) in
  fst (societyRegister E req w)
  = registration_done (uuid E (uuids w)) (accepted certificate bylaw extra)
  /\ business (committed w')
     = (societies (committed w) ++ [new_society E w req],
        users (committed w) ++ [new_admin E w req],
        society_documents (committed w)
        ++ new_documents E w (accepted certificate bylaw extra))
  /\ txns w' = txns w.
Proof.
  intros Hfields Hup Hpin Hidle Hans Hfresh Hnum Hemail.
  destruct (societyRegister_pinned E c w req certificate bylaw extra Hfields
              Hup Hpin Hidle Hans Hfresh Hnum Hemail) as (wk & -> & Hin).
  cbv zeta. cbn [fst snd]. split; [reflexivity |].
  exact (committed_and_audited_pinned E c w req _ _ _ _ _ _ wk Hpin Hidle Hin).
Qed.

Lemma letter_inj i j : i < 100 -> j < 100 -> letter i = letter j -> i = j.
Proof.
  intros Hi Hj [= H]. apply (f_equal Ascii.nat_of_ascii) in H.
  rewrite !Ascii.nat_ascii_embedding in H by lia. lia.
Qed.

Lemma letter_not_dev i : letter i <> "dev".
Proof. discriminate. Qed.

Lemma fresh_ids_fresh n : n < 100 -> fresh_ids calm fresh n.
Proof.
  intros Hn. split.
  - intros i j Hi Hj. apply letter_inj; lia.
  - intros i _ [H | []]. by apply (letter_not_dev i).
Qed.

Lemma as_uploaded_three_files :
  as_uploaded three_files certificate_png bylaws_pdf [minutes_png].
Proof. eexists. split; [reflexivity |]. split; [reflexivity |]. by split. Qed.

Lemma registration_succeeds_witness :
  let req := register_alpha (Some "Alpha Co-op") three_files in
  let w' := snd (societyRegister calm req fresh) in
  fst (societyRegister calm req fresh)
  = registration_done "A" (accepted certificate_png bylaws_pdf [minutes_png])
  /\ business (committed w')
     = (societies (committed fresh) ++ [new_society calm fresh req],
        users (committed fresh) ++ [new_admin calm fresh req],
        society_documents (committed fresh)
        ++ new_documents calm fresh
             (accepted certificate_png bylaws_pdf [minutes_png]))
  /\ txns w' = txns fresh.
Proof.
  apply (registration_succeeds calm 0 fresh
           (register_alpha (Some "Alpha Co-op") three_files)
           certificate_png bylaws_pdf [minutes_png]).
  - reflexivity.
  - exact as_uploaded_three_files.
  - intros t _. reflexivity.
  - reflexivity.
  - intros k q _. reflexivity.
  - apply fresh_ids_fresh. cbn. lia.
  - intros [].
  - intros [H | []]. discriminate H.
Defined.

(** X16: when the pool serves a registration on one connection that had no
    transaction open, and ROLLBACK is answered, the registration is all or
    nothing: either it is answered 201 and one society, one administrator
    and one document row per recorded file are committed after the rows
    that were there, or it is answered otherwise and the committed tables
    are exactly what they were.  Either way no transaction is left open. *)
Theorem registration_all_or_nothing E c req w :
  pinned E c (clock w) ->
  txns w !! c = None ->
  (forall t, fault E t ROLLBACK = false) ->
  let r := societyRegister E req w in
  txns (snd r) = txns w
  /\ ((status (fst r) = 201
       /\ exists society user rows,
            business (committed (snd r))
            = (societies (committed w) ++ [society_row society req],
               users (committed w) ++ [admin_row E user society req],
               society_documents (committed w) ++ rows)
            /\ map recorded rows
               = map (expected society) (recorded_files (files req)))
      \/ (status (fst r) <> 201 /\ committed (snd r) = committed w)).
Proof.
  intros Hpin Hidle Hrb. cbv zeta.
  destruct (societyRegister_cases E req w)
    as [(Hno & Hc & Ht & _)
       | [(society & user & rows & wc & Hrun & Hrows & Hp & Hfc)
         | (ops & wr & Hrun & Hp)]].
  - split; [exact Ht |]. right. by split.
  - rewrite Hrun. cbn [fst snd].
    destruct (progress_pinned E c w _ wc Hpin Hidle Hp) as (Hclock & Hc & Ht).
    unfold committed_and_audited. rewrite (Hpin (clock wc) Hclock).
    split.
    + rewrite txns_audited_idle.
      * cbn [txns commit_on tick]. rewrite Ht, delete_insert_eq.
        by apply delete_id.
      * cbn [txns commit_on tick clock].
        rewrite (Hpin (S (clock wc))) by lia. apply lookup_delete_eq.
    + left. split; [reflexivity |]. exists society, user, rows.
      split; [| exact Hrows].
      match goal with
      | |- context [audited E ?a1 ?a2 ?a3 ?a4 ?a5 ?a6 ?a7 ?a8 ?a9 ?W] =>
          destruct (logAuditTrail_business E a1 a2 a3 a4 a5 a6 a7 a8 a9 W)
            as [Hb _]
      end.
      cbv zeta in Hb. unfold audited. rewrite Hb. cbn [committed commit_on].
      unfold view, staged. cbn [txns committed tick].
      rewrite Ht, lookup_insert_eq, Hc. apply business_apply_unit.
  - rewrite Hrun, Hrb. cbn [fst snd].
    destruct (progress_pinned E c w ops wr Hpin Hidle Hp) as (Hclock & Hc & Ht).
    rewrite (Hpin (clock wr) Hclock). unfold rollback_on.
    cbn [committed txns tick]. split.
    + rewrite Ht, delete_insert_eq. by apply delete_id.
    + right. split; [discriminate | exact Hc].
Qed.

Lemma registration_all_or_nothing_witness :
  let r := societyRegister refusing_users
             (register_alpha (Some "Alpha Co-op") three_files) fresh in
  txns (snd r) = txns fresh
  /\ ((status (fst r) = 201
       /\ exists society user rows,
            business (committed (snd r))
            = (societies (committed fresh)
               ++ [society_row society
                     (register_alpha (Some "Alpha Co-op") three_files)],
               users (committed fresh)
               ++ [admin_row refusing_users user society
                     (register_alpha (Some "Alpha Co-op") three_files)],
               society_documents (committed fresh) ++ rows)
            /\ map recorded rows
               = map (expected society)
                   (recorded_files
                      (files (register_alpha (Some "Alpha Co-op")
                                three_files))))
      \/ (status (fst r) <> 201 /\ committed (snd r) = committed fresh)).
Proof.
  apply (registration_all_or_nothing refusing_users 0
           (register_alpha (Some "Alpha Co-op") three_files) fresh).
  - intros t _. reflexivity.
  - reflexivity.
  - intros t. reflexivity.
Defined.

Lemma clock_audited E userId societyId action tableName recordId oldValues
    newValues ipAddress userAgent w :
  clock (audited E userId societyId action tableName recordId oldValues
           newValues ipAddress userAgent w) = S (clock w).
Proof.
  unfold audited. rewrite logAuditTrail_run. cbn [snd].
  destruct (fault E (clock w) INSERT_INTO_audit_logs); [reflexivity |].
  match goal with
  | |- context [admissible ?op ?T] => destruct (admissible op T)
  end; [| reflexivity].
  unfold perform. by destruct (txns _ !! _).
Qed.

(** The state a registration that went through on one connection leaves. *)
Lemma registered_state E c w req certificate bylaw extra :
  fields_missing req = false ->
  as_uploaded (files req) certificate bylaw extra ->
  pinned E c (clock w) ->
  txns w !! c = None ->
  answered E (clock w) (8 + length extra) ->
  fresh_ids E w (4 + length extra) ->
  ~ In (str (registrationNumber req))
      (map s_registration_number (societies (committed w))) ->
  ~ In (str (adminEmail req)) (map u_email (users (committed w))) ->
  exists w',
    societyRegister E req w
    = (registration_done (uuid E (uuids w)) (accepted certificate bylaw extra),
       w')
    /\ business (committed w')
       = (societies (committed w) ++ [new_society E w req],
          users (committed w) ++ [new_admin E w req],
          society_documents (committed w)
          ++ new_documents E w (accepted certificate bylaw extra))
    /\ txns w' = txns w
    /\ clock w' = clock w + 9 + length extra.
Proof.
  intros Hfields Hup Hpin Hidle Hans Hfresh Hnum Hemail.
  destruct (societyRegister_pinned E c w req certificate bylaw extra Hfields
              Hup Hpin Hidle Hans Hfresh Hnum Hemail) as (wk & -> & Hin).
  eexists. split; [reflexivity |].
  destruct (committed_and_audited_pinned E c w req _ (uuid E (uuids w))
              (uuid E (S (uuids w)))
              (length (accepted certificate bylaw extra)) _ _ wk Hpin Hidle Hin)
    as [Hb Ht].
  split; [exact Hb |]. split; [exact Ht |].
  unfold committed_and_audited. rewrite clock_audited.
  cbn [clock commit_on tick]. rewrite (iu_clock _ _ _ _ _ _ Hin). lia.
Qed.

Lemma visible_idle E c w :
  conn_at E (clock w) = c -> txns w !! c = None -> visible E w = committed w.
Proof. intros Hc Hidle. unfold visible. rewrite Hc. by apply view_idle. Qed.

(** X17: once a registration has gone through as in X15, served on one
    connection that had no transaction open, with its statements up to
    COMMIT answered and ids that are new, its registration number and its
    administrator email are taken: a further attempt with all nine text
    fields filled in, served on that connection with its lookups answered,
    is answered 409 "Registration number already exists" when it repeats
    the number, and 409 "Email already exists" when it brings a number of
    its own but repeats the email. *)
Theorem registered_number_and_email_are_taken
    E c w req certificate bylaw extra again :
  fields_missing req = false ->
  as_uploaded (files req) certificate bylaw extra ->
  pinned E c (clock w) ->
  txns w !! c = None ->
  answered E (clock w) (11 + length extra) ->
  fresh_ids E w (4 + length extra) ->
  ~ In (str (registrationNumber req))
      (map s_registration_number (societies (committed w))) ->
  ~ In (str (adminEmail req)) (map u_email (users (committed w))) ->
  fields_missing again = false ->
  let w' := snd (societyRegister E req w) in
  (registrationNumber again = registrationNumber req ->
   fst (societyRegister E again w') = number_taken)
  /\ (adminEmail again = adminEmail req ->
      str (registrationNumber again) <> str (registrationNumber req) ->
      ~ In (str (registrationNumber again))
          (map s_registration_number (societies (committed w))) ->
      fst (societyRegister E again w') = email_taken).
Proof.
  intros Hfields Hup Hpin Hidle Hans Hfresh Hnum Hemail Hagain.
  assert (Hans' : answered E (clock w) (8 + length extra)).
  { intros k q Hk. apply Hans. lia. }
  destruct (registered_state E c w req certificate bylaw extra Hfields Hup
              Hpin Hidle Hans' Hfresh Hnum Hemail)
    as (w' & -> & Hb & Ht & Hclock).
  cbv zeta. cbn [snd].
  assert (Hs := f_equal (fun b => fst (fst b)) Hb).
  assert (Hu := f_equal (fun b => snd (fst b)) Hb).
  cbn [business fst snd] in Hs, Hu.
  assert (Hidle' : txns w' !! c = None) by (by rewrite Ht).
  assert (Hv1 : visible E w' = committed w').
  { apply (visible_idle E c); [apply Hpin; lia | exact Hidle']. }
  assert (Hv2 : visible E (tick w') = committed w').
  { apply (visible_idle E c (tick w')); [apply Hpin; cbn; lia | exact Hidle']. }
  assert (Hf1 : fault E (clock w') SELECT_society_by_registration_number
                = false).
  { rewrite Hclock, <- Nat.add_assoc. apply Hans. lia. }
  assert (Hf2 : fault E (S (clock w')) SELECT_user_by_email = false).
  { rewrite Hclock.
    replace (S (clock w + 9 + length extra))
      with (clock w + (10 + length extra)) by lia.
    apply Hans. lia. }
  split.
  - intros Hsame. rewrite societyRegister_run, Hagain, Hf1, Hv1.
    rewrite societies_by_registration_number_found; [reflexivity |].
    rewrite Hs, map_app, in_app_iff. right. left. cbn. by rewrite Hsame.
  - intros Hsame Hne Hold. rewrite societyRegister_run, Hagain, Hf1, Hv1.
    rewrite societies_by_registration_number_none.
    2: { rewrite Hs, map_app, in_app_iff. intros [H | [H | []]];
         [by apply Hold | apply Hne; by rewrite <- H]. }
    change (Nat.ltb 0 (@length string [])) with false. cbv iota.
    rewrite Hf2, Hv2.
    rewrite users_by_email_found; [reflexivity |].
    rewrite Hu, map_app, in_app_iff. right. left. cbn. by rewrite Hsame.
Qed.

Lemma registered_number_and_email_are_taken_witness :
  let req := register_alpha (Some "Alpha Co-op") three_files in
  let again :=
    {| societyName := Some "Beta Co-op"; registrationNumber := Some "RC-002";
       societyType := Some "credit"; establishmentDate := Some "2021-01-01";
       societyAddress := Some "2 Main St"; adminName := Some "Bea";
       adminEmail := Some "a@alpha.coop"; adminPhone := Some "556";
       password := Some "hidden"; files := None;
       register_ip := "10.0.0.1"; register_user_agent := "curl" |} in
  let w' := snd (societyRegister calm req fresh) in
  (registrationNumber again = registrationNumber req ->
   fst (societyRegister calm again w') = number_taken)
  /\ (adminEmail again = adminEmail req ->
      str (registrationNumber again) <> str (registrationNumber req) ->
      ~ In (str (registrationNumber again))
          (map s_registration_number (societies (committed fresh))) ->
      fst (societyRegister calm again w') = email_taken).
Proof.
  apply (registered_number_and_email_are_taken calm 0 fresh
           (register_alpha (Some "Alpha Co-op") three_files)
           certificate_png bylaws_pdf [minutes_png]).
  - reflexivity.
  - exact as_uploaded_three_files.
  - intros t _. reflexivity.
  - reflexivity.
  - intros k q _. reflexivity.
  - apply fresh_ids_fresh. cbn. lia.
  - intros [].
  - intros [H | []]. discriminate H.
  - reflexivity.
Defined.

(** ** The pending list *)

Lemma filter_none {A} (f : A -> bool) l :
  (forall x, In x l -> f x = false) -> List.filter f l = [].
Proof.
  induction l as [| a l IH]; intros H; [reflexivity |]. cbn.
  rewrite (H a) by (by left). apply IH. intros x Hx. apply H. by right.
Qed.

Lemma filter_all {A} (f : A -> bool) l :
  (forall x, In x l -> f x = true) -> List.filter f l = l.
Proof.
  induction l as [| a l IH]; intros H; [reflexivity |]. cbn.
  rewrite (H a) by (by left). f_equal. apply IH. intros x Hx. apply H.
  by right.
Qed.

Lemma stored_from_society E society i l d :
  In d (stored_from E society i l) -> d_society_id d = society.
Proof.
  revert i. induction l as [| kf l IH]; intros i; cbn; [tauto |].
  intros [<- | H]; [reflexivity | by apply (IH (S i))].
Qed.

(** A society registered with its administrator and its documents, that
    nothing referred to before, adds its entry to the list; the entries of
    the others are what they were. *)
Lemma pending_societies_registered T T' sn un dn :
  societies T' = societies T ++ [sn] ->
  users T' = users T ++ [un] ->
  society_documents T' = society_documents T ++ dn ->
  s_status sn = status_pending ->
  (forall s, In s (societies T) -> s_id s <> s_id sn) ->
  u_society_id un = Some (s_id sn) ->
  u_role un = role_society_admin ->
  (forall d, In d dn -> d_society_id d = s_id sn) ->
  unreferenced (s_id sn) T ->
  pending_societies T'
  = {| p_society := sn; p_admin_name := Some (u_name un);
       p_admin_email := Some (u_email un); p_admin_phone := u_phone un;
       p_document_count := length dn |}
      :: pending_societies T.
Proof.
  intros Hs Hu Hd Hpending Hnew Hjoin Hrole Hdocs [Hnu Hnd].
  unfold pending_societies. rewrite Hs, Hu, Hd.
  rewrite List.filter_app. cbn [List.filter]. rewrite Hpending.
  cbn [status_eqb]. rewrite rev_app_distr. cbn [rev app map].
  f_equal.
  - rewrite !List.filter_app. cbn [List.filter].
    rewrite Hjoin, Hrole. cbn [opt_string_eqb role_eqb].
    rewrite String.eqb_refl. cbn [andb].
    rewrite (filter_none _ (users T)).
    2: { intros u Hin. apply andb_false_iff. left.
         destruct (opt_string_eqb (u_society_id u) (s_id sn)) eqn:Hx;
           [| reflexivity].
         apply opt_string_eqb_eq in Hx. by destruct (Hnu u Hin). }
    rewrite (filter_none _ (society_documents T)).
    2: { intros d Hin. apply String.eqb_neq. by apply Hnd. }
    rewrite (filter_all _ dn).
    2: { intros d Hin. apply String.eqb_eq. by apply Hdocs. }
    cbn [app head option_map mbind option_bind length Nat.max].
    by rewrite Nat.mul_1_l.
  - apply map_ext_in. intros s Hin.
    apply in_rev, filter_In in Hin. destruct Hin as [Hin _].
    assert (Hne : String.eqb (s_id sn) (s_id s) = false).
    { apply String.eqb_neq. intros H. by apply (Hnew s Hin). }
    rewrite !List.filter_app. cbn [List.filter].
    rewrite Hjoin. cbn [opt_string_eqb]. rewrite Hne. cbn [andb].
    rewrite (filter_none _ dn).
    2: { intros d Hd'. rewrite (Hdocs d Hd'). exact Hne. }
    by rewrite !app_nil_r.
Qed.

(** X18: a registration that has gone through is on the pending list.
    After a registration served on one connection that had no transaction
    open, with its statements answered and ids that are new, the pending
    list a developer asks for holds the entries that were pending before
    and one more, in some order: the entry of the society of the new id,
    with its name, number, type and address as registered and status
    pending, the name, email and phone of its administrator, and the
    number of files stored. *)
Theorem registration_joins_the_pending_list
    E c w req certificate bylaw extra listing decoded :
  fields_missing req = false ->
  as_uploaded (files req) certificate bylaw extra ->
  pinned E c (clock w) ->
  txns w !! c = None ->
  answered E (clock w) (10 + length extra) ->
  fresh_ids E w (4 + length extra) ->
  ~ In (str (registrationNumber req))
      (map s_registration_number (societies (committed w))) ->
  ~ In (str (adminEmail req)) (map u_email (users (committed w))) ->
  unreferenced (uuid E (uuids w)) (committed w) ->
  token_decodes E (pending_authorization listing) decoded ->
  c_role decoded = "developer" ->
  let w' := snd (societyRegister E req w) in
  exists entry listed,
    fst (getPendingSocieties E listing w') = pending_listed listed
    /\ Permutation listed (entry :: pending_societies (committed w))
    /\ s_id (p_society entry) = uuid E (uuids w)
    /\ s_name (p_society entry) = str (societyName req)
    /\ s_registration_number (p_society entry)
       = str (registrationNumber req)
    /\ s_society_type (p_society entry) = str (societyType req)
    /\ s_address (p_society entry) = str (societyAddress req)
    /\ s_status (p_society entry) = status_pending
    /\ p_admin_name entry = Some (str (adminName req))
    /\ p_admin_email entry = Some (str (adminEmail req))
    /\ p_admin_phone entry = Some (str (adminPhone req))
    /\ p_document_count entry = 2 + length extra.
Proof.
  intros Hfields Hup Hpin Hidle Hans Hfresh Hnum Hemail Hunref [Ht Hv] Hdev.
  assert (Hans' : answered E (clock w) (8 + length extra)).
  { intros k q Hk. apply Hans. lia. }
  destruct (registered_state E c w req certificate bylaw extra Hfields Hup
              Hpin Hidle Hans' Hfresh Hnum Hemail)
    as (w' & -> & Hb & Htx & Hclock).
  cbv zeta. cbn [snd].
  assert (Hs := f_equal (fun b => fst (fst b)) Hb).
  assert (Hu := f_equal (fun b => snd (fst b)) Hb).
  assert (Hd := f_equal snd Hb).
  cbn [business fst snd] in Hs, Hu, Hd.
  assert (Hvis : visible E w' = committed w').
  { apply (visible_idle E c); [apply Hpin; lia | by rewrite Htx]. }
  rewrite getPendingSocieties_run, Ht, Hv, Hdev, String.eqb_refl.
  cbn [negb].
  replace (fault E (clock w') SELECT_pending_societies) with false.
  2: { symmetry. rewrite Hclock, <- Nat.add_assoc. apply Hans. lia. }
  cbn [fst]. rewrite Hvis.
  rewrite (pending_societies_registered (committed w) (committed w')
             (new_society E w req) (new_admin E w req)
             (new_documents E w (accepted certificate bylaw extra)) Hs Hu Hd).
  - eexists _, _. split; [reflexivity |]. split; [reflexivity |].
    do 9 (split; [reflexivity |]).
    cbn [p_document_count]. unfold new_documents.
    rewrite length_stored_from. unfold accepted. cbn [length].
    by rewrite length_map.
  - reflexivity.
  - intros s Hin Heq.
    destruct (fresh_ids_split E w _ 0 Hfresh ltac:(lia)) as (Hx & _).
    rewrite Nat.add_0_r in Hx. apply Hx. cbn in Heq. rewrite <- Heq.
    by apply in_map.
  - reflexivity.
  - reflexivity.
  - intros d Hin. by apply stored_from_society in Hin.
  - exact Hunref.
Qed.

Lemma registration_joins_the_pending_list_witness :
  let req := register_alpha (Some "Alpha Co-op") three_files in
  let w' := snd (societyRegister calm req fresh) in
  exists entry listed,
    fst (getPendingSocieties calm
           {| pending_authorization := Some "Bearer t:developer" |} w')
    = pending_listed listed
    /\ Permutation listed (entry :: pending_societies (committed fresh))
    /\ s_id (p_society entry) = "A"
    /\ s_name (p_society entry) = "Alpha Co-op"
    /\ s_registration_number (p_society entry) = "RC-001"
    /\ s_society_type (p_society entry) = "credit"
    /\ s_address (p_society entry) = "1 Main St"
    /\ s_status (p_society entry) = status_pending
    /\ p_admin_name entry = Some "Ada"
    /\ p_admin_email entry = Some "a@alpha.coop"
    /\ p_admin_phone entry = Some "555"
    /\ p_document_count entry = 3.
Proof.
  apply (registration_joins_the_pending_list calm 0 fresh
           (register_alpha (Some "Alpha Co-op") three_files)
           certificate_png bylaws_pdf [minutes_png]
           {| pending_authorization := Some "Bearer t:developer" |}
           dev_claims).
  - reflexivity.
  - exact as_uploaded_three_files.
  - intros t _. reflexivity.
  - reflexivity.
  - intros k q _. reflexivity.
  - apply fresh_ids_fresh. cbn. lia.
  - intros [].
  - intros [H | []]. discriminate H.
  - split.
    + intros u [<- | []]. discriminate.
    + intros d [].
  - split; reflexivity.
  - reflexivity.
Defined.

Lemma filter_pending_update st id l :
  st <> status_pending ->
  List.filter (fun s => status_eqb (s_status s) status_pending)
    (update_status st id l)
  = List.filter (fun s => negb (String.eqb (s_id s) id))
      (List.filter (fun s => status_eqb (s_status s) status_pending) l).
Proof.
  intros Hst. induction l as [| s l IH]; [reflexivity |].
  cbn [update_status map List.filter].
  fold (update_status st id l). rewrite IH.
  destruct (String.eqb (s_id s) id) eqn:Hs.
  - cbn [set_status s_status].
    replace (status_eqb st status_pending) with false by (by destruct st).
    destruct (status_eqb (s_status s) status_pending); [| reflexivity].
    cbn [List.filter]. by rewrite Hs.
  - destruct (status_eqb (s_status s) status_pending); [| reflexivity].
    cbn [List.filter]. by rewrite Hs.
Qed.

Lemma filter_rev_comm {A} (f : A -> bool) l :
  List.filter f (rev l) = rev (List.filter f l).
Proof.
  induction l as [| a l IH]; [reflexivity |]. cbn [rev List.filter].
  rewrite List.filter_app, IH. cbn [List.filter].
  destruct (f a); [reflexivity | by rewrite app_nil_r].
Qed.

Lemma filter_map_comm {A B} (f : A -> B) (h : B -> bool) l :
  List.filter h (map f l) = map f (List.filter (fun a => h (f a)) l).
Proof.
  induction l as [| a l IH]; [reflexivity |]. cbn [map List.filter].
  rewrite IH. by destruct (h (f a)).
Qed.

(** The pending list after a status update: the entries of the societies
    with the updated id are gone, the others are what they were. *)
Lemma pending_societies_decided T T' st id :
  societies T' = update_status st id (societies T) ->
  users T' = users T ->
  society_documents T' = society_documents T ->
  st <> status_pending ->
  pending_societies T'
  = List.filter (fun p => negb (String.eqb (s_id (p_society p)) id))
      (pending_societies T).
Proof.
  intros Hs Hu Hd Hst. unfold pending_societies.
  rewrite Hs, Hu, Hd, (filter_pending_update _ _ _ Hst).
  rewrite <- filter_rev_comm. by rewrite filter_map_comm.
Qed.

Lemma decision_decides x st : decision x = Some st -> st <> status_pending.
Proof.
  unfold decision. destruct x as [s |]; [| discriminate].
  destruct (String.eqb s "approved"); [by intros [= <-] |].
  destruct (String.eqb s "rejected"); [by intros [= <-] | discriminate].
Qed.

(** X28: a society a developer has decided on leaves the pending list.  In
    a store without open transactions, after an approval update with
    either decision whose UPDATE is answered, the pending list a developer
    asks for is the list as it was without the entries of that society;
    every other entry is unchanged and in place. *)
Theorem decided_society_leaves_the_pending_list
    E w approve st decoded listing reader :
  quiescent w ->
  decision (approval_status approve) = Some st ->
  token_decodes E (approval_authorization approve) decoded ->
  c_role decoded = "developer" ->
  token_decodes E (pending_authorization listing) reader ->
  c_role reader = "developer" ->
  fault E (clock w) UPDATE_societies_status = false ->
  fault E (clock w + 2) SELECT_pending_societies = false ->
  let w' := snd (updateSocietyApproval E approve w) in
  fst (updateSocietyApproval E approve w)
  = approval_done st (societyId approve)
  /\ fst (getPendingSocieties E listing w')
     = pending_listed
         (List.filter
            (fun p => negb (String.eqb (s_id (p_society p))
                              (societyId approve)))
            (pending_societies (committed w))).
Proof.
  intros Hq Hdec Htok Hdev [Ht Hv] Hreader Hf1 Hf2. cbv zeta.
  rewrite (updateSocietyApproval_run E approve st decoded w Hdec Htok Hdev),
    Hf1.
  cbn [fst snd]. split; [reflexivity |].
  rewrite (perform_idle _ _ (tick w)) by (apply (quiescent_idle (tick w)), Hq).
  match goal with
  | |- context [logAuditTrail E ?a1 ?a2 ?a3 ?a4 ?a5 ?a6 ?a7 ?a8 ?a9 ?W] =>
      set (w1 := W);
      destruct (logAuditTrail_business E a1 a2 a3 a4 a5 a6 a7 a8 a9 w1)
        as [Hb _];
      assert (Htx := txns_audited_idle E a1 a2 a3 a4 a5 a6 a7 a8 a9 w1);
      assert (Hclock := clock_audited E a1 a2 a3 a4 a5 a6 a7 a8 a9 w1);
      unfold audited in Htx, Hclock;
      set (w2 := snd (logAuditTrail E a1 a2 a3 a4 a5 a6 a7 a8 a9 w1)) in *
  end.
  cbv zeta in Hb.
  assert (Hq1 : quiescent w1) by exact Hq.
  assert (Hq2 : quiescent w2).
  { unfold quiescent. rewrite Htx; [exact Hq1 |]. by apply quiescent_idle. }
  assert (Hs := f_equal (fun b => fst (fst b)) Hb).
  assert (Hu := f_equal (fun b => snd (fst b)) Hb).
  assert (Hd := f_equal snd Hb).
  cbn [business fst snd] in Hs, Hu, Hd.
  subst w1. cbn [committed apply_write societies users society_documents tick]
    in Hs, Hu, Hd.
  rewrite getPendingSocieties_run, Ht, Hv, Hreader, String.eqb_refl.
  cbn [negb].
  replace (fault E (clock w2) SELECT_pending_societies) with false.
  2: { symmetry. rewrite Hclock. cbn [clock tick].
       replace (S (S (clock w))) with (clock w + 2) by lia. exact Hf2. }
  cbn [fst]. unfold visible. rewrite (view_quiescent _ _ Hq2). f_equal.
  apply (pending_societies_decided (committed w) (committed w2) st
           (societyId approve) Hs Hu Hd).
  by apply (decision_decides (approval_status approve)).
Qed.

Lemma decided_society_leaves_the_pending_list_witness :
  let w' := snd (updateSocietyApproval calm approve_alpha with_alpha) in
  fst (updateSocietyApproval calm approve_alpha with_alpha)
  = approval_done status_approved "alpha"
  /\ fst (getPendingSocieties calm
            {| pending_authorization := Some "Bearer t:developer" |} w')
     = pending_listed
         (List.filter
            (fun p => negb (String.eqb (s_id (p_society p)) "alpha"))
            (pending_societies (committed with_alpha))).
Proof.
  apply (decided_society_leaves_the_pending_list calm with_alpha approve_alpha
           status_approved dev_claims
           {| pending_authorization := Some "Bearer t:developer" |}
           dev_claims).
  - reflexivity.
  - reflexivity.
  - split; reflexivity.
  - reflexivity.
  - split; reflexivity.
  - reflexivity.
  - reflexivity.
  - reflexivity.
Defined.

(** ** From registration to the first session *)

Lemma unique_emails_registered T T' un :
  users T' = users T ++ [un] ->
  unique_emails T ->
  ~ In (u_email un) (map u_email (users T)) ->
  unique_emails T'.
Proof.
  intros Hu Huniq Hnew u1 u2. rewrite Hu, !in_app_iff.
  intros [H1 | [<- | []]] [H2 | [<- | []]] He.
  - by apply Huniq.
  - destruct Hnew. rewrite <- He. by apply in_map.
  - destruct Hnew. rewrite He. by apply in_map.
  - reflexivity.
Qed.

Lemma unique_society_ids_registered T T' sn :
  societies T' = societies T ++ [sn] ->
  unique_society_ids T ->
  ~ In (s_id sn) (map s_id (societies T)) ->
  unique_society_ids T'.
Proof.
  intros Hs Huniq Hnew s1 s2. rewrite Hs, !in_app_iff.
  intros [H1 | [<- | []]] [H2 | [<- | []]] He.
  - by apply Huniq.
  - destruct Hnew. rewrite <- He. by apply in_map.
  - destruct Hnew. rewrite He. by apply in_map.
  - reflexivity.
Qed.

Lemma unique_society_ids_update T T' st id :
  societies T' = update_status st id (societies T) ->
  unique_society_ids T ->
  unique_society_ids T'.
Proof.
  intros Hs Huniq s1 s2. rewrite Hs. unfold update_status.
  rewrite !in_map_iff. intros (a & <- & Ha) (b & <- & Hb) He.
  assert (Hid : forall r,
            s_id (if String.eqb (s_id r) id then set_status st r else r)
            = s_id r)
    by (intros r; by destruct (String.eqb (s_id r) id)).
  rewrite !Hid in He. by rewrite (Huniq a b Ha Hb He).
Qed.

Lemma fields_present req :
  fields_missing req = false ->
  truthy (adminEmail req) = true /\ truthy (password req) = true.
Proof.
  unfold fields_missing. rewrite !orb_false_iff, !negb_false_iff. tauto.
Qed.

(** X19: from registration to the first session.  A society registers; its
    administrator, logging in with the email and password of the
    registration, is answered 403 "Society not approved"; a developer
    approves the society; the same login is then answered 200 with a
    session that names the administrator and the society.  This holds when
    the pool serves the four requests on one connection that had no
    transaction open, every statement is answered, the ids drawn are new,
    the stored emails and society ids are unique, and [bcrypt.compare]
    accepts the hash [bcrypt.hash] made of the password. *)
Theorem from_registration_to_session
    E c w req certificate bylaw extra login approve decoded :
  fields_missing req = false ->
  as_uploaded (files req) certificate bylaw extra ->
  pinned E c (clock w) ->
  txns w !! c = None ->
  answered E (clock w) (13 + length extra) ->
  fresh_ids E w (4 + length extra) ->
  ~ In (str (registrationNumber req))
      (map s_registration_number (societies (committed w))) ->
  ~ In (str (adminEmail req)) (map u_email (users (committed w))) ->
  unique_emails (committed w) ->
  unique_society_ids (committed w) ->
  bcrypt_compare E (str (password req)) (bcrypt_hash E (str (password req)))
  = true ->
  login_email login = adminEmail req ->
  login_password login = password req ->
  decision (approval_status approve) = Some status_approved ->
  societyId approve = uuid E (uuids w) ->
  token_decodes E (approval_authorization approve) decoded ->
  c_role decoded = "developer" ->
  let w1 := snd (societyRegister E req w) in
  let w2 := snd (societyLogin E login w1) in
  let w3 := snd (updateSocietyApproval E approve w2) in
  fst (societyRegister E req w)
  = registration_done (uuid E (uuids w)) (accepted certificate bylaw extra)
  /\ fst (societyLogin E login w1) = not_approved
  /\ fst (updateSocietyApproval E approve w2)
     = approval_done status_approved (uuid E (uuids w))
  /\ fst (societyLogin E login w3)
     = society_session E (new_admin E w req)
         (set_status status_approved (new_society E w req)).
Proof.
  intros Hfields Hup Hpin Hidle Hans Hfresh Hnum Hemail Hue Hus Hbcrypt
    Hlogin_e Hlogin_p Hdec Hid Htok Hdev.
  assert (Hans' : answered E (clock w) (8 + length extra)).
  { intros k q Hk. apply Hans. lia. }
  destruct (registered_state E c w req certificate bylaw extra Hfields Hup
              Hpin Hidle Hans' Hfresh Hnum Hemail)
    as (w1 & -> & Hb & Htx & Hclock).
  cbv zeta. cbn [fst snd]. split; [reflexivity |].
  assert (Hs := f_equal (fun b => fst (fst b)) Hb).
  assert (Hu := f_equal (fun b => snd (fst b)) Hb).
  cbn [business fst snd] in Hs, Hu.
  destruct (fields_present req Hfields) as [Hte Htp].
  assert (Hsup : supplied login).
  { unfold supplied. by rewrite Hlogin_e, Hlogin_p. }
  destruct (fresh_ids_split E w _ 0 Hfresh ltac:(lia)) as (Hsid & _).
  rewrite Nat.add_0_r in Hsid.
  (* the first login *)
  assert (Hv1 : visible E w1 = committed w1).
  { apply (visible_idle E c); [apply Hpin; lia | by rewrite Htx]. }
  assert (Hf1 : fault E (clock w1) SELECT_society_admin_by_email = false).
  { rewrite Hclock, <- Nat.add_assoc. apply Hans. lia. }
  assert (Hue1 : unique_emails (committed w1)).
  { by apply (unique_emails_registered (committed w) _ (new_admin E w req)). }
  assert (Hus1 : unique_society_ids (committed w1)).
  { by apply (unique_society_ids_registered (committed w) _
                (new_society E w req)). }
  assert (Hlogin1 : societyLogin E login w1 = (not_approved, tick w1)).
  { rewrite societyLogin_run, (login_supplied _ Hsup), Hf1, Hv1.
    destruct (society_admins_by_email_head (str (login_email login))
                (committed w1) (new_admin E w req) (new_society E w req)
                Hue1 Hus1) as [rest ->]; [| reflexivity].
    apply in_society_admins_by_email. rewrite Hs, Hu, !in_app_iff, Hlogin_e.
    split; [split; [right; by left | done] |].
    split; [right; by left | done]. }
  rewrite Hlogin1. cbn [fst snd]. split; [reflexivity |].
  (* the approval *)
  assert (Hf2 : fault E (clock (tick w1)) UPDATE_societies_status = false).
  { cbn [clock tick]. rewrite Hclock.
    replace (S (clock w + 9 + length extra))
      with (clock w + (10 + length extra)) by lia.
    apply Hans. lia. }
  rewrite (updateSocietyApproval_run E approve status_approved decoded
             (tick w1) Hdec Htok Hdev), Hf2.
  cbn [fst snd]. rewrite Hid. split; [reflexivity |].
  (* the second login *)
  assert (Hc2 : conn_at E (clock (tick w1)) = c).
  { apply Hpin. cbn [clock tick]. lia. }
  rewrite Hc2.
  assert (Hidle2 : txns (tick (tick w1)) !! c = None) by (by cbn; rewrite Htx).
  rewrite (perform_idle _ c (tick (tick w1)) Hidle2).
  match goal with
  | |- context [logAuditTrail E ?a1 ?a2 ?a3 ?a4 ?a5 ?a6 ?a7 ?a8 ?a9 ?W] =>
      set (w2 := W);
      destruct (logAuditTrail_business E a1 a2 a3 a4 a5 a6 a7 a8 a9 w2)
        as [Hb3 _];
      assert (Htx3 := txns_audited_idle E a1 a2 a3 a4 a5 a6 a7 a8 a9 w2);
      assert (Hclock3 := clock_audited E a1 a2 a3 a4 a5 a6 a7 a8 a9 w2);
      unfold audited in Htx3, Hclock3;
      set (w3 := snd (logAuditTrail E a1 a2 a3 a4 a5 a6 a7 a8 a9 w2)) in *
  end.
  cbv zeta in Hb3.
  assert (Hclock2 : clock w2 = clock w + 11 + length extra).
  { subst w2. cbn [clock tick]. lia. }
  assert (Hidle3 : txns w3 !! c = None).
  { rewrite Htx3; subst w2; cbn [txns tick clock]; [by rewrite Htx |].
    rewrite (Hpin (S (S (clock w1)))) by lia. by rewrite Htx. }
  assert (Hs3 := f_equal (fun b => fst (fst b)) Hb3).
  assert (Hu3 := f_equal (fun b => snd (fst b)) Hb3).
  cbn [business fst snd] in Hs3, Hu3.
  subst w2. cbn [committed apply_write societies users tick] in Hs3, Hu3.
  assert (Hv3 : visible E w3 = committed w3).
  { apply (visible_idle E c); [apply Hpin; lia | exact Hidle3]. }
  apply societyLogin_eligible; rewrite ?Hv3; try done.
  - rewrite Hclock3, Hclock2.
    replace (S (clock w + 11 + length extra))
      with (clock w + (12 + length extra)) by lia.
    apply Hans. lia.
  - intros u1 u2. rewrite Hu3. apply Hue1.
  - apply (unique_society_ids_update (committed w1) _ status_approved
             (uuid E (uuids w)) Hs3 Hus1).
  - rewrite Hu3, Hu, in_app_iff. right. by left.
  - cbn. by rewrite Hlogin_e.
  - rewrite Hs3, Hs. unfold update_status. rewrite map_app, in_app_iff.
    right. left. cbn [map new_society society_row s_id].
    by rewrite String.eqb_refl.
  - cbn. by rewrite Hlogin_p.
Qed.

Lemma from_registration_to_session_witness :
  let req := register_alpha (Some "Alpha Co-op") three_files in
  let login := login_as (Some "a@alpha.coop") (Some "secret") in
  let approve := approve_as (Some "Bearer t:developer") (Some "approved") "A" in
  let w1 := snd (societyRegister calm req fresh) in
  let w2 := snd (societyLogin calm login w1) in
  let w3 := snd (updateSocietyApproval calm approve w2) in
  fst (societyRegister calm req fresh)
  = registration_done "A" (accepted certificate_png bylaws_pdf [minutes_png])
  /\ fst (societyLogin calm login w1) = not_approved
  /\ fst (updateSocietyApproval calm approve w2)
     = approval_done status_approved "A"
  /\ fst (societyLogin calm login w3)
     = society_session calm (new_admin calm fresh req)
         (set_status status_approved (new_society calm fresh req)).
Proof.
  apply (from_registration_to_session calm 0 fresh
           (register_alpha (Some "Alpha Co-op") three_files)
           certificate_png bylaws_pdf [minutes_png]
           (login_as (Some "a@alpha.coop") (Some "secret"))
           (approve_as (Some "Bearer t:developer") (Some "approved") "A")
           dev_claims).
  - reflexivity.
  - exact as_uploaded_three_files.
  - intros t _. reflexivity.
  - reflexivity.
  - intros k q _. reflexivity.
  - apply fresh_ids_fresh. cbn. lia.
  - intros [].
  - intros [H | []]. discriminate H.
  - intros u1 u2 [<- | []] [<- | []] _. reflexivity.
  - intros s1 s2 [].
  - reflexivity.
  - reflexivity.
  - reflexivity.
  - reflexivity.
  - reflexivity.
  - split; reflexivity.
  - reflexivity.
Defined.

(** ** The files the registration route lets through *)

Lemma includes_prefix needle haystack :
  String.prefix needle haystack = true -> includes needle haystack = true.
Proof. intros H. destruct haystack; cbn [includes]; by rewrite H. Qed.

Lemma prefix_app a b : String.prefix a (a ++ b) = true.
Proof.
  induction a as [| c a IH]; [by destruct b |].
  change (String c a ++ b)%string with (String c (a ++ b)%string).
  cbn [String.prefix].
  destruct (Ascii.ascii_dec c c) as [_ | Hne]; [exact IH | by destruct Hne].
Qed.

(** X20: a file [fileFilter] rejects is answered 400 "Invalid file type"
    by the router's error middleware, with the filter's own message, which
    names the field and the types it allows; the error never goes on to the
    next handler. *)
Theorem rejected_file_is_400 file message :
  fileFilter file = Reject message ->
  upload_error_handler (filter_error message)
  = Some (respond 400 (ErrorBody "Invalid file type" message))
  /\ exists allowed,
       message
       = ("Invalid file type for " ++ fieldname file
          ++ ". Allowed types: " ++ join_types allowed)%string
       /\ ~ In (mimetype file) allowed.
Proof.
  unfold fileFilter. cbv zeta.
  destruct (match allowedTypes (fieldname file) with
            | Own l => Some l
            | Inherited => None
            | Undefined => Some images_and_pdf
            end) as [allowed |]; [| discriminate].
  destruct (has_string (mimetype file) allowed) eqn:Hm; [discriminate |].
  intros [= <-]. split.
  - unfold upload_error_handler, filter_error.
    cbn [is_multer code message andb].
    rewrite includes_prefix; [reflexivity |].
    apply (prefix_app "Invalid file type").
  - exists allowed. split; [reflexivity | by apply has_string_not_In].
Qed.

Lemma rejected_file_is_400_witness :
  upload_error_handler
    (filter_error
       "Invalid file type for bylaws. Allowed types: application/pdf")
  = Some (respond 400
            (ErrorBody "Invalid file type"
               "Invalid file type for bylaws. Allowed types: application/pdf"))
  /\ exists allowed,
       "Invalid file type for bylaws. Allowed types: application/pdf"
       = ("Invalid file type for "
          ++ fieldname
               {| fieldname := "bylaws"; originalname := "bylaws.png";
                  path := "uploads/societies/bylaws.png"; size := 10;
                  mimetype := "image/png" |}
          ++ ". Allowed types: " ++ join_types allowed)%string
       /\ ~ In (mimetype
                  {| fieldname := "bylaws"; originalname := "bylaws.png";
                     path := "uploads/societies/bylaws.png"; size := 10;
                     mimetype := "image/png" |}) allowed.
Proof.
  exact (rejected_file_is_400
           {| fieldname := "bylaws"; originalname := "bylaws.png";
              path := "uploads/societies/bylaws.png"; size := 10;
              mimetype := "image/png" |}
           "Invalid file type for bylaws. Allowed types: application/pdf"
           eq_refl).
Defined.

(** X21: on the three fields of the registration route the filter accepts
    a bylaws file exactly when it is a PDF, and a registration certificate
    or an additional document exactly when it is a JPEG, a PNG or a PDF.
    The keys registration_certificate and additional_docs of its table
    match neither of those two field names: both get the list the filter
    falls back on. *)
Theorem fileFilter_on_route_fields file :
  In (fieldname file) route_fields ->
  (fileFilter file = Accept
   <-> In (mimetype file)
         (if String.eqb (fieldname file) "bylaws" then ["application/pdf"]
          else images_and_pdf))
  /\ (fieldname file <> "bylaws" -> allowedTypes (fieldname file) = Undefined)
  /\ fileFilter file <> Crash.
Proof.
  unfold route_fields, fileFilter. cbv zeta.
  intros [<- | [<- | [<- | []]]].
  - change (allowedTypes "registrationCertificate") with Undefined.
    change (String.eqb "registrationCertificate" "bylaws") with false.
    cbv iota. rewrite <- has_string_In.
    destruct (has_string (mimetype file) images_and_pdf); done.
  - change (allowedTypes "bylaws") with (Own ["application/pdf"]).
    change (String.eqb "bylaws" "bylaws") with true.
    cbv iota. rewrite <- has_string_In.
    destruct (has_string (mimetype file) ["application/pdf"]); done.
  - change (allowedTypes "additionalDocs") with Undefined.
    change (String.eqb "additionalDocs" "bylaws") with false.
    cbv iota. rewrite <- has_string_In.
    destruct (has_string (mimetype file) images_and_pdf); done.
Qed.

Lemma fileFilter_on_route_fields_witness :
  (fileFilter bylaws_pdf = Accept
   <-> In (mimetype bylaws_pdf)
         (if String.eqb (fieldname bylaws_pdf) "bylaws"
          then ["application/pdf"] else images_and_pdf))
  /\ (fieldname bylaws_pdf <> "bylaws" ->
      allowedTypes (fieldname bylaws_pdf) = Undefined)
  /\ fileFilter bylaws_pdf <> Crash.
Proof.
  apply (fileFilter_on_route_fields bylaws_pdf). right. by left.
Defined.

Lemma fileFilter_Accept file :
  fileFilter file = Accept ->
  In (mimetype file) images_and_pdf
  /\ (fieldname file = "bylaws" -> mimetype file = "application/pdf").
Proof.
  unfold fileFilter, allowedTypes. cbv zeta.
  destruct (String.eqb (fieldname file) "registration_certificate") eqn:H1.
  { apply String.eqb_eq in H1. rewrite H1.
    destruct (has_string (mimetype file) images_and_pdf) eqn:Hm; [| discriminate].
    intros _. split; [by apply has_string_In | discriminate]. }
  destruct (String.eqb (fieldname file) "bylaws") eqn:H2.
  { destruct (has_string (mimetype file) ["application/pdf"]) eqn:Hm;
      [| discriminate].
    apply has_string_In in Hm. destruct Hm as [<- | []].
    intros _. split; [| done]. cbn. tauto. }
  apply String.eqb_neq in H2.
  destruct (String.eqb (fieldname file) "additional_docs").
  { destruct (has_string (mimetype file) images_and_pdf) eqn:Hm; [| discriminate].
    intros _. split; [by apply has_string_In | done]. }
  destruct (has_string (fieldname file) object_prototype); [discriminate |].
  destruct (has_string (mimetype file) images_and_pdf) eqn:Hm; [| discriminate].
  intros _. split; [by apply has_string_In | done].
Qed.

Lemma map_eq_Forall2 {A B C} (f : A -> C) (g : B -> C) l1 l2 :
  map f l1 = map g l2 -> Forall2 (fun a b => f a = g b) l1 l2.
Proof.
  revert l2. induction l1 as [| a l1 IH]; intros [| b l2] H;
    try discriminate H; constructor.
  - by injection H.
  - apply IH. by injection H.
Qed.

(** X22: when every file of a registration passed the filter and the
    bylaws came in the bylaws field, a registration answered 201 has
    written one document row per file, and each of them records an allowed
    type: a JPEG, a PNG or a PDF, and a PDF for the row of kind bylaws. *)
Theorem stored_documents_passed_the_filter E w req certificate bylaw extra :
  as_uploaded (files req) certificate bylaw extra ->
  fieldname bylaw = "bylaws" ->
  Forall (fun f => fileFilter f = Accept) (certificate :: bylaw :: extra) ->
  status (fst (societyRegister E req w)) = 201 ->
  exists before rows after,
    journal (snd (societyRegister E req w))
    = journal w ++ before ++ map InsertDocument rows ++ after
    /\ length rows = 2 + length extra
    /\ inserted_documents (before ++ after) = []
    /\ Forall
         (fun d =>
            In (d_mime_type d) images_and_pdf
            /\ (d_document_type d = doc_bylaws ->
                d_mime_type d = "application/pdf"))
         rows.
Proof.
  intros Hup Hfield Hpass H201.
  destruct (societyRegister_cases E req w)
    as [(Hno & _)
       | [(society & user & rows & wc & Hrun & Hrows & Hp & Hfc)
         | (ops & wr & Hrun & _)]].
  - contradiction.
  - rewrite (recorded_files_as_uploaded _ _ _ _ Hup) in Hrun, Hrows.
    rewrite Hrun. cbn [fst snd]. unfold committed_and_audited.
    match goal with
    | |- context [audited E ?a1 ?a2 ?a3 ?a4 ?a5 ?a6 ?a7 ?a8 ?a9 ?W] =>
        destruct (journal_audited E a1 a2 a3 a4 a5 a6 a7 a8 a9 W)
          as (trail & Hj & Htrail)
    end.
    exists [InsertSociety (society_row society req);
            InsertUser (admin_row E user society req)], rows, trail.
    split.
    { rewrite Hj. cbn [journal commit_on tick].
      rewrite (pr_journal _ _ _ _ Hp), begun_journal.
      by rewrite <- !app_assoc. }
    split.
    { rewrite <- (length_map recorded), Hrows, length_map.
      unfold accepted. cbn [length]. by rewrite length_map. }
    split.
    { destruct Htrail as [-> | (a & ->)]; reflexivity. }
    apply map_eq_Forall2 in Hrows.
    assert (Hfiles :
      Forall (fun kf => fileFilter (snd kf) = Accept
                        /\ (fst kf = doc_bylaws ->
                            fieldname (snd kf) = "bylaws"))
        (accepted certificate bylaw extra)).
    { unfold accepted. inversion Hpass as [| ? ? Hc Hrest]; subst.
      inversion Hrest as [| ? ? Hb Hextra]; subst.
      constructor; [split; [exact Hc | discriminate] |].
      constructor; [split; [exact Hb | done] |].
      apply Forall_map. eapply Forall_impl; [| exact Hextra].
      intros f Hf. split; [exact Hf | discriminate]. }
    clear - Hrows Hfiles.
    induction Hrows as [| d kf rows files Hd Hrows IH]; [constructor |].
    inversion Hfiles as [| ? ? [Hacc Hkind] Hrest]; subst.
    constructor; [| by apply IH].
    unfold recorded, expected in Hd. injection Hd as _ Hk _ _ _ Hm.
    destruct (fileFilter_Accept _ Hacc) as [Hin Hpdf].
    rewrite Hm, Hk. split; [exact Hin |]. intros Hb. apply Hpdf.
    by apply Hkind.
  - rewrite Hrun in H201. discriminate H201.
Qed.

Lemma stored_documents_passed_the_filter_witness :
  exists before rows after,
    journal (snd (societyRegister calm
                    (register_alpha (Some "Alpha Co-op") three_files) fresh))
    = journal fresh ++ before ++ map InsertDocument rows ++ after
    /\ length rows = 2 + length [minutes_png]
    /\ inserted_documents (before ++ after) = []
    /\ Forall
         (fun d =>
            In (d_mime_type d) images_and_pdf
            /\ (d_document_type d = doc_bylaws ->
                d_mime_type d = "application/pdf"))
         rows.
Proof.
  apply (stored_documents_passed_the_filter calm fresh
           (register_alpha (Some "Alpha Co-op") three_files)
           certificate_png bylaws_pdf [minutes_png]).
  - exact as_uploaded_three_files.
  - reflexivity.
  - repeat constructor.
  - reflexivity.
Defined.

(** ** setup.js *)

Lemma execute_refused {A} E refused q
    (run : nat -> World -> option (A * World)) w :
  refused (clock w) q = true -> execute E refused q run w = (None, tick w).
Proof. unfold execute. intros ->. reflexivity. Qed.

Lemma execute_rows {A} E refused q (f : Tables -> A) w :
  refused (clock w) q = false ->
  execute E refused q (rows_of f) w = (Some (f (visible E w)), tick w).
Proof. unfold execute, rows_of. intros ->. reflexivity. Qed.

Lemma execute_control E refused q f w :
  refused (clock w) q = false ->
  execute E refused q (control f) w
  = (Some tt, f (conn_at E (clock w)) (tick w)).
Proof. unfold execute, control. intros ->. reflexivity. Qed.

Lemma execute_write E refused q op w :
  refused (clock w) q = false ->
  execute E refused q (row_write op) w
  = if admissible op (visible E w)
    then (Some tt, perform op (conn_at E (clock w)) (tick w))
    else (None, tick w).
Proof.
  unfold execute, row_write, visible. intros ->.
  change (view (tick w) (conn_at E (clock w)))
    with (view w (conn_at E (clock w))).
  by destruct (admissible op _).
Qed.

Lemma commit_on_quiescent c w : quiescent w -> commit_on c w = w.
Proof.
  unfold quiescent, commit_on, view, staged. destruct w as [T tx cl uu j].
  cbn. intros ->. by rewrite lookup_empty, delete_empty.
Qed.

Lemma iter_tick n w :
  Nat.iter n tick w
  = {| committed := committed w; txns := txns w; clock := clock w + n;
       uuids := uuids w; journal := journal w |}.
Proof.
  induction n as [| n IH].
  - destruct w. cbn. by rewrite Nat.add_0_r.
  - change (Nat.iter (S n) tick w) with (tick (Nat.iter n tick w)).
    rewrite IH. unfold tick. cbn. f_equal. lia.
Qed.

Lemma create_tables_quiescent E refused tables :
  forall w,
    quiescent w ->
    accepted_from refused (clock w) (length tables) ->
    create_tables E refused tables w
    = (Some tt, Nat.iter (length tables) tick w).
Proof.
  induction tables as [| t tables IH]; intros w Hq Hacc; [reflexivity |].
  cbn [create_tables length]. unfold and_then.
  rewrite execute_control
    by (rewrite <- (Nat.add_0_r (clock w)); apply Hacc; cbn; lia).
  rewrite (commit_on_quiescent _ (tick w)) by exact Hq.
  rewrite IH.
  - f_equal. rewrite !iter_tick. cbn [committed txns clock uuids journal tick].
    f_equal. lia.
  - exact Hq.
  - intros k q Hk. cbn [clock tick].
    replace (S (clock w) + k) with (clock w + S k) by lia.
    apply Hacc. cbn. lia.
Qed.

(** What [setupDatabase] does in a store without open transactions when
    the statements up to the check are answered. *)
Lemma setupDatabase_run E refused w :
  quiescent w ->
  accepted_from refused (clock w) 9 ->
  setupDatabase E refused w
  = if Nat.ltb 0 (length (developer_ids (committed w)))
    then (0, Nat.iter 9 tick w)
    else if refused (clock w + 9) INSERT_default_developer
    then (1, tick (next_uuid (Nat.iter 9 tick w)))
    else if admissible (InsertUser (default_developer E (uuid E (uuids w))))
              (committed w)
    then (0,
          {| committed :=
               apply_write
                 (InsertUser (default_developer E (uuid E (uuids w))))
                 (committed w);
             txns := txns w; clock := clock w + 10; uuids := S (uuids w);
             journal :=
               journal w
               ++ [InsertUser (default_developer E (uuid E (uuids w)))] |})
    else (1, tick (next_uuid (Nat.iter 9 tick w))).
Proof.
  intros Hq Hacc. unfold setupDatabase, and_then.
  rewrite execute_rows
    by (rewrite <- (Nat.add_0_r (clock w)); apply Hacc; lia).
  unfold initializeDatabase.
  rewrite (create_tables_quiescent E refused schema (tick w) Hq).
  2: { intros k q Hk. cbn [clock tick].
       replace (S (clock w) + k) with (clock w + S k) by lia.
       apply Hacc. cbn in Hk. lia. }
  change (length schema) with 7.
  assert (Hw8 : Nat.iter 7 tick (tick w) = Nat.iter 8 tick w).
  { rewrite !iter_tick. cbn [committed txns clock uuids journal tick].
    f_equal. lia. }
  rewrite Hw8.
  assert (Hq8 : quiescent (Nat.iter 8 tick w)) by (by rewrite iter_tick).
  rewrite execute_rows.
  2: { rewrite iter_tick. cbn [clock]. apply Hacc. lia. }
  unfold visible. rewrite (view_quiescent _ _ Hq8).
  replace (committed (Nat.iter 8 tick w)) with (committed w)
    by (by rewrite iter_tick).
  change (tick (Nat.iter 8 tick w)) with (Nat.iter 9 tick w).
  destruct (Nat.ltb 0 (length (developer_ids (committed w))));
    [reflexivity |].
  unfold draw_uuid.
  replace (uuids (Nat.iter 9 tick w)) with (uuids w) by (by rewrite iter_tick).
  assert (Hclock : clock (next_uuid (Nat.iter 9 tick w)) = clock w + 9)
    by (by rewrite iter_tick).
  destruct (refused (clock w + 9) INSERT_default_developer) eqn:Hr.
  { rewrite execute_refused by (by rewrite Hclock). reflexivity. }
  rewrite execute_write by (by rewrite Hclock).
  assert (Hq9 : quiescent (next_uuid (Nat.iter 9 tick w)))
    by (by rewrite iter_tick).
  unfold visible. rewrite (view_quiescent _ _ Hq9).
  replace (committed (next_uuid (Nat.iter 9 tick w))) with (committed w)
    by (by rewrite iter_tick).
  destruct (admissible _ (committed w)); [| reflexivity].
  rewrite perform_idle
    by (apply (quiescent_idle (tick (next_uuid (Nat.iter 9 tick w)))), Hq9).
  rewrite iter_tick. cbn [committed txns clock uuids journal tick next_uuid].
  do 2 f_equal. lia.
Qed.

Lemma developer_ids_found T u :
  In u (users T) -> u_role u = role_developer ->
  Nat.ltb 0 (length (developer_ids T)) = true.
Proof.
  intros Hin Hrole. unfold developer_ids. rewrite length_map.
  induction (users T) as [| v l IH]; [destruct Hin |]. cbn.
  destruct Hin as [-> | Hin].
  - by rewrite Hrole.
  - destruct (role_eqb (u_role v) role_developer); [reflexivity | by apply IH].
Qed.

Lemma developer_ids_none T :
  (forall u, In u (users T) -> u_role u <> role_developer) ->
  developer_ids T = [].
Proof.
  intros H. unfold developer_ids. rewrite filter_none; [reflexivity |].
  intros u Hin. destruct (role_eqb (u_role u) role_developer) eqn:Hr;
    [| reflexivity].
  apply role_eqb_eq in Hr. by destruct (H u Hin).
Qed.

(** X23: [setupDatabase] leaves a store that has a developer alone.  In a
    store without open transactions whose users table holds a developer,
    whatever its email, and with the nine statements answered, the script
    exits 0 having written nothing: no table and no transaction has
    changed. *)
Theorem setup_keeps_an_existing_developer E refused w u :
  quiescent w ->
  accepted_from refused (clock w) 9 ->
  In u (users (committed w)) ->
  u_role u = role_developer ->
  fst (setupDatabase E refused w) = 0
  /\ committed (snd (setupDatabase E refused w)) = committed w
  /\ txns (snd (setupDatabase E refused w)) = txns w
  /\ journal (snd (setupDatabase E refused w)) = journal w.
Proof.
  intros Hq Hacc Hin Hrole.
  rewrite (setupDatabase_run E refused w Hq Hacc).
  rewrite (developer_ids_found _ u Hin Hrole), iter_tick. done.
Qed.

Lemma setup_keeps_an_existing_developer_witness :
  fst (setupDatabase calm obliging with_alpha) = 0
  /\ committed (snd (setupDatabase calm obliging with_alpha))
     = committed with_alpha
  /\ txns (snd (setupDatabase calm obliging with_alpha)) = txns with_alpha
  /\ journal (snd (setupDatabase calm obliging with_alpha))
     = journal with_alpha.
Proof.
  apply (setup_keeps_an_existing_developer calm obliging with_alpha dev).
  - reflexivity.
  - intros k q _. reflexivity.
  - by left.
  - reflexivity.
Defined.

(** X24: the credentials [setup.js] prints do log in.  In a store without
    open transactions that holds no developer, where the default email and
    the id drawn are free and the statements are answered, the script
    exits 0 having appended exactly one user, the default developer with
    the hash of admin123; a developer login with admin@coopbase.com and
    admin123 is then answered 200 with that user's session, provided
    [bcrypt.compare] accepts the hash [bcrypt.hash] made and the stored
    emails were unique. *)
Theorem setup_then_default_login E refused w :
  quiescent w ->
  accepted_from refused (clock w) 10 ->
  (forall u, In u (users (committed w)) -> u_role u <> role_developer) ->
  ~ In "admin@coopbase.com" (map u_email (users (committed w))) ->
  ~ In (uuid E (uuids w)) (map u_id (users (committed w))) ->
  unique_emails (committed w) ->
  bcrypt_compare E "admin123" (bcrypt_hash E "admin123") = true ->
  fault E (clock w + 10) SELECT_developer_by_email = false ->
  let w' := snd (setupDatabase E refused w) in
  fst (setupDatabase E refused w) = 0
  /\ users (committed w')
     = users (committed w) ++ [default_developer E (uuid E (uuids w))]
  /\ societies (committed w') = societies (committed w)
  /\ society_documents (committed w') = society_documents (committed w)
  /\ audit_logs (committed w') = audit_logs (committed w)
  /\ fst (developerLogin E default_login w')
     = developer_session E (default_developer E (uuid E (uuids w))).
Proof.
  intros Hq Hacc Hnone Hemail Hid Hue Hbcrypt Hf. cbv zeta.
  rewrite (setupDatabase_run E refused w Hq).
  2: { intros k q Hk. apply Hacc. lia. }
  rewrite (developer_ids_none _ Hnone).
  change (Nat.ltb 0 (@length string [])) with false. cbv iota.
  rewrite (Hacc 9) by lia.
  assert (Hok : admissible
                  (InsertUser (default_developer E (uuid E (uuids w))))
                  (committed w) = true).
  { cbn [admissible default_developer u_id u_email u_society_id references].
    rewrite !andb_true_iff. split; [split |]; [| | reflexivity];
      by apply negb_true_iff, has_string_not_In. }
  rewrite Hok. cbn [fst snd committed apply_write users societies
    society_documents audit_logs].
  do 5 (split; [reflexivity |]).
  match goal with |- fst (developerLogin E _ ?W) = _ => set (w' := W) end.
  assert (Hq' : quiescent w') by exact Hq.
  assert (Hv : visible E w' = committed w').
  { unfold visible. by apply view_quiescent. }
  apply developerLogin_eligible; rewrite ?Hv; try done.
  - apply (unique_emails_registered (committed w) _
             (default_developer E (uuid E (uuids w)))); done.
  - subst w'. cbn [committed users]. rewrite in_app_iff. right. by left.
Qed.

Lemma setup_then_default_login_witness :
  let w' := snd (setupDatabase calm obliging blank) in
  fst (setupDatabase calm obliging blank) = 0
  /\ users (committed w')
     = users (committed blank) ++ [default_developer calm "A"]
  /\ societies (committed w') = societies (committed blank)
  /\ society_documents (committed w') = society_documents (committed blank)
  /\ audit_logs (committed w') = audit_logs (committed blank)
  /\ fst (developerLogin calm default_login w')
     = developer_session calm (default_developer calm "A").
Proof.
  apply (setup_then_default_login calm obliging blank).
  - reflexivity.
  - intros k q _. reflexivity.
  - intros u [].
  - intros [].
  - intros [].
  - intros u1 u2 [].
  - reflexivity.
  - reflexivity.
Defined.

(** X25: [setupDatabase] is idempotent.  Run twice from a store as in X24,
    with every statement answered, it exits 0 both times, and the second
    run writes nothing: the tables are those the first run left, with one
    default developer. *)
Theorem setup_twice_is_setup_once E refused w :
  quiescent w ->
  accepted_from refused (clock w) 19 ->
  (forall u, In u (users (committed w)) -> u_role u <> role_developer) ->
  ~ In "admin@coopbase.com" (map u_email (users (committed w))) ->
  ~ In (uuid E (uuids w)) (map u_id (users (committed w))) ->
  let once := setupDatabase E refused w in
  let twice := setupDatabase E refused (snd once) in
  fst once = 0
  /\ fst twice = 0
  /\ committed (snd twice) = committed (snd once)
  /\ journal (snd twice) = journal (snd once)
  /\ developer_ids (committed (snd twice)) = [uuid E (uuids w)].
Proof.
  intros Hq Hacc Hnone Hemail Hid. cbv zeta.
  rewrite (setupDatabase_run E refused w Hq).
  2: { intros k q Hk. apply Hacc. lia. }
  rewrite (developer_ids_none _ Hnone).
  change (Nat.ltb 0 (@length string [])) with false. cbv iota.
  rewrite (Hacc 9) by lia.
  assert (Hok : admissible
                  (InsertUser (default_developer E (uuid E (uuids w))))
                  (committed w) = true).
  { cbn [admissible default_developer u_id u_email u_society_id references].
    rewrite !andb_true_iff. split; [split |]; [| | reflexivity];
      by apply negb_true_iff, has_string_not_In. }
  rewrite Hok. cbn [fst snd].
  match goal with
  | |- context [setupDatabase E refused ?W] => set (w1 := W)
  end.
  assert (Hq1 : quiescent w1) by exact Hq.
  assert (Hacc1 : accepted_from refused (clock w1) 9).
  { intros k q Hk. subst w1. cbn [clock]. rewrite <- Nat.add_assoc.
    apply Hacc. lia. }
  assert (Hdev : developer_ids (committed w1) = [uuid E (uuids w)]).
  { subst w1. cbn [committed apply_write]. unfold developer_ids.
    cbn [users]. rewrite List.filter_app, map_app.
    fold (developer_ids (committed w)). rewrite (developer_ids_none _ Hnone).
    reflexivity. }
  rewrite (setupDatabase_run E refused w1 Hq1 Hacc1), Hdev.
  change (Nat.ltb 0 (length [uuid E (uuids w)])) with true. cbv iota.
  rewrite iter_tick. cbn [fst snd committed journal]. done.
Qed.

Lemma setup_twice_is_setup_once_witness :
  let once := setupDatabase calm obliging blank in
  let twice := setupDatabase calm obliging (snd once) in
  fst once = 0
  /\ fst twice = 0
  /\ committed (snd twice) = committed (snd once)
  /\ journal (snd twice) = journal (snd once)
  /\ developer_ids (committed (snd twice)) = ["A"].
Proof.
  apply (setup_twice_is_setup_once calm obliging blank).
  - reflexivity.
  - intros k q _. reflexivity.
  - intros u [].
  - intros [].
  - intros [].
Defined.

(** ** Society details *)

(** What [getSocietyDetails] answers, statement by statement. *)
Lemma getSocietyDetails_run E refused newer id w :
  getSocietyDetails E refused newer id w
  = if refused (clock w) SELECT_society_with_admin
    then (details_failed, tick w)
    else match society_with_admin id (visible E w) with
         | [] => (society_not_found, tick w)
         | society :: _ =>
             if refused (S (clock w)) SELECT_society_documents
             then (details_failed, tick (tick w))
             else (details_found society
                     (documents_of newer id (visible E (tick w))),
                   tick (tick w))
         end.
Proof.
  unfold getSocietyDetails, and_then.
  destruct (refused (clock w) SELECT_society_with_admin) eqn:H1.
  { by rewrite execute_refused. }
  rewrite execute_rows by exact H1.
  destruct (society_with_admin id (visible E w)) as [| society rest];
    [reflexivity |].
  destruct (refused (S (clock w)) SELECT_society_documents) eqn:H2.
  { by rewrite execute_refused. }
  by rewrite execute_rows.
Qed.

Lemma society_with_admin_nil id T :
  society_with_admin id T = [] <-> ~ In id (map s_id (societies T)).
Proof.
  unfold society_with_admin.
  induction (societies T) as [| s l IH]; cbn; [tauto |].
  destruct (String.eqb (s_id s) id) eqn:Hs.
  - apply String.eqb_eq in Hs. cbn. split; [| tauto].
    destruct (List.filter _ (users T)); discriminate.
  - apply String.eqb_neq in Hs. rewrite IH. tauto.
Qed.

Lemma society_with_admin_id id T row :
  In row (society_with_admin id T) -> s_id (wa_society row) = id.
Proof.
  unfold society_with_admin. rewrite in_flat_map.
  intros (s & Hs & Hrow). apply filter_In in Hs. destruct Hs as [_ Hs].
  apply String.eqb_eq in Hs.
  destruct (List.filter _ (users T)) as [| u admins].
  - destruct Hrow as [<- | []]. exact Hs.
  - apply in_map_iff in Hrow. destruct Hrow as (v & <- & _). exact Hs.
Qed.

Lemma insert_by_perm {A} (before : A -> A -> bool) a l :
  Permutation (insert_by before a l) (a :: l).
Proof.
  induction l as [| b l IH]; [reflexivity |]. cbn [insert_by].
  destruct (before a b); [reflexivity |].
  rewrite IH. apply perm_swap.
Qed.

(** Whatever the server answers, it returns the rows it was given. *)
Lemma order_by_perm {A} (before : A -> A -> bool) l :
  Permutation (order_by before l) l.
Proof.
  induction l as [| a l IH]; [reflexivity |].
  cbn [order_by fold_right]. fold (order_by before l).
  rewrite insert_by_perm. by constructor.
Qed.

Lemma documents_of_society newer id T :
  Forall (fun d => d_society_id d = id) (documents_of newer id T).
Proof.
  unfold documents_of. apply List.Forall_forall. intros d Hin.
  apply (Permutation_in _ (order_by_perm newer _)) in Hin.
  apply filter_In in Hin. destruct Hin as [_ Hin].
  by apply String.eqb_eq.
Qed.

(** X26: [getSocietyDetails] writes nothing: the tables, the open
    transactions and the journal are what they were.  When its first statement is answered it answers 404
    exactly when no society it reads has the id asked for; and whatever it
    returns in a 200 is the society with that id with documents of that
    society only. *)
Theorem getSocietyDetails_reads E refused newer id w :
  let r := getSocietyDetails E refused newer id w in
  committed (snd r) = committed w
  /\ txns (snd r) = txns w
  /\ journal (snd r) = journal w
  /\ (refused (clock w) SELECT_society_with_admin = false ->
      (details_status (fst r) = 404
       <-> ~ In id (map s_id (societies (visible E w)))))
  /\ (forall m society documents,
        details_json (fst r) = DetailsBody m society documents ->
        s_id (wa_society society) = id
        /\ Forall (fun d => d_society_id d = id) documents).
Proof.
  cbv zeta. rewrite getSocietyDetails_run.
  destruct (refused (clock w) SELECT_society_with_admin) eqn:H1.
  { cbn. do 3 (split; [reflexivity |]). split; [discriminate |].
    discriminate. }
  destruct (society_with_admin id (visible E w)) as [| society rest] eqn:Hq.
  { cbn. do 3 (split; [reflexivity |]). split; [| discriminate].
    intros _. split; [intros _; by apply society_with_admin_nil | done]. }
  assert (Hknown : In id (map s_id (societies (visible E w)))).
  { destruct (in_dec String.string_dec id
                (map s_id (societies (visible E w)))) as [Hin | Hout];
      [exact Hin |].
    apply society_with_admin_nil in Hout. congruence. }
  assert (Hid : s_id (wa_society society) = id).
  { apply (society_with_admin_id id (visible E w)). rewrite Hq. by left. }
  destruct (refused (S (clock w)) SELECT_society_documents).
  { cbn. do 3 (split; [reflexivity |]).
    split; [| discriminate]. intros _. split; [discriminate | tauto]. }
  cbn [fst snd committed txns journal tick details_status details_json
       details_found].
  do 3 (split; [reflexivity |]).
  split; [intros _; split; [discriminate | tauto] |].
  intros m s docs [= _ <- <-]. split; [exact Hid |].
  apply documents_of_society.
Qed.

Lemma getSocietyDetails_reads_witness :
  let r := getSocietyDetails calm obliging last_first "beta" with_alpha in
  committed (snd r) = committed with_alpha
  /\ txns (snd r) = txns with_alpha
  /\ journal (snd r) = journal with_alpha
  /\ details_status (fst r) = 404.
Proof.
  destruct (getSocietyDetails_reads calm obliging last_first "beta" with_alpha)
    as (Hc & Ht & Hj & H404 & _).
  split; [exact Hc |]. split; [exact Ht |]. split; [exact Hj |].
  apply (H404 eq_refl). vm_compute. intros [H | []]. discriminate H.
Defined.

(** X27: the details of a society that has just registered.  After a
    registration that went through on one connection that had no
    transaction open, [getSocietyDetails] for the id the registration
    returned answers 200 with the society of that id, its name, number,
    type and address as registered and its status pending, with the name,
    email and phone of its administrator, and with exactly the document
    rows of the accepted files, one per file, in whatever order the server
    returns them. *)
Theorem details_of_a_registration
    E refused newer c w req certificate bylaw extra :
  fields_missing req = false ->
  as_uploaded (files req) certificate bylaw extra ->
  pinned E c (clock w) ->
  txns w !! c = None ->
  answered E (clock w) (8 + length extra) ->
  fresh_ids E w (4 + length extra) ->
  ~ In (str (registrationNumber req))
      (map s_registration_number (societies (committed w))) ->
  ~ In (str (adminEmail req)) (map u_email (users (committed w))) ->
  unreferenced (uuid E (uuids w)) (committed w) ->
  accepted_from refused (clock w + 9 + length extra) 2 ->
  let w' := snd (societyRegister E req w) in
  exists society documents,
    fst (getSocietyDetails E refused newer (uuid E (uuids w)) w')
    = details_found society documents
    /\ s_id (wa_society society) = uuid E (uuids w)
    /\ s_name (wa_society society) = str (societyName req)
    /\ s_registration_number (wa_society society)
       = str (registrationNumber req)
    /\ s_society_type (wa_society society) = str (societyType req)
    /\ s_address (wa_society society) = str (societyAddress req)
    /\ s_status (wa_society society) = status_pending
    /\ wa_admin_name society = Some (str (adminName req))
    /\ wa_admin_email society = Some (str (adminEmail req))
    /\ wa_admin_phone society = Some (str (adminPhone req))
    /\ Permutation documents
         (new_documents E w (accepted certificate bylaw extra))
    /\ map recorded (new_documents E w (accepted certificate bylaw extra))
       = map (expected (uuid E (uuids w)))
           (accepted certificate bylaw extra).
Proof.
  intros Hfields Hup Hpin Hidle Hans Hfresh Hnum Hemail [Hnu Hnd] Hacc.
  destruct (registered_state E c w req certificate bylaw extra Hfields Hup
              Hpin Hidle Hans Hfresh Hnum Hemail)
    as (w' & -> & Hb & Htx & Hclock).
  cbv zeta. cbn [snd].
  assert (Hs := f_equal (fun b => fst (fst b)) Hb).
  assert (Hu := f_equal (fun b => snd (fst b)) Hb).
  assert (Hd := f_equal snd Hb).
  cbn [business fst snd] in Hs, Hu, Hd.
  assert (Hv1 : visible E w' = committed w').
  { apply (visible_idle E c); [apply Hpin; lia | by rewrite Htx]. }
  assert (Hv2 : visible E (tick w') = committed w').
  { apply (visible_idle E c (tick w'));
      [apply Hpin; cbn; lia | by cbn; rewrite Htx]. }
  destruct (fresh_ids_split E w _ 0 Hfresh ltac:(lia)) as (Hsid & _).
  rewrite Nat.add_0_r in Hsid.
  assert (Hr1 : refused (clock w') SELECT_society_with_admin = false).
  { rewrite Hclock, <- (Nat.add_0_r (clock w + 9 + length extra)).
    apply Hacc. lia. }
  assert (Hr2 : refused (S (clock w')) SELECT_society_documents = false).
  { rewrite Hclock, <- Nat.add_1_r. apply Hacc. lia. }
  assert (Hrow : society_with_admin (uuid E (uuids w)) (committed w')
                 = [with_admin (new_society E w req)
                      (Some (new_admin E w req))]).
  { unfold society_with_admin. rewrite Hs, Hu, List.filter_app.
    rewrite (filter_none _ (societies (committed w))).
    2: { intros s Hin. apply String.eqb_neq. intros Heq. apply Hsid.
         rewrite <- Heq. by apply in_map. }
    cbn [List.filter app new_society society_row s_id].
    rewrite String.eqb_refl. cbn [flat_map app].
    rewrite List.filter_app, (filter_none _ (users (committed w))).
    2: { intros u Hin. cbn [new_society society_row s_id].
         apply andb_false_iff. left.
         destruct (opt_string_eqb (u_society_id u) (uuid E (uuids w))) eqn:Hx;
           [| reflexivity].
         apply opt_string_eqb_eq in Hx. by destruct (Hnu u Hin). }
    cbn [List.filter app new_admin admin_row u_society_id u_role
         opt_string_eqb role_eqb new_society society_row s_id].
    by rewrite String.eqb_refl. }
  rewrite getSocietyDetails_run, Hr1, Hv1, Hrow, Hr2, Hv2. cbn [fst].
  eexists _, _. split; [reflexivity |].
  do 9 (split; [reflexivity |]).
  split; [| apply stored_from_recorded].
  unfold documents_of. rewrite order_by_perm.
  rewrite Hd, List.filter_app, (filter_none _ (society_documents (committed w))).
  2: { intros d Hin. apply String.eqb_neq. by apply Hnd. }
  rewrite filter_all; [reflexivity |].
  intros d Hin. apply String.eqb_eq. by apply stored_from_society in Hin.
Qed.

Lemma details_of_a_registration_witness :
  let req := register_alpha (Some "Alpha Co-op") three_files in
  let w' := snd (societyRegister calm req fresh) in
  exists society documents,
    fst (getSocietyDetails calm obliging last_first "A" w')
    = details_found society documents
    /\ s_id (wa_society society) = "A"
    /\ s_name (wa_society society) = "Alpha Co-op"
    /\ s_registration_number (wa_society society) = "RC-001"
    /\ s_society_type (wa_society society) = "credit"
    /\ s_address (wa_society society) = "1 Main St"
    /\ s_status (wa_society society) = status_pending
    /\ wa_admin_name society = Some "Ada"
    /\ wa_admin_email society = Some "a@alpha.coop"
    /\ wa_admin_phone society = Some "555"
    /\ Permutation documents
         (new_documents calm fresh
            (accepted certificate_png bylaws_pdf [minutes_png]))
    /\ map recorded
         (new_documents calm fresh
            (accepted certificate_png bylaws_pdf [minutes_png]))
       = map (expected "A")
           (accepted certificate_png bylaws_pdf [minutes_png]).
Proof.
  apply (details_of_a_registration calm obliging last_first 0 fresh
           (register_alpha (Some "Alpha Co-op") three_files)
           certificate_png bylaws_pdf [minutes_png]).
  - reflexivity.
  - exact as_uploaded_three_files.
  - intros t _. reflexivity.
  - reflexivity.
  - intros k q _. reflexivity.
  - apply fresh_ids_fresh. cbn. lia.
  - intros [].
  - intros [H | []]. discriminate H.
  - split.
    + intros u [<- | []]. discriminate.
    + intros d [].
  - intros k q _. reflexivity.
Defined.

(** ** The statuses the handlers answer with *)

Lemma societyRegister_unit_status E req w :
  In (status (fst (handle
                     (try_catch (register_unit E req (files req))
                        (fun error =>
                           let! _ := query E ROLLBACK (control rollback_on) in
                           throw error))
                     registration_failed w)))
    [201; 500].
Proof.
  unfold handle, try_catch.
  destruct (register_unit E req (files req) w) as [o wu] eqn:Hunit.
  destruct (register_unit_progress E req (files req) w o wu Hunit)
    as [((e & ->) & _) | (society & user & rows & wc & -> & _)].
  - unfold bind. destruct (query E ROLLBACK (control rollback_on) wu)
      as [[[] | e'] wr]; cbn; tauto.
  - cbn. tauto.
Qed.

(** X29: the statuses each handler can answer with, whatever the request,
    the environment and the store.  In particular no handler ever answers
    404: an approval update for an id that names no society is not told
    apart from one that changed a row. *)
Theorem statuses_answered E w :
  (forall req, In (status (fst (developerLogin E req w))) [200; 400; 401; 500])
  /\ (forall req,
        In (status (fst (societyLogin E req w))) [200; 400; 401; 403; 500])
  /\ (forall req,
        In (status (fst (societyRegister E req w))) [201; 400; 409; 500])
  /\ (forall req,
        In (status (fst (getPendingSocieties E req w))) [200; 401; 403; 500])
  /\ (forall req,
        In (status (fst (updateSocietyApproval E req w)))
          [200; 400; 401; 403; 500]).
Proof.
  split; [| split; [| split; [| split]]]; intros req.
  - rewrite developerLogin_run.
    repeat match goal with
           | |- context [if ?b then _ else _] => destruct b
           | |- context [match ?x with _ => _ end] => destruct x
           end; cbn; tauto.
  - rewrite societyLogin_run.
    repeat match goal with
           | |- context [if ?b then _ else _] => destruct b
           | |- context [match ?x with _ => _ end] => destruct x
           end; cbn; tauto.
  - rewrite societyRegister_run.
    destruct (fields_missing req); [cbn; tauto |].
    destruct (fault E (clock w) SELECT_society_by_registration_number);
      [cbn; tauto |].
    destruct (Nat.ltb 0 _); [cbn; tauto |].
    destruct (fault E (S (clock w)) SELECT_user_by_email); [cbn; tauto |].
    destruct (Nat.ltb 0 _); [cbn; tauto |].
    destruct (files_missing (files req)); [cbn; tauto |].
    destruct (fault E (S (S (clock w))) START_TRANSACTION); [cbn; tauto |].
    destruct (societyRegister_unit_status E req (begun E w)) as [<- | [<- | []]];
      cbn; tauto.
  - rewrite getPendingSocieties_run.
    repeat match goal with
           | |- context [if ?b then _ else _] => destruct b
           | |- context [match ?x with _ => _ end] => destruct x
           end; cbn; tauto.
  - unfold updateSocietyApproval, handle, bind.
    destruct (decision (approval_status req)); [| cbn; tauto].
    destruct (negb (truthy _)); [cbn; tauto |].
    destruct (jwt_verify E _); [| cbn; tauto].
    destruct (negb (String.eqb _ _)); [cbn; tauto |].
    destruct (query E UPDATE_societies_status _ w) as [[[] | e] w1];
      [| cbn; tauto].
    rewrite logAuditTrail_audited. cbn. tauto.
Qed.

(** ** A registration answered 201 and lost *)

(** C6: the failing input.  Alpha Co-op registers while the pool serves
    its COMMIT on another connection than the one its unit ran on: the
    request is answered 201 and names the society, but no society, user or
    document row is committed.  Beta Co-op then registers; its INSERT INTO
    users fails and its ROLLBACK is served by the connection that still
    holds Alpha's rows: afterwards the committed tables are what they were
    before Alpha registered, and no connection reads a row of Alpha. *)
Theorem C6_registration_lost :
  let first :=
    societyRegister lost_commit
      (register_alpha (Some "Alpha Co-op") both_files) fresh in
  let second := societyRegister lost_commit register_beta (snd first) in
  fst first = registration_done "A" (accepted certificate_png bylaws_pdf [])
  /\ committed (snd first) = committed fresh
  /\ fst second = registration_failed
  /\ committed (snd second) = committed fresh
  /\ forall c, view (snd second) c = committed fresh.
Proof.
  cbv zeta.
  split; [vm_compute; reflexivity |].
  split; [vm_compute; reflexivity |].
  split; [vm_compute; reflexivity |].
  assert (Hc : committed
                 (snd (societyRegister lost_commit register_beta
                         (snd (societyRegister lost_commit
                                 (register_alpha (Some "Alpha Co-op")
                                    both_files) fresh))))
               = committed fresh) by (vm_compute; reflexivity).
  assert (Ht : txns
                 (snd (societyRegister lost_commit register_beta
                         (snd (societyRegister lost_commit
                                 (register_alpha (Some "Alpha Co-op")
                                    both_files) fresh))))
               = {[1 := []]}) by (vm_compute; reflexivity).
  split; [exact Hc |].
  intros c. unfold view, staged. rewrite Hc, Ht.
  destruct (decide (c = 1)) as [-> | Hne].
  - by rewrite lookup_singleton_eq.
  - by rewrite lookup_singleton_ne.
Qed.

(** ** Approving twice *)





